(** * SimpleMicroservices: the in-memory resource stores and order pricing

    A shallow embedding of [main.py], [models/product.py] and
    [models/order.py].  Python floats are IEEE binary64 values, modelled by
    Rocq's primitive floats; Python strs are modelled by their UTF-8
    encoding, with the case tables of Unicode for [lower]; the four
    module-level dicts are insertion-ordered association lists; handlers are
    computations in a state-and-exception monad over the four stores. *)

From Stdlib Require Import ZArith List Bool String Ascii Lia.
From Stdlib Require Import Floats.
Import ListNotations.

Set Implicit Arguments.

(** A decimal literal stands for the nearest binary64 value, as in Python. *)
Set Warnings "-inexact-float".

(** ** Python numbers *)

Module PyFloat.

(** [float(n)] for a Python int [n], as used by [float * int]: the nearest
    binary64 value, ties to even; [None] stands for the [OverflowError]
    raised when [n] is too large. *)
Definition of_int (n : Z) : option float :=
  match binary_normalize prec emax n 0 false with
  | S754_infinity _ => None
  | sf => Some (SF2Prim sf)
  end.

(** Nearest integer to [p / q], ties to the even one ([q > 0], [p >= 0]). *)
Definition div_half_even (p q : Z) : Z :=
  let d := (p / q)%Z in
  let r := (p mod q)%Z in
  match (2 * r ?= q)%Z with
  | Lt => d
  | Gt => (d + 1)%Z
  | Eq => if Z.even d then d else (d + 1)%Z
  end.

(** [n / 100] as a binary64 value, for [0 <= n < 2^53]: both operands are
    exact, so the IEEE division is the correctly rounded quotient. *)
Definition hundredths (n : Z) : float :=
  (SF2Prim (binary_normalize prec emax n 0 false) / 100)%float.

(** [round(x, 2)] of the Python runtime: the exact value of [x] is rounded
    to two decimals (ties to even) and the decimal is read back as the
    nearest binary64 value.  Zeros, infinities, NaN and values that are
    already integers are returned as they are; so are values from [2^46]
    on, whose neighbours are further apart than [0.01]. *)
Definition round2 (x : float) : float :=
  match Prim2SF x with
  | S754_finite s m e =>
      if (0 <=? e)%Z then x
      else
        let n := div_half_even (Zpos m * 100) (Z.pow 2 (- e)) in
        if (n <? 2 ^ 53)%Z then
          if s then (- hundredths n)%float else hundredths n
        else x
  | _ => x
  end.

End PyFloat.

(** ** Python strings *)

(** A Python [str] is a sequence of Unicode code points.  It is modelled by
    its UTF-8 encoding, the bytes a string literal of this file holds.  Two
    strs are equal exactly when their encodings are; one str occurs in
    another exactly when its encoding occurs in the other's encoding, and
    [len] is the number of code points (both are proved below); [lower] goes
    through the code points. *)
Module PyStr.

Definition byte (c : ascii) : N := N_of_ascii c.

(** A byte [10xxxxxx], which carries six more bits of a code point. *)
Definition continuation (c : ascii) : bool :=
  ((0x80 <=? byte c) && (byte c <? 0xC0))%N.

Definition six_bits (c : ascii) : N := (byte c - 0x80)%N.

(** The code points of a str, read off its encoding; [None] for bytes that
    encode no str (a stray or missing continuation byte, an overlong form, a
    surrogate, a value above [0x10FFFF]). *)
Fixpoint decode (s : string) : option (list N) :=
  match s with
  | EmptyString => Some []
  | String b0 s1 =>
      let n0 := byte b0 in
      if (n0 <? 0x80)%N then option_map (cons n0) (decode s1)
      else if (n0 <? 0xC2)%N then None
      else if (n0 <? 0xE0)%N then
        match s1 with
        | String b1 s2 =>
            if continuation b1
            then option_map (cons ((n0 - 0xC0) * 64 + six_bits b1)%N) (decode s2)
            else None
        | _ => None
        end
      else if (n0 <? 0xF0)%N then
        match s1 with
        | String b1 (String b2 s3) =>
            let c := ((n0 - 0xE0) * 4096 + six_bits b1 * 64 + six_bits b2)%N in
            if continuation b1 && continuation b2
               && (0x800 <=? c)%N && negb ((0xD800 <=? c) && (c <=? 0xDFFF))%N
            then option_map (cons c) (decode s3)
            else None
        | _ => None
        end
      else if (n0 <? 0xF5)%N then
        match s1 with
        | String b1 (String b2 (String b3 s4)) =>
            let c := ((n0 - 0xF0) * 262144 + six_bits b1 * 4096
                      + six_bits b2 * 64 + six_bits b3)%N in
            if continuation b1 && continuation b2 && continuation b3
               && (0x10000 <=? c)%N && (c <=? 0x10FFFF)%N
            then option_map (cons c) (decode s4)
            else None
        | _ => None
        end
      else None
  end.

(** The encoding of one code point, and of a sequence of them. *)
Definition encode_one (c : N) : string :=
  let chr (n : N) := ascii_of_N n in
  if (c <? 0x80)%N then String (chr c) EmptyString
  else if (c <? 0x800)%N then
    String (chr (0xC0 + c / 64)%N) (String (chr (0x80 + c mod 64)%N) EmptyString)
  else if (c <? 0x10000)%N then
    String (chr (0xE0 + c / 4096)%N)
      (String (chr (0x80 + (c / 64) mod 64)%N)
         (String (chr (0x80 + c mod 64)%N) EmptyString))
  else
    String (chr (0xF0 + c / 262144)%N)
      (String (chr (0x80 + (c / 4096) mod 64)%N)
         (String (chr (0x80 + (c / 64) mod 64)%N)
            (String (chr (0x80 + c mod 64)%N) EmptyString))).

Fixpoint encode (cps : list N) : string :=
  match cps with
  | [] => EmptyString
  | c :: rest => (encode_one c ++ encode rest)%string
  end.

(** [len(s)]: the number of code points, each of which has one byte that
    is not a continuation byte. *)
Fixpoint len (s : string) : nat :=
  match s with
  | EmptyString => 0
  | String c s' => if continuation c then len s' else S (len s')
  end.

(** The case tables of the Unicode character database, in the version
    CPython 3.11 carries (Unicode 14.0), as ranges of code points, both ends
    included. *)

(** The code points with the property Case_Ignorable. *)
Definition case_ignorable_ranges : list (N * N) :=
  [
   (0x27, 0x27); (0x2E, 0x2E); (0x3A, 0x3A); (0x5E, 0x5E); (0x60, 0x60);
   (0xA8, 0xA8); (0xAD, 0xAD); (0xAF, 0xAF); (0xB4, 0xB4); (0xB7, 0xB8);
   (0x2B0, 0x36F); (0x374, 0x375); (0x37A, 0x37A); (0x384, 0x385); (0x387, 0x387);
   (0x483, 0x489); (0x559, 0x559); (0x55F, 0x55F); (0x591, 0x5BD); (0x5BF, 0x5BF);
   (0x5C1, 0x5C2); (0x5C4, 0x5C5); (0x5C7, 0x5C7); (0x5F4, 0x5F4); (0x600, 0x605);
   (0x610, 0x61A); (0x61C, 0x61C); (0x640, 0x640); (0x64B, 0x65F); (0x670, 0x670);
   (0x6D6, 0x6DD); (0x6DF, 0x6E8); (0x6EA, 0x6ED); (0x70F, 0x70F); (0x711, 0x711);
   (0x730, 0x74A); (0x7A6, 0x7B0); (0x7EB, 0x7F5); (0x7FA, 0x7FA); (0x7FD, 0x7FD);
   (0x816, 0x82D); (0x859, 0x85B); (0x888, 0x888); (0x890, 0x891); (0x898, 0x89F);
   (0x8C9, 0x902); (0x93A, 0x93A); (0x93C, 0x93C); (0x941, 0x948); (0x94D, 0x94D);
   (0x951, 0x957); (0x962, 0x963); (0x971, 0x971); (0x981, 0x981); (0x9BC, 0x9BC);
   (0x9C1, 0x9C4); (0x9CD, 0x9CD); (0x9E2, 0x9E3); (0x9FE, 0x9FE); (0xA01, 0xA02);
   (0xA3C, 0xA3C); (0xA41, 0xA42); (0xA47, 0xA48); (0xA4B, 0xA4D); (0xA51, 0xA51);
   (0xA70, 0xA71); (0xA75, 0xA75); (0xA81, 0xA82); (0xABC, 0xABC); (0xAC1, 0xAC5);
   (0xAC7, 0xAC8); (0xACD, 0xACD); (0xAE2, 0xAE3); (0xAFA, 0xAFF); (0xB01, 0xB01);
   (0xB3C, 0xB3C); (0xB3F, 0xB3F); (0xB41, 0xB44); (0xB4D, 0xB4D); (0xB55, 0xB56);
   (0xB62, 0xB63); (0xB82, 0xB82); (0xBC0, 0xBC0); (0xBCD, 0xBCD); (0xC00, 0xC00);
   (0xC04, 0xC04); (0xC3C, 0xC3C); (0xC3E, 0xC40); (0xC46, 0xC48); (0xC4A, 0xC4D);
   (0xC55, 0xC56); (0xC62, 0xC63); (0xC81, 0xC81); (0xCBC, 0xCBC); (0xCBF, 0xCBF);
   (0xCC6, 0xCC6); (0xCCC, 0xCCD); (0xCE2, 0xCE3); (0xD00, 0xD01); (0xD3B, 0xD3C);
   (0xD41, 0xD44); (0xD4D, 0xD4D); (0xD62, 0xD63); (0xD81, 0xD81); (0xDCA, 0xDCA);
   (0xDD2, 0xDD4); (0xDD6, 0xDD6); (0xE31, 0xE31); (0xE34, 0xE3A); (0xE46, 0xE4E);
   (0xEB1, 0xEB1); (0xEB4, 0xEBC); (0xEC6, 0xEC6); (0xEC8, 0xECD); (0xF18, 0xF19);
   (0xF35, 0xF35); (0xF37, 0xF37); (0xF39, 0xF39); (0xF71, 0xF7E); (0xF80, 0xF84);
   (0xF86, 0xF87); (0xF8D, 0xF97); (0xF99, 0xFBC); (0xFC6, 0xFC6); (0x102D, 0x1030);
   (0x1032, 0x1037); (0x1039, 0x103A); (0x103D, 0x103E); (0x1058, 0x1059); (0x105E, 0x1060);
   (0x1071, 0x1074); (0x1082, 0x1082); (0x1085, 0x1086); (0x108D, 0x108D); (0x109D, 0x109D);
   (0x10FC, 0x10FC); (0x135D, 0x135F); (0x1712, 0x1714); (0x1732, 0x1733); (0x1752, 0x1753);
   (0x1772, 0x1773); (0x17B4, 0x17B5); (0x17B7, 0x17BD); (0x17C6, 0x17C6); (0x17C9, 0x17D3);
   (0x17D7, 0x17D7); (0x17DD, 0x17DD); (0x180B, 0x180F); (0x1843, 0x1843); (0x1885, 0x1886);
   (0x18A9, 0x18A9); (0x1920, 0x1922); (0x1927, 0x1928); (0x1932, 0x1932); (0x1939, 0x193B);
   (0x1A17, 0x1A18); (0x1A1B, 0x1A1B); (0x1A56, 0x1A56); (0x1A58, 0x1A5E); (0x1A60, 0x1A60);
   (0x1A62, 0x1A62); (0x1A65, 0x1A6C); (0x1A73, 0x1A7C); (0x1A7F, 0x1A7F); (0x1AA7, 0x1AA7);
   (0x1AB0, 0x1ACE); (0x1B00, 0x1B03); (0x1B34, 0x1B34); (0x1B36, 0x1B3A); (0x1B3C, 0x1B3C);
   (0x1B42, 0x1B42); (0x1B6B, 0x1B73); (0x1B80, 0x1B81); (0x1BA2, 0x1BA5); (0x1BA8, 0x1BA9);
   (0x1BAB, 0x1BAD); (0x1BE6, 0x1BE6); (0x1BE8, 0x1BE9); (0x1BED, 0x1BED); (0x1BEF, 0x1BF1);
   (0x1C2C, 0x1C33); (0x1C36, 0x1C37); (0x1C78, 0x1C7D); (0x1CD0, 0x1CD2); (0x1CD4, 0x1CE0);
   (0x1CE2, 0x1CE8); (0x1CED, 0x1CED); (0x1CF4, 0x1CF4); (0x1CF8, 0x1CF9); (0x1D2C, 0x1D6A);
   (0x1D78, 0x1D78); (0x1D9B, 0x1DFF); (0x1FBD, 0x1FBD); (0x1FBF, 0x1FC1); (0x1FCD, 0x1FCF);
   (0x1FDD, 0x1FDF); (0x1FED, 0x1FEF); (0x1FFD, 0x1FFE); (0x200B, 0x200F); (0x2018, 0x2019);
   (0x2024, 0x2024); (0x2027, 0x2027); (0x202A, 0x202E); (0x2060, 0x2064); (0x2066, 0x206F);
   (0x2071, 0x2071); (0x207F, 0x207F); (0x2090, 0x209C); (0x20D0, 0x20F0); (0x2C7C, 0x2C7D);
   (0x2CEF, 0x2CF1); (0x2D6F, 0x2D6F); (0x2D7F, 0x2D7F); (0x2DE0, 0x2DFF); (0x2E2F, 0x2E2F);
   (0x3005, 0x3005); (0x302A, 0x302D); (0x3031, 0x3035); (0x303B, 0x303B); (0x3099, 0x309E);
   (0x30FC, 0x30FE); (0xA015, 0xA015); (0xA4F8, 0xA4FD); (0xA60C, 0xA60C); (0xA66F, 0xA672);
   (0xA674, 0xA67D); (0xA67F, 0xA67F); (0xA69C, 0xA69F); (0xA6F0, 0xA6F1); (0xA700, 0xA721);
   (0xA770, 0xA770); (0xA788, 0xA78A); (0xA7F2, 0xA7F4); (0xA7F8, 0xA7F9); (0xA802, 0xA802);
   (0xA806, 0xA806); (0xA80B, 0xA80B); (0xA825, 0xA826); (0xA82C, 0xA82C); (0xA8C4, 0xA8C5);
   (0xA8E0, 0xA8F1); (0xA8FF, 0xA8FF); (0xA926, 0xA92D); (0xA947, 0xA951); (0xA980, 0xA982);
   (0xA9B3, 0xA9B3); (0xA9B6, 0xA9B9); (0xA9BC, 0xA9BD); (0xA9CF, 0xA9CF); (0xA9E5, 0xA9E6);
   (0xAA29, 0xAA2E); (0xAA31, 0xAA32); (0xAA35, 0xAA36); (0xAA43, 0xAA43); (0xAA4C, 0xAA4C);
   (0xAA70, 0xAA70); (0xAA7C, 0xAA7C); (0xAAB0, 0xAAB0); (0xAAB2, 0xAAB4); (0xAAB7, 0xAAB8);
   (0xAABE, 0xAABF); (0xAAC1, 0xAAC1); (0xAADD, 0xAADD); (0xAAEC, 0xAAED); (0xAAF3, 0xAAF4);
   (0xAAF6, 0xAAF6); (0xAB5B, 0xAB5F); (0xAB69, 0xAB6B); (0xABE5, 0xABE5); (0xABE8, 0xABE8);
   (0xABED, 0xABED); (0xFB1E, 0xFB1E); (0xFBB2, 0xFBC2); (0xFE00, 0xFE0F); (0xFE13, 0xFE13);
   (0xFE20, 0xFE2F); (0xFE52, 0xFE52); (0xFE55, 0xFE55); (0xFEFF, 0xFEFF); (0xFF07, 0xFF07);
   (0xFF0E, 0xFF0E); (0xFF1A, 0xFF1A); (0xFF3E, 0xFF3E); (0xFF40, 0xFF40); (0xFF70, 0xFF70);
   (0xFF9E, 0xFF9F); (0xFFE3, 0xFFE3); (0xFFF9, 0xFFFB); (0x101FD, 0x101FD); (0x102E0, 0x102E0);
   (0x10376, 0x1037A); (0x10780, 0x10785); (0x10787, 0x107B0); (0x107B2, 0x107BA); (0x10A01, 0x10A03);
   (0x10A05, 0x10A06); (0x10A0C, 0x10A0F); (0x10A38, 0x10A3A); (0x10A3F, 0x10A3F); (0x10AE5, 0x10AE6);
   (0x10D24, 0x10D27); (0x10EAB, 0x10EAC); (0x10F46, 0x10F50); (0x10F82, 0x10F85); (0x11001, 0x11001);
   (0x11038, 0x11046); (0x11070, 0x11070); (0x11073, 0x11074); (0x1107F, 0x11081); (0x110B3, 0x110B6);
   (0x110B9, 0x110BA); (0x110BD, 0x110BD); (0x110C2, 0x110C2); (0x110CD, 0x110CD); (0x11100, 0x11102);
   (0x11127, 0x1112B); (0x1112D, 0x11134); (0x11173, 0x11173); (0x11180, 0x11181); (0x111B6, 0x111BE);
   (0x111C9, 0x111CC); (0x111CF, 0x111CF); (0x1122F, 0x11231); (0x11234, 0x11234); (0x11236, 0x11237);
   (0x1123E, 0x1123E); (0x112DF, 0x112DF); (0x112E3, 0x112EA); (0x11300, 0x11301); (0x1133B, 0x1133C);
   (0x11340, 0x11340); (0x11366, 0x1136C); (0x11370, 0x11374); (0x11438, 0x1143F); (0x11442, 0x11444);
   (0x11446, 0x11446); (0x1145E, 0x1145E); (0x114B3, 0x114B8); (0x114BA, 0x114BA); (0x114BF, 0x114C0);
   (0x114C2, 0x114C3); (0x115B2, 0x115B5); (0x115BC, 0x115BD); (0x115BF, 0x115C0); (0x115DC, 0x115DD);
   (0x11633, 0x1163A); (0x1163D, 0x1163D); (0x1163F, 0x11640); (0x116AB, 0x116AB); (0x116AD, 0x116AD);
   (0x116B0, 0x116B5); (0x116B7, 0x116B7); (0x1171D, 0x1171F); (0x11722, 0x11725); (0x11727, 0x1172B);
   (0x1182F, 0x11837); (0x11839, 0x1183A); (0x1193B, 0x1193C); (0x1193E, 0x1193E); (0x11943, 0x11943);
   (0x119D4, 0x119D7); (0x119DA, 0x119DB); (0x119E0, 0x119E0); (0x11A01, 0x11A0A); (0x11A33, 0x11A38);
   (0x11A3B, 0x11A3E); (0x11A47, 0x11A47); (0x11A51, 0x11A56); (0x11A59, 0x11A5B); (0x11A8A, 0x11A96);
   (0x11A98, 0x11A99); (0x11C30, 0x11C36); (0x11C38, 0x11C3D); (0x11C3F, 0x11C3F); (0x11C92, 0x11CA7);
   (0x11CAA, 0x11CB0); (0x11CB2, 0x11CB3); (0x11CB5, 0x11CB6); (0x11D31, 0x11D36); (0x11D3A, 0x11D3A);
   (0x11D3C, 0x11D3D); (0x11D3F, 0x11D45); (0x11D47, 0x11D47); (0x11D90, 0x11D91); (0x11D95, 0x11D95);
   (0x11D97, 0x11D97); (0x11EF3, 0x11EF4); (0x13430, 0x13438); (0x16AF0, 0x16AF4); (0x16B30, 0x16B36);
   (0x16B40, 0x16B43); (0x16F4F, 0x16F4F); (0x16F8F, 0x16F9F); (0x16FE0, 0x16FE1); (0x16FE3, 0x16FE4);
   (0x1AFF0, 0x1AFF3); (0x1AFF5, 0x1AFFB); (0x1AFFD, 0x1AFFE); (0x1BC9D, 0x1BC9E); (0x1BCA0, 0x1BCA3);
   (0x1CF00, 0x1CF2D); (0x1CF30, 0x1CF46); (0x1D167, 0x1D169); (0x1D173, 0x1D182); (0x1D185, 0x1D18B);
   (0x1D1AA, 0x1D1AD); (0x1D242, 0x1D244); (0x1DA00, 0x1DA36); (0x1DA3B, 0x1DA6C); (0x1DA75, 0x1DA75);
   (0x1DA84, 0x1DA84); (0x1DA9B, 0x1DA9F); (0x1DAA1, 0x1DAAF); (0x1E000, 0x1E006); (0x1E008, 0x1E018);
   (0x1E01B, 0x1E021); (0x1E023, 0x1E024); (0x1E026, 0x1E02A); (0x1E130, 0x1E13D); (0x1E2AE, 0x1E2AE);
   (0x1E2EC, 0x1E2EF); (0x1E8D0, 0x1E8D6); (0x1E944, 0x1E94B); (0x1F3FB, 0x1F3FF); (0xE0001, 0xE0001);
   (0xE0020, 0xE007F); (0xE0100, 0xE01EF)
  ]%N.

(** The code points with the property Cased. *)
Definition cased_ranges : list (N * N) :=
  [
   (0x41, 0x5A); (0x61, 0x7A); (0xAA, 0xAA); (0xB5, 0xB5); (0xBA, 0xBA);
   (0xC0, 0xD6); (0xD8, 0xF6); (0xF8, 0x1BA); (0x1BC, 0x1BF); (0x1C4, 0x293);
   (0x295, 0x2B8); (0x2C0, 0x2C1); (0x2E0, 0x2E4); (0x345, 0x345); (0x370, 0x373);
   (0x376, 0x377); (0x37A, 0x37D); (0x37F, 0x37F); (0x386, 0x386); (0x388, 0x38A);
   (0x38C, 0x38C); (0x38E, 0x3A1); (0x3A3, 0x3F5); (0x3F7, 0x481); (0x48A, 0x52F);
   (0x531, 0x556); (0x560, 0x588); (0x10A0, 0x10C5); (0x10C7, 0x10C7); (0x10CD, 0x10CD);
   (0x10D0, 0x10FA); (0x10FD, 0x10FF); (0x13A0, 0x13F5); (0x13F8, 0x13FD); (0x1C80, 0x1C88);
   (0x1C90, 0x1CBA); (0x1CBD, 0x1CBF); (0x1D00, 0x1DBF); (0x1E00, 0x1F15); (0x1F18, 0x1F1D);
   (0x1F20, 0x1F45); (0x1F48, 0x1F4D); (0x1F50, 0x1F57); (0x1F59, 0x1F59); (0x1F5B, 0x1F5B);
   (0x1F5D, 0x1F5D); (0x1F5F, 0x1F7D); (0x1F80, 0x1FB4); (0x1FB6, 0x1FBC); (0x1FBE, 0x1FBE);
   (0x1FC2, 0x1FC4); (0x1FC6, 0x1FCC); (0x1FD0, 0x1FD3); (0x1FD6, 0x1FDB); (0x1FE0, 0x1FEC);
   (0x1FF2, 0x1FF4); (0x1FF6, 0x1FFC); (0x2071, 0x2071); (0x207F, 0x207F); (0x2090, 0x209C);
   (0x2102, 0x2102); (0x2107, 0x2107); (0x210A, 0x2113); (0x2115, 0x2115); (0x2119, 0x211D);
   (0x2124, 0x2124); (0x2126, 0x2126); (0x2128, 0x2128); (0x212A, 0x212D); (0x212F, 0x2134);
   (0x2139, 0x2139); (0x213C, 0x213F); (0x2145, 0x2149); (0x214E, 0x214E); (0x2160, 0x217F);
   (0x2183, 0x2184); (0x24B6, 0x24E9); (0x2C00, 0x2CE4); (0x2CEB, 0x2CEE); (0x2CF2, 0x2CF3);
   (0x2D00, 0x2D25); (0x2D27, 0x2D27); (0x2D2D, 0x2D2D); (0xA640, 0xA66D); (0xA680, 0xA69D);
   (0xA722, 0xA787); (0xA78B, 0xA78E); (0xA790, 0xA7CA); (0xA7D0, 0xA7D1); (0xA7D3, 0xA7D3);
   (0xA7D5, 0xA7D9); (0xA7F5, 0xA7F6); (0xA7F8, 0xA7FA); (0xAB30, 0xAB5A); (0xAB5C, 0xAB68);
   (0xAB70, 0xABBF); (0xFB00, 0xFB06); (0xFB13, 0xFB17); (0xFF21, 0xFF3A); (0xFF41, 0xFF5A);
   (0x10400, 0x1044F); (0x104B0, 0x104D3); (0x104D8, 0x104FB); (0x10570, 0x1057A); (0x1057C, 0x1058A);
   (0x1058C, 0x10592); (0x10594, 0x10595); (0x10597, 0x105A1); (0x105A3, 0x105B1); (0x105B3, 0x105B9);
   (0x105BB, 0x105BC); (0x10780, 0x10780); (0x10783, 0x10785); (0x10787, 0x107B0); (0x107B2, 0x107BA);
   (0x10C80, 0x10CB2); (0x10CC0, 0x10CF2); (0x118A0, 0x118DF); (0x16E40, 0x16E7F); (0x1D400, 0x1D454);
   (0x1D456, 0x1D49C); (0x1D49E, 0x1D49F); (0x1D4A2, 0x1D4A2); (0x1D4A5, 0x1D4A6); (0x1D4A9, 0x1D4AC);
   (0x1D4AE, 0x1D4B9); (0x1D4BB, 0x1D4BB); (0x1D4BD, 0x1D4C3); (0x1D4C5, 0x1D505); (0x1D507, 0x1D50A);
   (0x1D50D, 0x1D514); (0x1D516, 0x1D51C); (0x1D51E, 0x1D539); (0x1D53B, 0x1D53E); (0x1D540, 0x1D544);
   (0x1D546, 0x1D546); (0x1D54A, 0x1D550); (0x1D552, 0x1D6A5); (0x1D6A8, 0x1D6C0); (0x1D6C2, 0x1D6DA);
   (0x1D6DC, 0x1D6FA); (0x1D6FC, 0x1D714); (0x1D716, 0x1D734); (0x1D736, 0x1D74E); (0x1D750, 0x1D76E);
   (0x1D770, 0x1D788); (0x1D78A, 0x1D7A8); (0x1D7AA, 0x1D7C2); (0x1D7C4, 0x1D7CB); (0x1DF00, 0x1DF09);
   (0x1DF0B, 0x1DF1E); (0x1E900, 0x1E943); (0x1F130, 0x1F149); (0x1F150, 0x1F169); (0x1F170, 0x1F189)
  ]%N.

(** The simple lower-case mappings: [(first, last, step, target)] sends
    [first] to [target], [first + step] to [target + step], and so on up to
    [last].  The capital sigma [0x3A3] and the dotted capital I [0x130] are
    dealt with apart. *)
Definition lower_ranges : list (N * N * N * N) :=
  [
   (0x41, 0x5A, 1, 0x61); (0xC0, 0xD6, 1, 0xE0); (0xD8, 0xDE, 1, 0xF8);
   (0x100, 0x12E, 2, 0x101); (0x132, 0x136, 2, 0x133); (0x139, 0x147, 2, 0x13A);
   (0x14A, 0x176, 2, 0x14B); (0x178, 0x178, 1, 0xFF); (0x179, 0x17D, 2, 0x17A);
   (0x181, 0x181, 1, 0x253); (0x182, 0x184, 2, 0x183); (0x186, 0x186, 1, 0x254);
   (0x187, 0x187, 1, 0x188); (0x189, 0x18A, 1, 0x256); (0x18B, 0x18B, 1, 0x18C);
   (0x18E, 0x18E, 1, 0x1DD); (0x18F, 0x18F, 1, 0x259); (0x190, 0x190, 1, 0x25B);
   (0x191, 0x191, 1, 0x192); (0x193, 0x193, 1, 0x260); (0x194, 0x194, 1, 0x263);
   (0x196, 0x196, 1, 0x269); (0x197, 0x197, 1, 0x268); (0x198, 0x198, 1, 0x199);
   (0x19C, 0x19C, 1, 0x26F); (0x19D, 0x19D, 1, 0x272); (0x19F, 0x19F, 1, 0x275);
   (0x1A0, 0x1A4, 2, 0x1A1); (0x1A6, 0x1A6, 1, 0x280); (0x1A7, 0x1A7, 1, 0x1A8);
   (0x1A9, 0x1A9, 1, 0x283); (0x1AC, 0x1AC, 1, 0x1AD); (0x1AE, 0x1AE, 1, 0x288);
   (0x1AF, 0x1AF, 1, 0x1B0); (0x1B1, 0x1B2, 1, 0x28A); (0x1B3, 0x1B5, 2, 0x1B4);
   (0x1B7, 0x1B7, 1, 0x292); (0x1B8, 0x1B8, 1, 0x1B9); (0x1BC, 0x1BC, 1, 0x1BD);
   (0x1C4, 0x1C4, 1, 0x1C6); (0x1C5, 0x1C5, 1, 0x1C6); (0x1C7, 0x1C7, 1, 0x1C9);
   (0x1C8, 0x1C8, 1, 0x1C9); (0x1CA, 0x1CA, 1, 0x1CC); (0x1CB, 0x1DB, 2, 0x1CC);
   (0x1DE, 0x1EE, 2, 0x1DF); (0x1F1, 0x1F1, 1, 0x1F3); (0x1F2, 0x1F4, 2, 0x1F3);
   (0x1F6, 0x1F6, 1, 0x195); (0x1F7, 0x1F7, 1, 0x1BF); (0x1F8, 0x21E, 2, 0x1F9);
   (0x220, 0x220, 1, 0x19E); (0x222, 0x232, 2, 0x223); (0x23A, 0x23A, 1, 0x2C65);
   (0x23B, 0x23B, 1, 0x23C); (0x23D, 0x23D, 1, 0x19A); (0x23E, 0x23E, 1, 0x2C66);
   (0x241, 0x241, 1, 0x242); (0x243, 0x243, 1, 0x180); (0x244, 0x244, 1, 0x289);
   (0x245, 0x245, 1, 0x28C); (0x246, 0x24E, 2, 0x247); (0x370, 0x372, 2, 0x371);
   (0x376, 0x376, 1, 0x377); (0x37F, 0x37F, 1, 0x3F3); (0x386, 0x386, 1, 0x3AC);
   (0x388, 0x38A, 1, 0x3AD); (0x38C, 0x38C, 1, 0x3CC); (0x38E, 0x38F, 1, 0x3CD);
   (0x391, 0x3A1, 1, 0x3B1); (0x3A4, 0x3AB, 1, 0x3C4); (0x3CF, 0x3CF, 1, 0x3D7);
   (0x3D8, 0x3EE, 2, 0x3D9); (0x3F4, 0x3F4, 1, 0x3B8); (0x3F7, 0x3F7, 1, 0x3F8);
   (0x3F9, 0x3F9, 1, 0x3F2); (0x3FA, 0x3FA, 1, 0x3FB); (0x3FD, 0x3FF, 1, 0x37B);
   (0x400, 0x40F, 1, 0x450); (0x410, 0x42F, 1, 0x430); (0x460, 0x480, 2, 0x461);
   (0x48A, 0x4BE, 2, 0x48B); (0x4C0, 0x4C0, 1, 0x4CF); (0x4C1, 0x4CD, 2, 0x4C2);
   (0x4D0, 0x52E, 2, 0x4D1); (0x531, 0x556, 1, 0x561); (0x10A0, 0x10C5, 1, 0x2D00);
   (0x10C7, 0x10C7, 1, 0x2D27); (0x10CD, 0x10CD, 1, 0x2D2D); (0x13A0, 0x13EF, 1, 0xAB70);
   (0x13F0, 0x13F5, 1, 0x13F8); (0x1C90, 0x1CBA, 1, 0x10D0); (0x1CBD, 0x1CBF, 1, 0x10FD);
   (0x1E00, 0x1E94, 2, 0x1E01); (0x1E9E, 0x1E9E, 1, 0xDF); (0x1EA0, 0x1EFE, 2, 0x1EA1);
   (0x1F08, 0x1F0F, 1, 0x1F00); (0x1F18, 0x1F1D, 1, 0x1F10); (0x1F28, 0x1F2F, 1, 0x1F20);
   (0x1F38, 0x1F3F, 1, 0x1F30); (0x1F48, 0x1F4D, 1, 0x1F40); (0x1F59, 0x1F5F, 2, 0x1F51);
   (0x1F68, 0x1F6F, 1, 0x1F60); (0x1F88, 0x1F8F, 1, 0x1F80); (0x1F98, 0x1F9F, 1, 0x1F90);
   (0x1FA8, 0x1FAF, 1, 0x1FA0); (0x1FB8, 0x1FB9, 1, 0x1FB0); (0x1FBA, 0x1FBB, 1, 0x1F70);
   (0x1FBC, 0x1FBC, 1, 0x1FB3); (0x1FC8, 0x1FCB, 1, 0x1F72); (0x1FCC, 0x1FCC, 1, 0x1FC3);
   (0x1FD8, 0x1FD9, 1, 0x1FD0); (0x1FDA, 0x1FDB, 1, 0x1F76); (0x1FE8, 0x1FE9, 1, 0x1FE0);
   (0x1FEA, 0x1FEB, 1, 0x1F7A); (0x1FEC, 0x1FEC, 1, 0x1FE5); (0x1FF8, 0x1FF9, 1, 0x1F78);
   (0x1FFA, 0x1FFB, 1, 0x1F7C); (0x1FFC, 0x1FFC, 1, 0x1FF3); (0x2126, 0x2126, 1, 0x3C9);
   (0x212A, 0x212A, 1, 0x6B); (0x212B, 0x212B, 1, 0xE5); (0x2132, 0x2132, 1, 0x214E);
   (0x2160, 0x216F, 1, 0x2170); (0x2183, 0x2183, 1, 0x2184); (0x24B6, 0x24CF, 1, 0x24D0);
   (0x2C00, 0x2C2F, 1, 0x2C30); (0x2C60, 0x2C60, 1, 0x2C61); (0x2C62, 0x2C62, 1, 0x26B);
   (0x2C63, 0x2C63, 1, 0x1D7D); (0x2C64, 0x2C64, 1, 0x27D); (0x2C67, 0x2C6B, 2, 0x2C68);
   (0x2C6D, 0x2C6D, 1, 0x251); (0x2C6E, 0x2C6E, 1, 0x271); (0x2C6F, 0x2C6F, 1, 0x250);
   (0x2C70, 0x2C70, 1, 0x252); (0x2C72, 0x2C72, 1, 0x2C73); (0x2C75, 0x2C75, 1, 0x2C76);
   (0x2C7E, 0x2C7F, 1, 0x23F); (0x2C80, 0x2CE2, 2, 0x2C81); (0x2CEB, 0x2CED, 2, 0x2CEC);
   (0x2CF2, 0x2CF2, 1, 0x2CF3); (0xA640, 0xA66C, 2, 0xA641); (0xA680, 0xA69A, 2, 0xA681);
   (0xA722, 0xA72E, 2, 0xA723); (0xA732, 0xA76E, 2, 0xA733); (0xA779, 0xA77B, 2, 0xA77A);
   (0xA77D, 0xA77D, 1, 0x1D79); (0xA77E, 0xA786, 2, 0xA77F); (0xA78B, 0xA78B, 1, 0xA78C);
   (0xA78D, 0xA78D, 1, 0x265); (0xA790, 0xA792, 2, 0xA791); (0xA796, 0xA7A8, 2, 0xA797);
   (0xA7AA, 0xA7AA, 1, 0x266); (0xA7AB, 0xA7AB, 1, 0x25C); (0xA7AC, 0xA7AC, 1, 0x261);
   (0xA7AD, 0xA7AD, 1, 0x26C); (0xA7AE, 0xA7AE, 1, 0x26A); (0xA7B0, 0xA7B0, 1, 0x29E);
   (0xA7B1, 0xA7B1, 1, 0x287); (0xA7B2, 0xA7B2, 1, 0x29D); (0xA7B3, 0xA7B3, 1, 0xAB53);
   (0xA7B4, 0xA7C2, 2, 0xA7B5); (0xA7C4, 0xA7C4, 1, 0xA794); (0xA7C5, 0xA7C5, 1, 0x282);
   (0xA7C6, 0xA7C6, 1, 0x1D8E); (0xA7C7, 0xA7C9, 2, 0xA7C8); (0xA7D0, 0xA7D0, 1, 0xA7D1);
   (0xA7D6, 0xA7D8, 2, 0xA7D7); (0xA7F5, 0xA7F5, 1, 0xA7F6); (0xFF21, 0xFF3A, 1, 0xFF41);
   (0x10400, 0x10427, 1, 0x10428); (0x104B0, 0x104D3, 1, 0x104D8); (0x10570, 0x1057A, 1, 0x10597);
   (0x1057C, 0x1058A, 1, 0x105A3); (0x1058C, 0x10592, 1, 0x105B3); (0x10594, 0x10595, 1, 0x105BB);
   (0x10C80, 0x10CB2, 1, 0x10CC0); (0x118A0, 0x118BF, 1, 0x118C0); (0x16E40, 0x16E5F, 1, 0x16E60);
   (0x1E900, 0x1E921, 1, 0x1E922)
  ]%N.

Definition in_ranges (c : N) (ranges : list (N * N)) : bool :=
  existsb (fun r => (fst r <=? c) && (c <=? snd r))%N ranges.

Definition case_ignorable (c : N) : bool := in_ranges c case_ignorable_ranges.
Definition cased (c : N) : bool := in_ranges c cased_ranges.

(** The full lower-case mapping of one code point other than the capital
    sigma; the dotted capital I is the one code point that lowers to two. *)
Definition to_lower_full (c : N) : list N :=
  if (c =? 0x130)%N then [0x69; 0x307]%N
  else
    match find (fun r : N * N * N * N =>
                  let '(first, last, step, _) := r in
                  (first <=? c) && (c <=? last) && ((c - first) mod step =? 0))%N
               lower_ranges with
    | Some (first, _, _, target) => [target + (c - first)]%N
    | None => [c]
    end.

Fixpoint first_not_ignorable (l : list N) : option N :=
  match l with
  | [] => None
  | c :: rest => if case_ignorable c then first_not_ignorable rest else Some c
  end.

(** A capital sigma is in final position when, case-ignorable code points
    skipped, a cased one stands before it and none stands after it.
    [before] is what precedes the sigma, nearest first. *)
Definition final_sigma (before after : list N) : bool :=
  match first_not_ignorable before with
  | Some c =>
      cased c
      && match first_not_ignorable after with
         | Some c' => negb (cased c')
         | None => true
         end
  | None => false
  end.

(** [s.lower()] on code points: every code point is replaced by its
    lower-case mapping, a capital sigma by the final or the plain small
    sigma, both looked up in the str as it was. *)
Fixpoint lower_code_points (before s : list N) : list N :=
  match s with
  | [] => []
  | c :: rest =>
      (if (c =? 0x3A3)%N
       then [if final_sigma before rest then 0x3C2 else 0x3C3]%N
       else to_lower_full c)
      ++ lower_code_points (c :: before) rest
  end.

(** [s.lower()]; bytes that encode no str are left as they are. *)
Definition lower (s : string) : string :=
  match decode s with
  | Some cps => encode (lower_code_points [] cps)
  | None => s
  end.

(** [c.lower()] for a letter [A] to [Z]; any other byte is kept. *)
Definition lower_ascii (c : ascii) : ascii :=
  let n := nat_of_ascii c in
  if andb (65 <=? n)%nat (n <=? 90)%nat then ascii_of_nat (n + 32) else c.

(** [s.isascii()] *)
Fixpoint is_ascii (s : string) : bool :=
  match s with
  | EmptyString => true
  | String c s' => (byte c <? 0x80)%N && is_ascii s'
  end.

(** The letters [A] to [Z] of a str put in lower case, all else kept. *)
Fixpoint lower_letters (s : string) : string :=
  match s with
  | EmptyString => EmptyString
  | String c s' => String (lower_ascii c) (lower_letters s')
  end.

(** [needle in hay] *)
Fixpoint contains (needle hay : string) : bool :=
  if String.prefix needle hay then true
  else match hay with
       | EmptyString => false
       | String _ hay' => contains needle hay'
       end.

(** The truth value of a string: [bool(s)]. *)
Definition truthy (s : string) : bool :=
  match s with EmptyString => false | _ => true end.

(** [needle in hay] told on code points: [hay] starts with [needle], or
    [needle] occurs further on. *)
Fixpoint starts_with (needle hay : list N) : bool :=
  match needle, hay with
  | [], _ => true
  | _ :: _, [] => false
  | a :: needle', b :: hay' => (a =? b)%N && starts_with needle' hay'
  end.

Fixpoint occurs_in (needle hay : list N) : bool :=
  starts_with needle hay
  || match hay with
     | [] => false
     | _ :: hay' => occurs_in needle hay'
     end.

End PyStr.

(** ** Identifiers, timestamps and the dict type *)

Definition UUID := N.
Definition datetime := Z.
Bind Scope N_scope with UUID.
Bind Scope Z_scope with datetime.

(** A Python [dict] keyed by UUID: an association list in insertion order
    whose keys are pairwise distinct. *)
Module Dict.
Section Dict.
Variable V : Type.

Definition t := list (UUID * V).

Definition empty : t := [].

(** [d.get(k)] *)
Fixpoint get (d : t) (k : UUID) : option V :=
  match d with
  | [] => None
  | (k', v) :: d' => if N.eqb k k' then Some v else get d' k
  end.

(** [k in d] *)
Definition mem (d : t) (k : UUID) : bool :=
  match get d k with Some _ => true | None => false end.

(** [d[k] = v]: an existing key keeps its position, a new key goes last. *)
Fixpoint set (d : t) (k : UUID) (v : V) : t :=
  match d with
  | [] => [(k, v)]
  | (k', v') :: d' =>
      if N.eqb k k' then (k', v) :: d' else (k', v') :: set d' k v
  end.

(** [del d[k]] *)
Fixpoint del (d : t) (k : UUID) : t :=
  match d with
  | [] => []
  | (k', v') :: d' => if N.eqb k k' then d' else (k', v') :: del d' k
  end.

(** [list(d.values())] *)
Definition values (d : t) : list V := map snd d.

Definition keys (d : t) : list UUID := map fst d.

End Dict.
End Dict.

Arguments Dict.empty {V}.

(** ** The models *)

(** A field of a PATCH payload: left out of the request, sent as [null], or
    sent with a value ([model_dump(exclude_unset=True)] keeps the last two). *)
Inductive field (A : Type) : Type :=
| Absent
| Null
| Value (a : A).
Arguments Absent {A}.
Arguments Null {A}.

(** [data.update(updates)] at one key: the entry after the overlay, [None]
    being Python's [None]. *)
Definition overlay {A} (f : field A) (old : option A) : option A :=
  match f with
  | Absent => old
  | Null => None
  | Value a => Some a
  end.

(** Modelled from the spec: [models/address.py] is not among the sources.
    Section 3 lists an Address as identifier, street, city, state/region,
    postal code and country; the create payload and the stored snapshot
    carry the same fields (the snapshot is built from the payload's
    [model_dump()]). *)
Module Address.
Record t := mk
  { id : UUID; street : string; city : string; state : string;
    postal_code : string; country : string }.
End Address.
Definition AddressCreate := Address.t.
Definition AddressRead := Address.t.

(** Modelled from the spec: the sparse update of an Address, one optional
    entry per field other than the identifier. *)
Module AddressUpdate.
Record t := mk
  { street : field string; city : field string; state : field string;
    postal_code : field string; country : field string }.
End AddressUpdate.

(** Modelled from the spec: [models/person.py] is not among the sources.
    Section 3 lists a Person as identifier, university id, first and last
    name, email, phone, birth date and an ordered list of embedded Address
    values.  [birth_date] holds the text [str(p.birth_date)] yields. *)
Module PersonRead.
Record t := mk
  { id : UUID; uni : string; first_name : string; last_name : string;
    email : string; phone : string; birth_date : string;
    addresses : list Address.t }.
End PersonRead.

(** Modelled from the spec: the create payload of a Person.  Whether the
    payload class has an identifier field is not visible; [id] is [Some] when
    [person.model_dump()] carries one. *)
Module PersonCreate.
Record t := mk
  { id : option UUID; uni : string; first_name : string; last_name : string;
    email : string; phone : string; birth_date : string;
    addresses : list Address.t }.
End PersonCreate.

(** Modelled from the spec: the sparse update of a Person. *)
Module PersonUpdate.
Record t := mk
  { uni : field string; first_name : field string; last_name : field string;
    email : field string; phone : field string; birth_date : field string;
    addresses : field (list Address.t) }.
End PersonUpdate.

(** [models/product.py] *)
Module ProductCreate.
Record t := mk
  { id : UUID; name : string; description : option string;
    price : float; in_stock : Z }.
End ProductCreate.

Module ProductUpdate.
Record t := mk
  { name : field string; description : field string;
    price : field float; in_stock : field Z }.
End ProductUpdate.

Module ProductRead.
Record t := mk
  { id : UUID; name : string; description : option string;
    price : float; in_stock : Z;
    created_at : datetime; updated_at : datetime }.
End ProductRead.

(** [models/order.py] *)
Module LineItem.
Record t := mk { product_id : UUID; quantity : Z }.
End LineItem.

Module OrderCreate.
Record t := mk
  { id : UUID; customer_name : string; items : list LineItem.t;
    note : option string }.
End OrderCreate.

Module OrderUpdate.
Record t := mk
  { customer_name : field string; items : field (list LineItem.t);
    note : field string }.
End OrderUpdate.

Module OrderRead.
Record t := mk
  { id : UUID; customer_name : string; items : list LineItem.t;
    note : option string;
    created_at : datetime; updated_at : datetime; total_amount : float }.
End OrderRead.

(** ** The stores and the handler monad *)

(** The four module-level dicts of [main.py]. *)
Record World := mkWorld
  { persons : Dict.t PersonRead.t;
    addresses : Dict.t AddressRead;
    products : Dict.t ProductRead.t;
    orders : Dict.t OrderRead.t }.

Definition empty_world : World := mkWorld Dict.empty Dict.empty Dict.empty Dict.empty.

(** The store a failure is about. *)
Inductive entity := Persons | Addresses | Products | Orders.

(** What a handler can raise.  The first three are the [HTTPException]s of
    [main.py]: 404 "... not found", 400 "... with this ID already exists" and
    400 "Unknown product_id: ..."; the others are exceptions of the runtime
    that no handler catches. *)
Inductive exn :=
| NotFound (e : entity)
| Conflict (e : entity)
| InvalidReference (product_id : UUID)
| ValidationError
| OverflowError
| AttributeError
| KeyError.

Inductive result (A : Type) : Type :=
| Ok (a : A)
| Raise (e : exn).
Arguments Raise {A}.

(** A handler is run on the stores and hands them back together with what
    it returned or raised: a write made before a [raise] stays. *)
Definition M (A : Type) : Type := World -> result A * World.

Definition ret {A} (a : A) : M A := fun w => (Ok a, w).
Definition raise {A} (e : exn) : M A := fun w => (Raise e, w).
Definition bind {A B} (c : M A) (k : A -> M B) : M B :=
  fun w => match c w with
           | (Ok a, w') => k a w'
           | (Raise e, w') => (Raise e, w')
           end.
Definition gets {A} (f : World -> A) : M A := fun w => (Ok (f w), w).
Definition modify (f : World -> World) : M unit := fun w => (Ok tt, f w).

Notation "x <- c ;; k" := (bind c (fun x => k))
  (at level 61, c at next level, right associativity).
Notation "c ;;; k" := (bind c (fun _ => k))
  (at level 61, right associativity).

Definition set_persons (d : Dict.t PersonRead.t) (w : World) : World :=
  mkWorld d (addresses w) (products w) (orders w).
Definition set_addresses (d : Dict.t AddressRead) (w : World) : World :=
  mkWorld (persons w) d (products w) (orders w).
Definition set_products (d : Dict.t ProductRead.t) (w : World) : World :=
  mkWorld (persons w) (addresses w) d (orders w).
Definition set_orders (d : Dict.t OrderRead.t) (w : World) : World :=
  mkWorld (persons w) (addresses w) (products w) d.

(** [d[k]] *)
Definition index {V} (d : Dict.t V) (k : UUID) : M V :=
  fun w => match Dict.get d k with
           | Some v => (Ok v, w)
           | None => (Raise KeyError, w)
           end.

(** A model class rejects [None] for a field that is not [Optional]. *)
Definition required {A} (o : option A) : M A :=
  fun w => match o with
           | Some a => (Ok a, w)
           | None => (Raise ValidationError, w)
           end.

(** [results = [x for x in results if pred(lit, x)]] under [if lit is not None]. *)
Definition filter_if {A} (lit : option string) (pred : string -> A -> bool)
    (results : list A) : list A :=
  match lit with
  | Some s => filter (pred s) results
  | None => results
  end.

(** The same under [if lit:], which also skips the empty string. *)
Definition filter_if_truthy {A} (lit : option string) (pred : string -> A -> bool)
    (results : list A) : list A :=
  match lit with
  | Some s => if PyStr.truthy s then filter (pred s) results else results
  | None => results
  end.

(** ** [main.py]: order totals *)

(** A line item as [compute_order_total] meets it at run time: a [LineItem]
    instance, as in the [items] of a create payload, or the plain dict that
    [model_dump()] makes of one, as in the [updates] of a patch. *)
Inductive line_item_value :=
| Instance (li : LineItem.t)
| Dumped (li : LineItem.t).

Definition instances (items : list LineItem.t) : list line_item_value :=
  map Instance items.
Definition dumped (items : list LineItem.t) : list line_item_value :=
  map Dumped items.

(** [li.product_id] and [li.quantity]: a dict has no such attributes. *)
Definition attr_product_id (li : line_item_value) : M UUID :=
  match li with
  | Instance x => ret (LineItem.product_id x)
  | Dumped _ => raise AttributeError
  end.
Definition attr_quantity (li : line_item_value) : M Z :=
  match li with
  | Instance x => ret (LineItem.quantity x)
  | Dumped _ => raise AttributeError
  end.

(** The loop of [compute_order_total], [total] being the running sum. *)
Fixpoint compute_order_total_loop (line_items : list line_item_value) (total : float)
    : M float :=
  match line_items with
  | [] => ret total
  | li :: rest =>
      prods <- gets products ;;
      product_id <- attr_product_id li ;;
      match Dict.get prods product_id with
      | None => raise (InvalidReference product_id)
      | Some prod =>
          quantity <- attr_quantity li ;;
          match PyFloat.of_int quantity with
          | None => raise OverflowError
          | Some q =>
              compute_order_total_loop rest (total + ProductRead.price prod * q)%float
          end
      end
  end.

Definition compute_order_total (line_items : list line_item_value) : M float :=
  total <- compute_order_total_loop line_items 0%float ;;
  ret (PyFloat.round2 total).

(** ** [main.py]: addresses *)

Definition create_address (address : AddressCreate) : M AddressRead :=
  ads <- gets addresses ;;
  if Dict.mem ads (Address.id address) then raise (Conflict Addresses)
  else
    modify (set_addresses (Dict.set ads (Address.id address) address)) ;;;
    ads' <- gets addresses ;;
    index ads' (Address.id address).

Definition list_addresses (street city state postal_code country : option string)
    : M (list AddressRead) :=
  ads <- gets addresses ;;
  let results := Dict.values ads in
  let results := filter_if street (fun s a => String.eqb (Address.street a) s) results in
  let results := filter_if city (fun s a => String.eqb (Address.city a) s) results in
  let results := filter_if state (fun s a => String.eqb (Address.state a) s) results in
  let results := filter_if postal_code (fun s a => String.eqb (Address.postal_code a) s) results in
  let results := filter_if country (fun s a => String.eqb (Address.country a) s) results in
  ret results.

Definition get_address (address_id : UUID) : M AddressRead :=
  ads <- gets addresses ;;
  if negb (Dict.mem ads address_id) then raise (NotFound Addresses)
  else index ads address_id.

Definition update_address (address_id : UUID) (update : AddressUpdate.t)
    : M AddressRead :=
  ads <- gets addresses ;;
  if negb (Dict.mem ads address_id) then raise (NotFound Addresses)
  else
    stored <- index ads address_id ;;
    street <- required (overlay (AddressUpdate.street update) (Some (Address.street stored))) ;;
    city <- required (overlay (AddressUpdate.city update) (Some (Address.city stored))) ;;
    state <- required (overlay (AddressUpdate.state update) (Some (Address.state stored))) ;;
    postal_code <- required (overlay (AddressUpdate.postal_code update) (Some (Address.postal_code stored))) ;;
    country <- required (overlay (AddressUpdate.country update) (Some (Address.country stored))) ;;
    modify (set_addresses
              (Dict.set ads address_id
                 (Address.mk (Address.id stored) street city state postal_code country))) ;;;
    ads' <- gets addresses ;;
    index ads' address_id.

(** ** [main.py]: persons *)

(** The snapshot built from a person payload; [uuid4] is the value the
    identifier's default factory yields when the payload carries no
    identifier. *)
Definition person_read_of (uuid4 : UUID) (person : PersonCreate.t) : PersonRead.t :=
  PersonRead.mk
    (match PersonCreate.id person with Some i => i | None => uuid4 end)
    (PersonCreate.uni person) (PersonCreate.first_name person)
    (PersonCreate.last_name person) (PersonCreate.email person)
    (PersonCreate.phone person) (PersonCreate.birth_date person)
    (PersonCreate.addresses person).

Definition create_person (uuid4 : UUID) (person : PersonCreate.t) : M PersonRead.t :=
  let person_read := person_read_of uuid4 person in
  ps <- gets persons ;;
  modify (set_persons (Dict.set ps (PersonRead.id person_read) person_read)) ;;;
  ret person_read.

Definition list_persons
    (uni first_name last_name email phone birth_date city country : option string)
    : M (list PersonRead.t) :=
  ps <- gets persons ;;
  let results := Dict.values ps in
  let results := filter_if uni (fun s p => String.eqb (PersonRead.uni p) s) results in
  let results := filter_if first_name (fun s p => String.eqb (PersonRead.first_name p) s) results in
  let results := filter_if last_name (fun s p => String.eqb (PersonRead.last_name p) s) results in
  let results := filter_if email (fun s p => String.eqb (PersonRead.email p) s) results in
  let results := filter_if phone (fun s p => String.eqb (PersonRead.phone p) s) results in
  let results := filter_if birth_date (fun s p => String.eqb (PersonRead.birth_date p) s) results in
  let results :=
    filter_if city
      (fun s p => existsb (fun addr => String.eqb (Address.city addr) s) (PersonRead.addresses p))
      results in
  let results :=
    filter_if country
      (fun s p => existsb (fun addr => String.eqb (Address.country addr) s) (PersonRead.addresses p))
      results in
  ret results.

Definition get_person (person_id : UUID) : M PersonRead.t :=
  ps <- gets persons ;;
  if negb (Dict.mem ps person_id) then raise (NotFound Persons)
  else index ps person_id.

Definition update_person (person_id : UUID) (update : PersonUpdate.t)
    : M PersonRead.t :=
  ps <- gets persons ;;
  if negb (Dict.mem ps person_id) then raise (NotFound Persons)
  else
    stored <- index ps person_id ;;
    uni <- required (overlay (PersonUpdate.uni update) (Some (PersonRead.uni stored))) ;;
    first_name <- required (overlay (PersonUpdate.first_name update) (Some (PersonRead.first_name stored))) ;;
    last_name <- required (overlay (PersonUpdate.last_name update) (Some (PersonRead.last_name stored))) ;;
    email <- required (overlay (PersonUpdate.email update) (Some (PersonRead.email stored))) ;;
    phone <- required (overlay (PersonUpdate.phone update) (Some (PersonRead.phone stored))) ;;
    birth_date <- required (overlay (PersonUpdate.birth_date update) (Some (PersonRead.birth_date stored))) ;;
    addrs <- required (overlay (PersonUpdate.addresses update) (Some (PersonRead.addresses stored))) ;;
    modify (set_persons
              (Dict.set ps person_id
                 (PersonRead.mk (PersonRead.id stored) uni first_name last_name
                    email phone birth_date addrs))) ;;;
    ps' <- gets persons ;;
    index ps' person_id.

(** ** [main.py]: products *)

(** [created_at] and [updated_at] are the two clock readings the default
    factories of [ProductRead] take, in field order. *)
Definition create_product (created_at updated_at : datetime)
    (product : ProductCreate.t) : M ProductRead.t :=
  prods <- gets products ;;
  if Dict.mem prods (ProductCreate.id product) then raise (Conflict Products)
  else
    let prod :=
      ProductRead.mk (ProductCreate.id product) (ProductCreate.name product)
        (ProductCreate.description product) (ProductCreate.price product)
        (ProductCreate.in_stock product) created_at updated_at in
    modify (set_products (Dict.set prods (ProductRead.id prod) prod)) ;;;
    ret prod.

Definition list_products (name : option string) : M (list ProductRead.t) :=
  prods <- gets products ;;
  let results := Dict.values prods in
  let results :=
    filter_if_truthy name
      (fun s p => PyStr.contains (PyStr.lower s) (PyStr.lower (ProductRead.name p)))
      results in
  ret results.

Definition get_product (product_id : UUID) : M ProductRead.t :=
  prods <- gets products ;;
  if negb (Dict.mem prods product_id) then raise (NotFound Products)
  else index prods product_id.

(** [now] is the reading of [datetime.utcnow()]. *)
Definition update_product (now : datetime) (product_id : UUID)
    (patch : ProductUpdate.t) : M ProductRead.t :=
  prods <- gets products ;;
  if negb (Dict.mem prods product_id) then raise (NotFound Products)
  else
    data <- index prods product_id ;;
    name <- required (overlay (ProductUpdate.name patch) (Some (ProductRead.name data))) ;;
    let description := overlay (ProductUpdate.description patch) (ProductRead.description data) in
    price <- required (overlay (ProductUpdate.price patch) (Some (ProductRead.price data))) ;;
    in_stock <- required (overlay (ProductUpdate.in_stock patch) (Some (ProductRead.in_stock data))) ;;
    let updated :=
      ProductRead.mk (ProductRead.id data) name description price in_stock
        (ProductRead.created_at data) now in
    modify (set_products (Dict.set prods product_id updated)) ;;;
    ret updated.

Definition delete_product (product_id : UUID) : M unit :=
  prods <- gets products ;;
  if negb (Dict.mem prods product_id) then raise (NotFound Products)
  else modify (set_products (Dict.del prods product_id)).

(** ** [main.py]: orders *)

(** Building an [OrderRead] from [data]: the one constraint the payload classes have not
    already enforced is [total_amount >= 0]. *)
Definition OrderRead_validate (o : OrderRead.t) : M OrderRead.t :=
  if (0 <=? OrderRead.total_amount o)%float then ret o
  else raise ValidationError.

Definition create_order (created_at updated_at : datetime)
    (order : OrderCreate.t) : M OrderRead.t :=
  total <- compute_order_total (instances (OrderCreate.items order)) ;;
  orr <- OrderRead_validate
           (OrderRead.mk (OrderCreate.id order) (OrderCreate.customer_name order)
              (OrderCreate.items order) (OrderCreate.note order)
              created_at updated_at total) ;;
  ords <- gets orders ;;
  if Dict.mem ords (OrderRead.id orr) then raise (Conflict Orders)
  else
    modify (set_orders (Dict.set ords (OrderRead.id orr) orr)) ;;;
    ret orr.

Definition list_orders (customer_name : option string) : M (list OrderRead.t) :=
  ords <- gets orders ;;
  let results := Dict.values ords in
  let results :=
    filter_if_truthy customer_name
      (fun key o => PyStr.contains (PyStr.lower key) (PyStr.lower (OrderRead.customer_name o)))
      results in
  ret results.

Definition get_order (order_id : UUID) : M OrderRead.t :=
  ords <- gets orders ;;
  if negb (Dict.mem ords order_id) then raise (NotFound Orders)
  else index ords order_id.

Definition update_order (now : datetime) (order_id : UUID)
    (patch : OrderUpdate.t) : M OrderRead.t :=
  ords <- gets orders ;;
  if negb (Dict.mem ords order_id) then raise (NotFound Orders)
  else
    data <- index ords order_id ;;
    let customer_name :=
      match OrderUpdate.customer_name patch with
      | Value v => v
      | _ => OrderRead.customer_name data
      end in
    priced <-
      match OrderUpdate.items patch with
      | Value its =>
          total <- compute_order_total (dumped its) ;;
          ret (its, total)
      | _ => ret (OrderRead.items data, OrderRead.total_amount data)
      end ;;
    let note :=
      match OrderUpdate.note patch with
      | Absent => OrderRead.note data
      | Null => None
      | Value v => Some v
      end in
    updated <- OrderRead_validate
                 (OrderRead.mk (OrderRead.id data) customer_name (fst priced) note
                    (OrderRead.created_at data) now (snd priced)) ;;
    modify (set_orders (Dict.set ords order_id updated)) ;;;
    ret updated.

Definition delete_order (order_id : UUID) : M unit :=
  ords <- gets orders ;;
  if negb (Dict.mem ords order_id) then raise (NotFound Orders)
  else modify (set_orders (Dict.del ords order_id)).

(** ** The service as a transition system *)

Inductive request :=
| CreateAddress (address : AddressCreate)
| ListAddresses (street city state postal_code country : option string)
| GetAddress (address_id : UUID)
| UpdateAddress (address_id : UUID) (update : AddressUpdate.t)
| CreatePerson (uuid4 : UUID) (person : PersonCreate.t)
| ListPersons (uni first_name last_name email phone birth_date city country : option string)
| GetPerson (person_id : UUID)
| UpdatePerson (person_id : UUID) (update : PersonUpdate.t)
| CreateProduct (product : ProductCreate.t)
| ListProducts (name : option string)
| GetProduct (product_id : UUID)
| UpdateProduct (product_id : UUID) (patch : ProductUpdate.t)
| DeleteProduct (product_id : UUID)
| CreateOrder (order : OrderCreate.t)
| ListOrders (customer_name : option string)
| GetOrder (order_id : UUID)
| UpdateOrder (order_id : UUID) (patch : OrderUpdate.t)
| DeleteOrder (order_id : UUID).

(** The stores after a request is served, whether it returned or raised.
    [t1] and [t2] are the clock readings the request takes: a create reads
    the clock twice, a patch once. *)
Definition handle (t1 t2 : datetime) (r : request) (w : World) : World :=
  match r with
  | CreateAddress a => snd (create_address a w)
  | ListAddresses s c st pc co => snd (list_addresses s c st pc co w)
  | GetAddress i => snd (get_address i w)
  | UpdateAddress i u => snd (update_address i u w)
  | CreatePerson u p => snd (create_person u p w)
  | ListPersons u f l e ph b c co => snd (list_persons u f l e ph b c co w)
  | GetPerson i => snd (get_person i w)
  | UpdatePerson i u => snd (update_person i u w)
  | CreateProduct p => snd (create_product t1 t2 p w)
  | ListProducts n => snd (list_products n w)
  | GetProduct i => snd (get_product i w)
  | UpdateProduct i p => snd (update_product t1 i p w)
  | DeleteProduct i => snd (delete_product i w)
  | CreateOrder o => snd (create_order t1 t2 o w)
  | ListOrders n => snd (list_orders n w)
  | GetOrder i => snd (get_order i w)
  | UpdateOrder i p => snd (update_order t1 i p w)
  | DeleteOrder i => snd (delete_order i w)
  end.

(** The stores a run of the service can be in when the clock, which never
    goes back, has last read [t]. *)
Inductive reachable : datetime -> World -> Prop :=
| reachable_start t : reachable t empty_world
| reachable_step t w t1 t2 r :
    reachable t w -> (t <= t1)%Z -> (t1 <= t2)%Z ->
    reachable t2 (handle t1 t2 r w).

(** ** What the specification says, in its own words *)

Module Spec.

(** [price(product)] of a line item, looked up in the catalogue. *)
Definition price_of (catalog : Dict.t ProductRead.t) (li : LineItem.t) : float :=
  match Dict.get catalog (LineItem.product_id li) with
  | Some p => ProductRead.price p
  | None => nan
  end.

(** The quantity of a line item as a float. *)
Definition quantity_of (li : LineItem.t) : float :=
  match PyFloat.of_int (LineItem.quantity li) with
  | Some q => q
  | None => infinity
  end.

(** The sum over the items of [price * quantity], taken from left to right
    starting at zero, rounded to two decimals. *)
Definition order_total (catalog : Dict.t ProductRead.t) (items : list LineItem.t)
    : float :=
  PyFloat.round2
    (fold_left (fun acc li => (acc + price_of catalog li * quantity_of li)%float)
       items 0%float).

(** Every line item names a product of the catalogue. *)
Definition all_known (catalog : Dict.t ProductRead.t) (items : list LineItem.t) : Prop :=
  Forall (fun li => Dict.mem catalog (LineItem.product_id li) = true) items.

(** The first line item, in list order, whose product is not in the catalogue. *)
Fixpoint first_unknown (catalog : Dict.t ProductRead.t) (items : list LineItem.t)
    : option UUID :=
  match items with
  | [] => None
  | li :: rest =>
      if Dict.mem catalog (LineItem.product_id li) then first_unknown catalog rest
      else Some (LineItem.product_id li)
  end.

(** A person matches every predicate that was supplied. *)
Definition person_matches
    (uni first_name last_name email phone birth_date city country : option string)
    (p : PersonRead.t) : bool :=
  let holds (lit : option string) (test : string -> bool) :=
    match lit with Some s => test s | None => true end in
  holds uni (String.eqb (PersonRead.uni p))
  && holds first_name (String.eqb (PersonRead.first_name p))
  && holds last_name (String.eqb (PersonRead.last_name p))
  && holds email (String.eqb (PersonRead.email p))
  && holds phone (String.eqb (PersonRead.phone p))
  && holds birth_date (String.eqb (PersonRead.birth_date p))
  && holds city (fun s => existsb (fun a => String.eqb (Address.city a) s) (PersonRead.addresses p))
  && holds country (fun s => existsb (fun a => String.eqb (Address.country a) s) (PersonRead.addresses p)).

(** An address matches every predicate that was supplied. *)
Definition address_matches (street city state postal_code country : option string)
    (a : Address.t) : bool :=
  let holds (lit : option string) (test : string -> bool) :=
    match lit with Some s => test s | None => true end in
  holds street (String.eqb (Address.street a))
  && holds city (String.eqb (Address.city a))
  && holds state (String.eqb (Address.state a))
  && holds postal_code (String.eqb (Address.postal_code a))
  && holds country (String.eqb (Address.country a)).

(** [hay] contains [needle] when case is ignored: some stretch of [hay]
    and [needle] are the same text once each is put in lower case. *)
Definition contains_ignoring_case (needle hay : string) : Prop :=
  exists before stretch after : string,
    hay = (before ++ stretch ++ after)%string
    /\ PyStr.lower stretch = PyStr.lower needle.

End Spec.

(** ** Definitions the statements use *)

(** The order a create stores, once priced at [total]. *)
Definition new_order (created_at updated_at : datetime) (order : OrderCreate.t)
    (total : float) : OrderRead.t :=
  OrderRead.mk (OrderCreate.id order) (OrderCreate.customer_name order)
    (OrderCreate.items order) (OrderCreate.note order) created_at updated_at total.

(** The snapshot a patch builds from the stored order [data], [priced] being
    the items and total it ends up with. *)
Definition patched_order (now : datetime) (patch : OrderUpdate.t)
    (data : OrderRead.t) (priced : list LineItem.t * float) : OrderRead.t :=
  OrderRead.mk (OrderRead.id data)
    (match OrderUpdate.customer_name patch with
     | Value v => v
     | _ => OrderRead.customer_name data
     end)
    (fst priced)
    (match OrderUpdate.note patch with
     | Absent => OrderRead.note data
     | Null => None
     | Value v => Some v
     end)
    (OrderRead.created_at data) now (snd priced).

(** The last steps of a patch: the check on the total, then the write. *)
Definition commit_order (order_id : UUID) (o : OrderRead.t) (w : World)
    : result OrderRead.t * World :=
  if (0 <=? OrderRead.total_amount o)%float then
    (Ok o, set_orders (Dict.set (orders w) order_id o) w)
  else (Raise ValidationError, w).

(** What a create of an order raises when its identifier is taken: the
    failure of pricing if pricing fails, [Conflict] otherwise. *)
Definition duplicate_order_failure (order : OrderCreate.t) (w : World) : exn :=
  match fst (compute_order_total (instances (OrderCreate.items order)) w) with
  | Raise e => e
  | Ok total => if (0 <=? total)%float then Conflict Orders else ValidationError
  end.

(** A stored product or order carries timestamps in order, none later
    than the last clock reading [t]; a stored order passed the check on its
    total. *)
Definition product_ok (t : datetime) (p : ProductRead.t) : Prop :=
  (ProductRead.created_at p <= ProductRead.updated_at p)%Z
  /\ (ProductRead.updated_at p <= t)%Z.

Definition order_ok (t : datetime) (o : OrderRead.t) : Prop :=
  (OrderRead.created_at o <= OrderRead.updated_at o)%Z
  /\ (OrderRead.updated_at o <= t)%Z
  /\ (0 <=? OrderRead.total_amount o)%float = true.

Definition stores_ok (t : datetime) (w : World) : Prop :=
  (forall p, In p (Dict.values (products w)) -> product_ok t p)
  /\ (forall o, In o (Dict.values (orders w)) -> order_ok t o).

(** The same payload with [customer_name], or [items], left out instead. *)
Definition without_customer_name (patch : OrderUpdate.t) : OrderUpdate.t :=
  OrderUpdate.mk Absent (OrderUpdate.items patch) (OrderUpdate.note patch).
Definition without_items (patch : OrderUpdate.t) : OrderUpdate.t :=
  OrderUpdate.mk (OrderUpdate.customer_name patch) Absent (OrderUpdate.note patch).

(** What the specification asks of one field of a patch: a provided value
    replaces the stored one, a provided null clears it, and a field that is
    not provided is copied. *)
Definition merged {A} (f : field A) (old new : option A) : Prop :=
  match f with
  | Absent => new = old
  | Null => new = None
  | Value v => new = Some v
  end.

(** ** Examples *)

Module Example.

Definition widget : ProductRead.t :=
  ProductRead.mk 1%N "Widget"%string None 9.99%float 100%Z 10%Z 10%Z.
Definition pro_widget : ProductRead.t :=
  ProductRead.mk 2%N "PRO-WIDGET"%string (Some "Upgraded widget"%string)
    5%float 25%Z 11%Z 11%Z.
Definition gadget : ProductRead.t :=
  ProductRead.mk 3%N "Gadget"%string None 1%float 7%Z 12%Z 12%Z.

Definition catalog : Dict.t ProductRead.t :=
  [(1%N, widget); (2%N, pro_widget); (3%N, gadget)].

Definition alice_order : OrderRead.t :=
  OrderRead.mk 7%N "Alice"%string [LineItem.mk 3%N 1%Z]
    (Some "Leave at front desk."%string) 13%Z 13%Z 1%float.

Definition shop : World :=
  mkWorld Dict.empty Dict.empty catalog [(7%N, alice_order)].

Definition bob : OrderCreate.t :=
  OrderCreate.mk 8%N "Bob"%string [LineItem.mk 1%N 2%Z; LineItem.mk 2%N 1%Z] None.

(** Bob's order as stored when it is created at clock readings 20 and 21,
    and the stores after that. *)
Definition bob_order : OrderRead.t :=
  OrderRead.mk 8%N "Bob"%string [LineItem.mk 1%N 2%Z; LineItem.mk 2%N 1%Z] None
    20%Z 21%Z 24.98%float.

Definition shop_with_bob : World :=
  mkWorld Dict.empty Dict.empty catalog [(7%N, alice_order); (8%N, bob_order)].

End Example.

Module Example_unknown.

(** Product 9 is not in the catalogue; order 7 is already stored. *)
Definition ghost : OrderCreate.t :=
  OrderCreate.mk 8 "Carol" [LineItem.mk 1 1; LineItem.mk 9 1] None.

Definition huge_then_ghost : OrderCreate.t :=
  OrderCreate.mk 8 "Carol" [LineItem.mk 1 (2 ^ 1024); LineItem.mk 9 1] None.

Definition duplicate_ghost : OrderCreate.t :=
  OrderCreate.mk 7 "Carol" [LineItem.mk 9 1] None.

End Example_unknown.

Module Example_duplicate.

Definition widget_again : ProductCreate.t :=
  ProductCreate.mk 1 "Widget II" None 12.5 3.

Definition alice_again : OrderCreate.t :=
  OrderCreate.mk 7 "Alice" [LineItem.mk 1 1] None.

End Example_duplicate.

Module Example_run.

Definition widget_payload : ProductCreate.t :=
  ProductCreate.mk 1 "Widget" None 9.99 100.
Definition alice_payload : OrderCreate.t :=
  OrderCreate.mk 7 "Alice" [LineItem.mk 1 1] (Some "Leave at front desk."%string).
Definition restock : ProductUpdate.t :=
  ProductUpdate.mk Absent Absent Absent (Value 250%Z).

(** A product is created, an order is placed, the product is restocked. *)
Definition day : World :=
  handle 30 30 (UpdateProduct 1 restock)
    (handle 20 21 (CreateOrder alice_payload)
       (handle 10 11 (CreateProduct widget_payload) empty_world)).

End Example_run.

Module Example_patch.

Definition note_only : OrderUpdate.t :=
  OrderUpdate.mk Absent Absent (Value "Ring the bell twice."%string).

Definition nulls : OrderUpdate.t := OrderUpdate.mk Null Null Null.

Definition three_widgets : OrderUpdate.t :=
  OrderUpdate.mk Absent (Value [LineItem.mk 1 3]) Absent.

(** Nulls for the name and the note, beside a list of items. *)
Definition clear_note_three_widgets : OrderUpdate.t :=
  OrderUpdate.mk Null (Value [LineItem.mk 1 3]) Null.

(** An empty list of items and nothing else. *)
Definition no_items : OrderUpdate.t := OrderUpdate.mk Absent (Value []) Absent.

(** Alice's order as stored in [Example_run.day]. *)
Definition alice_stored : OrderRead.t :=
  OrderRead.mk 7 "Alice" [LineItem.mk 1 1] (Some "Leave at front desk."%string)
    20 21 9.99.

End Example_patch.

Module Example_merge.

Definition nothing : ProductUpdate.t := ProductUpdate.mk Absent Absent Absent Absent.

Definition null_name : ProductUpdate.t := ProductUpdate.mk Null Absent Absent Absent.

Definition describe : ProductUpdate.t :=
  ProductUpdate.mk Absent Null (Value 4.5%float) Absent.

(** [Example.pro_widget] after [describe] at clock reading 30. *)
Definition described : ProductRead.t :=
  ProductRead.mk 2 "PRO-WIDGET" None 4.5 25 11 30.

Definition shop_described : World :=
  mkWorld Dict.empty Dict.empty
    [(1%N, Example.widget); (2%N, described); (3%N, Example.gadget)]
    [(7%N, Example.alice_order)].

End Example_merge.

Module Example_people.

Definition home (i : UUID) (city : string) : Address.t :=
  Address.mk i "1 Main St" city "MA" "02101" "USA".

Definition ann : PersonRead.t :=
  PersonRead.mk 21 "aa1" "Ann" "Lee" "ann@example.org" "555-0100" "2000-01-01"
    [home 31 "Albany"; home 32 "Boston"].
Definition ben : PersonRead.t :=
  PersonRead.mk 22 "bb2" "Ben" "Ray" "ben@example.org" "555-0101" "2001-02-03"
    [home 33 "boston"].
Definition cat : PersonRead.t :=
  PersonRead.mk 23 "cc3" "Cat" "Lee" "cat@example.org" "555-0102" "2002-03-04" [].
Definition dan : PersonRead.t :=
  PersonRead.mk 24 "dd4" "Dan" "Poe" "dan@example.org" "555-0103" "2003-04-05"
    [home 34 "Boston"].

Definition town : World :=
  mkWorld [(21%N, ann); (22%N, ben); (23%N, cat); (24%N, dan)]
    Dict.empty Example.catalog Dict.empty.

End Example_people.

Module Example_sigma.

(** Two products are created, one under a name that ends in a capital
    sigma, and an order is placed under that same name. *)
Definition greek : World :=
  handle 12 12 (CreateOrder (OrderCreate.mk 9 "ΑΣ" [LineItem.mk 5 1] None))
    (handle 11 11 (CreateProduct (ProductCreate.mk 6 "ÉCLAIR" None 2.5 12))
       (handle 10 10 (CreateProduct (ProductCreate.mk 5 "ΑΣ" None 3 1))
          empty_world)).

(** The two products and the order as stored in [greek]. *)
Definition alpha_sigma : ProductRead.t :=
  ProductRead.mk 5 "ΑΣ" None 3 1 10 10.

Definition eclair : ProductRead.t :=
  ProductRead.mk 6 "ÉCLAIR" None 2.5 12 11 11.

Definition for_alpha_sigma : OrderRead.t :=
  OrderRead.mk 9 "ΑΣ" [LineItem.mk 5 1] None 12 12 3.

End Example_sigma.

(** ** The field constraints of the models *)

(** The bounds [Field(...)] puts on the payload classes of
    [models/product.py] and [models/order.py]; the length of a string is
    its number of characters. *)
Module Constraints.

Definition length_within (lo hi : nat) (s : string) : bool :=
  ((lo <=? PyStr.len s) && (PyStr.len s <=? hi))%nat.

(** A bound on an [Optional] field holds of [None]. *)
Definition optional {A} (test : A -> bool) (o : option A) : bool :=
  match o with
  | Some a => test a
  | None => true
  end.

(** A bound on a field of a patch is checked on a value that is sent. *)
Definition sent {A} (test : A -> bool) (f : field A) : bool :=
  match f with
  | Value a => test a
  | _ => true
  end.

(** [ProductBase]: [name] of 1 to 100 characters, [description] of at most
    500, [price >= 0.0], [in_stock >= 0]. *)
Definition name_ok (s : string) : bool := length_within 1 100 s.
Definition description_ok (s : string) : bool := length_within 0 500 s.
Definition price_ok (x : float) : bool := (0 <=? x)%float.
Definition in_stock_ok (n : Z) : bool := (0 <=? n)%Z.

Definition product_create (p : ProductCreate.t) : bool :=
  name_ok (ProductCreate.name p)
  && optional description_ok (ProductCreate.description p)
  && price_ok (ProductCreate.price p)
  && in_stock_ok (ProductCreate.in_stock p).

Definition product_update (u : ProductUpdate.t) : bool :=
  sent name_ok (ProductUpdate.name u)
  && sent description_ok (ProductUpdate.description u)
  && sent price_ok (ProductUpdate.price u)
  && sent in_stock_ok (ProductUpdate.in_stock u).

Definition product_read (p : ProductRead.t) : bool :=
  name_ok (ProductRead.name p)
  && optional description_ok (ProductRead.description p)
  && price_ok (ProductRead.price p)
  && in_stock_ok (ProductRead.in_stock p).

(** [LineItem]: [quantity > 0].  [OrderBase]: [customer_name] of 1 to 100
    characters, [note] of at most 280.  [OrderRead]: [total_amount >= 0.0]. *)
Definition line_item (li : LineItem.t) : bool := (0 <? LineItem.quantity li)%Z.
Definition customer_name_ok (s : string) : bool := length_within 1 100 s.
Definition note_ok (s : string) : bool := length_within 0 280 s.

Definition order_create (o : OrderCreate.t) : bool :=
  customer_name_ok (OrderCreate.customer_name o)
  && forallb line_item (OrderCreate.items o)
  && optional note_ok (OrderCreate.note o).

Definition order_update (u : OrderUpdate.t) : bool :=
  sent customer_name_ok (OrderUpdate.customer_name u)
  && sent (forallb line_item) (OrderUpdate.items u)
  && sent note_ok (OrderUpdate.note u).

Definition order_read (o : OrderRead.t) : bool :=
  customer_name_ok (OrderRead.customer_name o)
  && forallb line_item (OrderRead.items o)
  && optional note_ok (OrderRead.note o)
  && (0 <=? OrderRead.total_amount o)%float.

(** The payload of a request passed the checks of its class. *)
Definition request_ok (r : request) : bool :=
  match r with
  | CreateProduct p => product_create p
  | UpdateProduct _ u => product_update u
  | CreateOrder o => order_create o
  | UpdateOrder _ u => order_update u
  | _ => true
  end.

(** Every stored product and order is within the bounds of its class. *)
Definition stores_within (w : World) : Prop :=
  (forall p, In p (Dict.values (products w)) -> product_read p = true)
  /\ (forall o, In o (Dict.values (orders w)) -> order_read o = true).

End Constraints.

(** ** Runs, and what a request writes *)

(** The stores after a list of requests, each with its clock readings, has
    been served in order. *)
Fixpoint serve (calls : list (datetime * datetime * request)) (w : World) : World :=
  match calls with
  | [] => w
  | (t1, t2, r) :: rest => serve rest (handle t1 t2 r w)
  end.

(** The store a request is about. *)
Definition entity_of (r : request) : entity :=
  match r with
  | CreateAddress _ | ListAddresses _ _ _ _ _ | GetAddress _ | UpdateAddress _ _ =>
      Addresses
  | CreatePerson _ _ | ListPersons _ _ _ _ _ _ _ _ | GetPerson _ | UpdatePerson _ _ =>
      Persons
  | CreateProduct _ | ListProducts _ | GetProduct _ | UpdateProduct _ _
  | DeleteProduct _ => Products
  | CreateOrder _ | ListOrders _ | GetOrder _ | UpdateOrder _ _ | DeleteOrder _ =>
      Orders
  end.

(** A dict whose keys are pairwise distinct and whose values all sit under
    their own identifier. *)
Definition keyed {V} (id_of : V -> UUID) (d : Dict.t V) : Prop :=
  NoDup (Dict.keys d) /\ forall k v, In (k, v) d -> id_of v = k.

Definition stores_keyed (w : World) : Prop :=
  keyed PersonRead.id (persons w)
  /\ keyed Address.id (addresses w)
  /\ keyed ProductRead.id (products w)
  /\ keyed OrderRead.id (orders w).

(** The one write a request makes, if it makes any. *)
Inductive effect :=
| Nothing
| PutPerson (k : UUID) (v : PersonRead.t)
| PutAddress (k : UUID) (v : AddressRead)
| PutProduct (k : UUID) (v : ProductRead.t)
| PutOrder (k : UUID) (v : OrderRead.t)
| DropProduct (k : UUID)
| DropOrder (k : UUID).

Definition apply_effect (e : effect) (w : World) : World :=
  match e with
  | Nothing => w
  | PutPerson k v => set_persons (Dict.set (persons w) k v) w
  | PutAddress k v => set_addresses (Dict.set (addresses w) k v) w
  | PutProduct k v => set_products (Dict.set (products w) k v) w
  | PutOrder k v => set_orders (Dict.set (orders w) k v) w
  | DropProduct k => set_products (Dict.del (products w) k) w
  | DropOrder k => set_orders (Dict.del (orders w) k) w
  end.

(** A value goes under its own identifier, or takes the place of a stored
    value that has the same identifier. *)
Definition put_ok {V} (id_of : V -> UUID) (d : Dict.t V) (k : UUID) (v : V) : Prop :=
  id_of v = k \/ exists old, Dict.get d k = Some old /\ id_of v = id_of old.

Definition effect_ok (e : effect) (w : World) : Prop :=
  match e with
  | Nothing => True
  | PutPerson k v => put_ok PersonRead.id (persons w) k v
  | PutAddress k v => put_ok Address.id (addresses w) k v
  | PutProduct k v => put_ok ProductRead.id (products w) k v
  | PutOrder k v => put_ok OrderRead.id (orders w) k v
  | DropProduct _ | DropOrder _ => True
  end.

Definition effect_entity (e : effect) : option entity :=
  match e with
  | Nothing => None
  | PutPerson _ _ => Some Persons
  | PutAddress _ _ => Some Addresses
  | PutProduct _ _ | DropProduct _ => Some Products
  | PutOrder _ _ | DropOrder _ => Some Orders
  end.

(** A product with its [updated_at] replaced; an order likewise. *)
Definition product_touched (now : datetime) (p : ProductRead.t) : ProductRead.t :=
  ProductRead.mk (ProductRead.id p) (ProductRead.name p) (ProductRead.description p)
    (ProductRead.price p) (ProductRead.in_stock p) (ProductRead.created_at p) now.

Definition order_touched (now : datetime) (o : OrderRead.t) : OrderRead.t :=
  OrderRead.mk (OrderRead.id o) (OrderRead.customer_name o) (OrderRead.items o)
    (OrderRead.note o) (OrderRead.created_at o) now (OrderRead.total_amount o).

Module Example_more.

Definition gadget_payload : ProductCreate.t :=
  ProductCreate.mk 3 "Gadget" (Some "Small"%string) 1 7.

(** [Example_run.day], call by call. *)
Definition day_calls : list (datetime * datetime * request) :=
  [(10%Z, 11%Z, CreateProduct Example_run.widget_payload);
   (20%Z, 21%Z, CreateOrder Example_run.alice_payload);
   (30%Z, 30%Z, UpdateProduct 1 Example_run.restock)].

(** The widget as stored in [Example_run.day]. *)
Definition widget_stored : ProductRead.t :=
  ProductRead.mk 1 "Widget" None 9.99 250 10 30.

Definition reprice : ProductUpdate.t :=
  ProductUpdate.mk Absent Absent (Value 19.99%float) Absent.

End Example_more.

(** ** Tactics *)

(** Unfolds the monad. *)
Ltac run :=
  unfold bind, gets, modify, ret, raise, index, required in *; simpl in *.

(** Arithmetic on code points, with division and remainder by a constant. *)
Ltac euclid := zify; Z.to_euclidean_division_equations; lia.

(** Splits on the scrutinee of an innermost [match]. *)
Ltac split_cases :=
  repeat match goal with
         | |- context [match ?x with _ => _ end] =>
             lazymatch x with
             | context [match _ with _ => _ end] => fail
             | _ => destruct x eqn:?; simpl
             end
         end.

(** * Properties *)

(** ** Facts about dicts *)

Section DictFacts.
Variable V : Type.
Implicit Types (d : Dict.t V) (k : UUID) (v : V).

Lemma get_set_same d k v : Dict.get (Dict.set d k v) k = Some v.
Proof.
  induction d as [| [k' v'] d IH]; simpl.
  - now rewrite N.eqb_refl.
  - destruct (N.eqb k k') eqn:E; simpl; rewrite E; auto.
Qed.

Lemma get_set_other d k k' v :
  k' <> k -> Dict.get (Dict.set d k v) k' = Dict.get d k'.
Proof.
  intros Hne. induction d as [| [k0 v0] d IH]; simpl.
  - destruct (N.eqb k' k) eqn:E; auto. apply N.eqb_eq in E. contradiction.
  - destruct (N.eqb k k0) eqn:E; simpl.
    + apply N.eqb_eq in E. subst k0.
      destruct (N.eqb k' k) eqn:E'; auto. apply N.eqb_eq in E'. contradiction.
    + now rewrite IH.
Qed.

Lemma mem_true_get d k : Dict.mem d k = true -> exists v, Dict.get d k = Some v.
Proof. unfold Dict.mem. destruct (Dict.get d k); [eauto | discriminate]. Qed.

Lemma get_mem d k v : Dict.get d k = Some v -> Dict.mem d k = true.
Proof. unfold Dict.mem. now intros ->. Qed.

Lemma get_In_values d k v : Dict.get d k = Some v -> In v (Dict.values d).
Proof.
  induction d as [| [k' v'] d IH]; simpl; [discriminate |].
  destruct (N.eqb k k'); [injection 1; auto | auto].
Qed.

Lemma In_values_set d k v x :
  In x (Dict.values (Dict.set d k v)) -> x = v \/ In x (Dict.values d).
Proof.
  induction d as [| [k' v'] d IH]; simpl.
  - intros [<- | []]. now left.
  - destruct (N.eqb k k'); simpl.
    + intros [<- | H]; auto.
    + intros [<- | H]; auto. destruct (IH H); auto.
Qed.

Lemma In_values_del d k x :
  In x (Dict.values (Dict.del d k)) -> In x (Dict.values d).
Proof.
  induction d as [| [k' v'] d IH]; simpl; auto.
  destruct (N.eqb k k'); simpl; auto.
  intros [<- | H]; auto.
Qed.

End DictFacts.

(** ** Pricing *)

(** Pricing only reads: the stores are the same afterwards, whatever it
    returns or raises. *)
Lemma compute_order_total_loop_reads items : forall total w,
  snd (compute_order_total_loop items total w) = w.
Proof.
  induction items as [| [li | li] rest IH]; intros total w; simpl; auto.
  run.
  destruct (Dict.get (products w) (LineItem.product_id li)); auto.
  destruct (PyFloat.of_int (LineItem.quantity li)); auto.
Qed.

Lemma compute_order_total_reads items w :
  snd (compute_order_total items w) = w.
Proof.
  unfold compute_order_total. run.
  pose proof (compute_order_total_loop_reads items 0%float w) as H.
  destruct (compute_order_total_loop items 0%float w) as [[t | e] w']; simpl in *; auto.
Qed.

(** On [LineItem] instances the loop agrees with the left-to-right sum of
    the specification. *)
Lemma compute_order_total_loop_sum items : forall total w t w',
  compute_order_total_loop (instances items) total w = (Ok t, w') ->
  t = fold_left
        (fun acc li => (acc + Spec.price_of (products w) li * Spec.quantity_of li)%float)
        items total
  /\ Spec.all_known (products w) items.
Proof.
  induction items as [| li rest IH]; intros total w t w' H; simpl in *.
  - run. injection H as <- _. split; [reflexivity | constructor].
  - run. unfold Spec.all_known, Spec.price_of, Spec.quantity_of, Dict.mem in *.
    destruct (Dict.get (products w) (LineItem.product_id li)) as [prod |] eqn:Hp;
      [| discriminate].
    destruct (PyFloat.of_int (LineItem.quantity li)) as [q |] eqn:Hq; [| discriminate].
    apply IH in H. destruct H as [-> Hall]. split.
    + reflexivity.
    + constructor; [simpl; now rewrite Hp | exact Hall].
Qed.

Lemma compute_order_total_spec items w t w' :
  compute_order_total (instances items) w = (Ok t, w') ->
  t = Spec.order_total (products w) items /\ Spec.all_known (products w) items /\ w' = w.
Proof.
  unfold compute_order_total. run. intros H.
  pose proof (compute_order_total_loop_reads (instances items) 0%float w) as Hr.
  destruct (compute_order_total_loop (instances items) 0%float w) as [[t0 | e] w0] eqn:E;
    [| discriminate].
  injection H as <- <-. apply compute_order_total_loop_sum in E.
  destruct E as [-> Hall]. simpl in Hr. now subst.
Qed.

(** With every product known and every quantity small enough for a float,
    pricing of instances returns. *)
Lemma compute_order_total_loop_returns items : forall total w,
  Spec.all_known (products w) items ->
  Forall (fun li => PyFloat.of_int (LineItem.quantity li) <> None) items ->
  exists t, compute_order_total_loop (instances items) total w = (Ok t, w).
Proof.
  induction items as [| li rest IH]; intros total w Hk Hq; simpl.
  - run. eauto.
  - run. inversion Hk as [| ? ? Hk1 Hk2]; subst. inversion Hq as [| ? ? Hq1 Hq2]; subst.
    apply mem_true_get in Hk1. destruct Hk1 as [prod ->].
    destruct (PyFloat.of_int (LineItem.quantity li)) as [q |]; [| congruence].
    now apply IH.
Qed.

(** A pricing that meets an unknown product before any quantity overflows
    raises [InvalidReference] for the first unknown product. *)
Lemma compute_order_total_loop_unknown items : forall total w pid,
  Spec.first_unknown (products w) items = Some pid ->
  Forall (fun li => PyFloat.of_int (LineItem.quantity li) <> None) items ->
  compute_order_total_loop (instances items) total w = (Raise (InvalidReference pid), w).
Proof.
  induction items as [| li rest IH]; intros total w pid Hu Hq; simpl in *.
  - discriminate.
  - run. unfold Dict.mem in Hu. inversion Hq as [| ? ? Hq1 Hq2]; subst.
    destruct (Dict.get (products w) (LineItem.product_id li)) as [prod |].
    + destruct (PyFloat.of_int (LineItem.quantity li)) as [q |]; [| congruence].
      now apply IH.
    + now injection Hu as ->.
Qed.

(** On dumped line items pricing stops at the first one: reading its
    [product_id] raises [AttributeError].  Only an empty list is priced. *)
Lemma compute_order_total_dumped items w :
  compute_order_total (dumped items) w
  = match items with
    | [] => (Ok 0%float, w)
    | _ :: _ => (Raise AttributeError, w)
    end.
Proof. destruct items; reflexivity. Qed.

(** ** The order handlers, case by case *)

Lemma create_order_cases created_at updated_at order w :
  create_order created_at updated_at order w =
  match fst (compute_order_total (instances (OrderCreate.items order)) w) with
  | Raise e => (Raise e, w)
  | Ok total =>
      if (0 <=? total)%float then
        if Dict.mem (orders w) (OrderCreate.id order) then (Raise (Conflict Orders), w)
        else (Ok (new_order created_at updated_at order total),
              set_orders (Dict.set (orders w) (OrderCreate.id order)
                            (new_order created_at updated_at order total)) w)
      else (Raise ValidationError, w)
  end.
Proof.
  unfold create_order, OrderRead_validate, new_order.
  pose proof (compute_order_total_reads (instances (OrderCreate.items order)) w) as Hr.
  unfold bind at 1.
  destruct (compute_order_total (instances (OrderCreate.items order)) w) as [[total | e] w0];
    simpl in Hr; subst w0; simpl; auto.
  run. destruct (0 <=? total)%float; simpl; auto.
  destruct (Dict.mem (orders w) (OrderCreate.id order)); auto.
Qed.

Lemma update_order_cases now order_id patch w :
  update_order now order_id patch w =
  match Dict.get (orders w) order_id with
  | None => (Raise (NotFound Orders), w)
  | Some data =>
      match OrderUpdate.items patch with
      | Value [] => commit_order order_id (patched_order now patch data ([], 0%float)) w
      | Value (_ :: _) => (Raise AttributeError, w)
      | _ =>
          commit_order order_id
            (patched_order now patch data
               (OrderRead.items data, OrderRead.total_amount data)) w
      end
  end.
Proof.
  unfold update_order, OrderRead_validate, commit_order, patched_order, Dict.mem.
  unfold bind at 1. unfold gets at 1.
  destruct (Dict.get (orders w) order_id) as [data |] eqn:Hg; simpl; auto.
  unfold bind at 1. unfold index. rewrite Hg.
  destruct (OrderUpdate.items patch) as [| | [| li its]]; simpl.
  - run. destruct (0 <=? OrderRead.total_amount data)%float; auto.
  - run. destruct (0 <=? OrderRead.total_amount data)%float; auto.
  - reflexivity.
  - reflexivity.
Qed.

(** ** Order totals *)

Lemma bob_created :
  create_order 20 21 Example.bob Example.shop
  = (Ok Example.bob_order, Example.shop_with_bob).
Proof. vm_compute. reflexivity. Qed.

Lemma commit_order_ok order_id o w r w' :
  commit_order order_id o w = (Ok r, w') ->
  r = o /\ w' = set_orders (Dict.set (orders w) order_id o) w
  /\ (0 <=? OrderRead.total_amount o)%float = true.
Proof.
  unfold commit_order. destruct (0 <=? OrderRead.total_amount o)%float; [| discriminate].
  injection 1 as <- <-. auto.
Qed.

Lemma create_order_ok created_at updated_at order w o w' :
  create_order created_at updated_at order w = (Ok o, w') ->
  exists total,
    compute_order_total (instances (OrderCreate.items order)) w = (Ok total, w)
    /\ (0 <=? total)%float = true
    /\ Dict.mem (orders w) (OrderCreate.id order) = false
    /\ o = new_order created_at updated_at order total
    /\ w' = set_orders (Dict.set (orders w) (OrderCreate.id order) o) w.
Proof.
  rewrite create_order_cases.
  pose proof (compute_order_total_reads (instances (OrderCreate.items order)) w) as Hr.
  destruct (compute_order_total (instances (OrderCreate.items order)) w) as [[total | e] w0];
    simpl in *; subst w0; [| discriminate].
  destruct (0 <=? total)%float eqn:Hv; [| discriminate].
  destruct (Dict.mem (orders w) (OrderCreate.id order)) eqn:Hm; [discriminate |].
  injection 1 as <- <-. exists total. repeat split; auto.
Qed.

(** An order create that returns stores, as [total_amount], the sum over
    its items of the product's price times the quantity, taken against the
    product store as it is at that moment and rounded to two decimals; every
    line item then names a stored product.  The create payload has no total
    of its own.  For items [(p1, 2); (p2, 1)] with prices 9.99 and 5.00 the
    stored total is 24.98. *)
Theorem order_total_on_create :
  (forall created_at updated_at order w o w',
     create_order created_at updated_at order w = (Ok o, w') ->
     Spec.all_known (products w) (OrderCreate.items order)
     /\ OrderRead.items o = OrderCreate.items order
     /\ OrderRead.total_amount o
        = Spec.order_total (products w) (OrderCreate.items order)
     /\ Dict.get (orders w') (OrderCreate.id order) = Some o)
  /\ (create_order 20 21 Example.bob Example.shop
      = (Ok Example.bob_order, Example.shop_with_bob)
      /\ OrderRead.total_amount Example.bob_order = 24.98%float).
Proof.
  split.
  - intros created_at updated_at order w o w' H.
    apply create_order_ok in H.
    destruct H as (total & Ht & _ & _ & -> & ->).
    apply compute_order_total_spec in Ht. destruct Ht as (-> & Hall & _).
    repeat split; auto. simpl. apply get_set_same.
  - split; [exact bob_created | reflexivity].
Qed.

Lemma order_total_on_create_witness :
  OrderRead.total_amount Example.bob_order
  = Spec.order_total Example.catalog (OrderCreate.items Example.bob).
Proof.
  exact (proj1 (proj2 (proj2
           (proj1 order_total_on_create 20%Z 21%Z Example.bob Example.shop
              Example.bob_order Example.shop_with_bob bob_created)))).
Defined.

(** A patch that carries a list with at least one line item never prices
    it: [updates] holds the items as dicts, reading [product_id] off the
    first raises [AttributeError], and the stores stay as they were. *)
Theorem update_order_items_raises now order_id patch li rest w data :
  Dict.get (orders w) order_id = Some data ->
  OrderUpdate.items patch = Value (li :: rest) ->
  update_order now order_id patch w = (Raise AttributeError, w).
Proof. intros Hg Hi. now rewrite update_order_cases, Hg, Hi. Qed.

Lemma update_order_items_raises_witness :
  update_order 40 7 Example_patch.three_widgets Example_run.day
  = (Raise AttributeError, Example_run.day).
Proof.
  apply (@update_order_items_raises 40%Z 7%N Example_patch.three_widgets
           (LineItem.mk 1 3) [] Example_run.day Example_patch.alice_stored).
  - vm_compute. reflexivity.
  - reflexivity.
Defined.

(** C1, at the input where the code departs from it: order 7 is stored,
    product 1 is stored, and the patch carries the items [(1, 3)].  The
    order is not rewritten with a new total; the patch raises
    [AttributeError] and the stored order keeps its items and its total. *)
Theorem patch_items_not_priced :
  Dict.mem (products Example_run.day) 1 = true
  /\ update_order 40 7 Example_patch.three_widgets Example_run.day
     = (Raise AttributeError, Example_run.day)
  /\ Dict.get (orders Example_run.day) 7 = Some Example_patch.alice_stored.
Proof. repeat split; vm_compute; reflexivity. Qed.

(** ** Orders that name an unknown product *)

(** A create that raises leaves all four stores as they were. *)
Lemma create_order_raise created_at updated_at order w e w' :
  create_order created_at updated_at order w = (Raise e, w') -> w' = w.
Proof.
  rewrite create_order_cases.
  destruct (fst (compute_order_total (instances (OrderCreate.items order)) w)) as [total | e0].
  - destruct (0 <=? total)%float; [| now injection 1].
    destruct (Dict.mem (orders w) (OrderCreate.id order)); [now injection 1 | discriminate].
  - now injection 1.
Qed.

Lemma all_known_first_unknown catalog items :
  Spec.first_unknown catalog items = None <-> Spec.all_known catalog items.
Proof.
  unfold Spec.all_known. induction items as [| li rest IH]; simpl.
  - split; [constructor | reflexivity].
  - destruct (Dict.mem catalog (LineItem.product_id li)) eqn:E.
    + rewrite IH. split; [now constructor | now inversion 1].
    + split; [discriminate | inversion 1; congruence].
Qed.

(** An order naming a product that is not stored is never created: the
    create raises and the stores, the orders among them, are untouched. *)
Theorem create_order_unknown_rejected created_at updated_at order w :
  ~ Spec.all_known (products w) (OrderCreate.items order) ->
  exists e, create_order created_at updated_at order w = (Raise e, w).
Proof.
  intros Hunk.
  destruct (create_order created_at updated_at order w) as [[o | e] w'] eqn:E.
  - apply create_order_ok in E. destruct E as (total & Ht & _).
    apply compute_order_total_spec in Ht. destruct Ht as (_ & Hall & _). contradiction.
  - exists e. apply create_order_raise in E. now subst.
Qed.

(** When no quantity is too large for a float, the create raises
    [InvalidReference] for the first line item whose product is unknown. *)
Theorem create_order_unknown_product created_at updated_at order w pid :
  Spec.first_unknown (products w) (OrderCreate.items order) = Some pid ->
  Forall (fun li => PyFloat.of_int (LineItem.quantity li) <> None)
    (OrderCreate.items order) ->
  create_order created_at updated_at order w = (Raise (InvalidReference pid), w).
Proof.
  intros Hu Hq. rewrite create_order_cases. unfold compute_order_total, bind.
  now rewrite compute_order_total_loop_unknown with (pid := pid).
Qed.

Lemma create_order_unknown_rejected_witness :
  exists e, create_order 20 21 Example_unknown.ghost Example.shop = (Raise e, Example.shop).
Proof.
  apply (@create_order_unknown_rejected 20%Z 21%Z Example_unknown.ghost Example.shop).
  intros H. apply all_known_first_unknown in H. vm_compute in H. discriminate.
Defined.

Lemma create_order_unknown_product_witness :
  create_order 20 21 Example_unknown.ghost Example.shop
  = (Raise (InvalidReference 9), Example.shop).
Proof.
  apply (@create_order_unknown_product 20%Z 21%Z Example_unknown.ghost Example.shop 9%N).
  - vm_compute. reflexivity.
  - repeat constructor; vm_compute; discriminate.
Defined.

(** C2, at the input where the code departs from it: the first line item
    names a stored product with a quantity of [2^1024], the second names a
    product that is not stored.  Multiplying the price by the quantity raises
    [OverflowError] before the unknown product is looked at, so the create
    does not fail with [InvalidReference]. *)
Theorem create_order_overflow_before_unknown :
  Spec.first_unknown (products Example.shop)
    (OrderCreate.items Example_unknown.huge_then_ghost) = Some 9%N
  /\ create_order 20 21 Example_unknown.huge_then_ghost Example.shop
     = (Raise OverflowError, Example.shop).
Proof. split; vm_compute; reflexivity. Qed.

(** ** The product store under order writes *)

Lemma update_order_raise now order_id patch w e w' :
  update_order now order_id patch w = (Raise e, w') -> w' = w.
Proof.
  rewrite update_order_cases. unfold commit_order.
  destruct (Dict.get (orders w) order_id) as [data |]; [| now injection 1].
  destruct (OrderUpdate.items patch) as [| | [| li its]].
  - destruct (0 <=? _)%float; [discriminate | now injection 1].
  - destruct (0 <=? _)%float; [discriminate | now injection 1].
  - destruct (0 <=? _)%float; [discriminate | now injection 1].
  - now injection 1.
Qed.

Lemma update_order_ok now order_id patch w o w' :
  update_order now order_id patch w = (Ok o, w') ->
  w' = set_orders (Dict.set (orders w) order_id o) w
  /\ (0 <=? OrderRead.total_amount o)%float = true
  /\ exists data priced,
       Dict.get (orders w) order_id = Some data
       /\ o = patched_order now patch data priced.
Proof.
  rewrite update_order_cases.
  destruct (Dict.get (orders w) order_id) as [data |]; [| discriminate].
  destruct (OrderUpdate.items patch) as [| | [| li its]]; [| | | discriminate];
    intros H; apply commit_order_ok in H; destruct H as (-> & -> & Hv);
    repeat split; eauto.
Qed.

(** C9. Creating or patching an order never changes the product store:
    whether the handler returns or raises, every entry of the store, stock
    counts included, is what it was before. *)
Theorem order_writes_leave_products :
  (forall created_at updated_at order w,
     products (snd (create_order created_at updated_at order w)) = products w)
  /\ (forall now order_id patch w,
     products (snd (update_order now order_id patch w)) = products w).
Proof.
  split.
  - intros created_at updated_at order w.
    destruct (create_order created_at updated_at order w) as [[o | e] w'] eqn:E; simpl.
    + apply create_order_ok in E. destruct E as (total & _ & _ & _ & _ & ->). reflexivity.
    + apply create_order_raise in E. now subst.
  - intros now order_id patch w.
    destruct (update_order now order_id patch w) as [[o | e] w'] eqn:E; simpl.
    + apply update_order_ok in E. destruct E as (-> & _). reflexivity.
    + apply update_order_raise in E. now subst.
Qed.

(** ** Creating under an identifier that is taken *)

(** C3, as amended.  For Address, Product and Order a create whose payload
    carries an identifier already in the store raises and leaves every store
    as it was.  Address and Product raise [Conflict].  An order is priced
    before its identifier is looked up, so it raises what pricing raises when
    pricing fails, and [Conflict] when pricing yields a total that
    [OrderRead] accepts. *)
Theorem duplicate_create_rejected :
  (forall address w,
     Dict.mem (addresses w) (Address.id address) = true ->
     create_address address w = (Raise (Conflict Addresses), w))
  /\ (forall created_at updated_at product w,
     Dict.mem (products w) (ProductCreate.id product) = true ->
     create_product created_at updated_at product w = (Raise (Conflict Products), w))
  /\ (forall created_at updated_at order w,
     Dict.mem (orders w) (OrderCreate.id order) = true ->
     create_order created_at updated_at order w
     = (Raise (duplicate_order_failure order w), w)
     /\ (forall total,
           compute_order_total (instances (OrderCreate.items order)) w = (Ok total, w) ->
           (0 <=? total)%float = true ->
           duplicate_order_failure order w = Conflict Orders)).
Proof.
  split; [| split].
  - intros address w H. unfold create_address. run. now rewrite H.
  - intros created_at updated_at product w H. unfold create_product. run. now rewrite H.
  - intros created_at updated_at order w H. split.
    + rewrite create_order_cases. unfold duplicate_order_failure.
      destruct (fst (compute_order_total (instances (OrderCreate.items order)) w)) as [total | e]; auto.
      destruct (0 <=? total)%float; auto. now rewrite H.
    + intros total Ht Hv. unfold duplicate_order_failure.
      rewrite Ht. simpl. now rewrite Hv.
Qed.

Lemma duplicate_create_rejected_witness :
  create_product 20 21 Example_duplicate.widget_again Example.shop
  = (Raise (Conflict Products), Example.shop)
  /\ create_order 20 21 Example_duplicate.alice_again Example.shop
     = (Raise (Conflict Orders), Example.shop).
Proof.
  split.
  - apply (proj1 (proj2 duplicate_create_rejected)). reflexivity.
  - destruct (proj2 (proj2 duplicate_create_rejected) 20%Z 21%Z
                Example_duplicate.alice_again Example.shop eq_refl) as [H Hc].
    rewrite H, (Hc 9.99%float); [reflexivity | vm_compute; reflexivity ..].
Defined.

(** C3 as stated fails for orders: the identifier 7 is taken, yet the create
    raises [InvalidReference] for the unknown product 9, not [Conflict]. *)
Lemma duplicate_order_not_conflict :
  ~ (forall created_at updated_at order w,
       Dict.mem (orders w) (OrderCreate.id order) = true ->
       create_order created_at updated_at order w = (Raise (Conflict Orders), w)).
Proof.
  intros H.
  specialize (H 20%Z 21%Z Example_unknown.duplicate_ghost Example.shop eq_refl).
  vm_compute in H. discriminate.
Qed.

(** A person is stored under the identifier of the snapshot built from the
    payload, with no look-up first: the create always returns, and an entry
    already under that identifier is replaced. *)
Lemma create_person_stores uuid4 person w :
  create_person uuid4 person w
  = (Ok (person_read_of uuid4 person),
     set_persons
       (Dict.set (persons w) (PersonRead.id (person_read_of uuid4 person))
          (person_read_of uuid4 person)) w).
Proof. reflexivity. Qed.

(** ** Timestamps *)

Lemma set_persons_same w : set_persons (persons w) w = w.
Proof. now destruct w. Qed.
Lemma set_addresses_same w : set_addresses (addresses w) w = w.
Proof. now destruct w. Qed.
Lemma set_products_same w : set_products (products w) w = w.
Proof. now destruct w. Qed.
Lemma set_orders_same w : set_orders (orders w) w = w.
Proof. now destruct w. Qed.

(** Each handler writes to the store of its own entity type only. *)
Lemma address_handlers_frame (r : request) t1 t2 w :
  match r with
  | CreateAddress _ | ListAddresses _ _ _ _ _ | GetAddress _ | UpdateAddress _ _ => True
  | _ => False
  end ->
  exists d, handle t1 t2 r w = set_addresses d w.
Proof.
  destruct r; simpl; try contradiction; intros _.
  - unfold create_address. run. split_cases.
    all: first [ solve [eexists; reflexivity]
               | exists (addresses w); rewrite set_addresses_same; reflexivity ].
  - exists (addresses w). now rewrite set_addresses_same.
  - unfold get_address. run. exists (addresses w). rewrite set_addresses_same.
    split_cases; reflexivity.
  - unfold update_address. run. split_cases.
    all: first [ solve [eexists; reflexivity]
               | exists (addresses w); rewrite set_addresses_same; reflexivity ].
Qed.

Lemma person_handlers_frame (r : request) t1 t2 w :
  match r with
  | CreatePerson _ _ | ListPersons _ _ _ _ _ _ _ _ | GetPerson _ | UpdatePerson _ _ => True
  | _ => False
  end ->
  exists d, handle t1 t2 r w = set_persons d w.
Proof.
  destruct r; simpl; try contradiction; intros _.
  - eexists. reflexivity.
  - exists (persons w). now rewrite set_persons_same.
  - unfold get_person. run. exists (persons w). rewrite set_persons_same.
    split_cases; reflexivity.
  - unfold update_person. run. split_cases.
    all: first [ solve [eexists; reflexivity]
               | exists (persons w); rewrite set_persons_same; reflexivity ].
Qed.

Lemma stores_ok_later t t' w :
  (t <= t')%Z -> stores_ok t w -> stores_ok t' w.
Proof.
  unfold stores_ok, product_ok, order_ok. intros Hle [Hp Ho]. split.
  - intros p Hin. specialize (Hp p Hin). lia.
  - intros o Hin. specialize (Ho o Hin). intuition lia.
Qed.

Lemma update_product_ok now product_id patch w r w' :
  update_product now product_id patch w = (Ok r, w') ->
  exists data,
    Dict.get (products w) product_id = Some data
    /\ overlay (ProductUpdate.name patch) (Some (ProductRead.name data))
       = Some (ProductRead.name r)
    /\ overlay (ProductUpdate.description patch) (ProductRead.description data)
       = ProductRead.description r
    /\ overlay (ProductUpdate.price patch) (Some (ProductRead.price data))
       = Some (ProductRead.price r)
    /\ overlay (ProductUpdate.in_stock patch) (Some (ProductRead.in_stock data))
       = Some (ProductRead.in_stock r)
    /\ ProductRead.id r = ProductRead.id data
    /\ ProductRead.created_at r = ProductRead.created_at data
    /\ ProductRead.updated_at r = now
    /\ w' = set_products (Dict.set (products w) product_id r) w.
Proof.
  unfold update_product, Dict.mem. run.
  destruct (Dict.get (products w) product_id) as [data |] eqn:Hg; simpl; [| discriminate].
  destruct (overlay (ProductUpdate.name patch) (Some (ProductRead.name data)))
    as [name |] eqn:Hn; [| discriminate].
  destruct (overlay (ProductUpdate.price patch) (Some (ProductRead.price data)))
    as [price |] eqn:Hp; [| discriminate].
  destruct (overlay (ProductUpdate.in_stock patch) (Some (ProductRead.in_stock data)))
    as [in_stock |] eqn:Hs; [| discriminate].
  injection 1 as <- <-. exists data. simpl. repeat split; auto.
Qed.

Lemma update_product_raise now product_id patch w e w' :
  update_product now product_id patch w = (Raise e, w') -> w' = w.
Proof.
  unfold update_product, Dict.mem. run.
  destruct (Dict.get (products w) product_id) as [data |]; simpl; [| now injection 1].
  destruct (overlay (ProductUpdate.name patch) (Some (ProductRead.name data)))
    as [name |]; [| now injection 1].
  destruct (overlay (ProductUpdate.price patch) (Some (ProductRead.price data)))
    as [price |]; [| now injection 1].
  destruct (overlay (ProductUpdate.in_stock patch) (Some (ProductRead.in_stock data)))
    as [in_stock |]; [discriminate | now injection 1].
Qed.

Lemma create_product_ok created_at updated_at product w r w' :
  create_product created_at updated_at product w = (Ok r, w') ->
  Dict.mem (products w) (ProductCreate.id product) = false
  /\ r = ProductRead.mk (ProductCreate.id product) (ProductCreate.name product)
           (ProductCreate.description product) (ProductCreate.price product)
           (ProductCreate.in_stock product) created_at updated_at
  /\ w' = set_products (Dict.set (products w) (ProductCreate.id product) r) w.
Proof.
  unfold create_product. run.
  destruct (Dict.mem (products w) (ProductCreate.id product)); [discriminate |].
  injection 1 as <- <-. auto.
Qed.

Lemma create_product_raise created_at updated_at product w e w' :
  create_product created_at updated_at product w = (Raise e, w') -> w' = w.
Proof.
  unfold create_product. run.
  destruct (Dict.mem (products w) (ProductCreate.id product)); [now injection 1 | discriminate].
Qed.

Lemma stores_ok_frame t w w' :
  products w' = products w -> orders w' = orders w ->
  stores_ok t w -> stores_ok t w'.
Proof. unfold stores_ok. now intros -> ->. Qed.

Lemma reads_leave_stores w :
  (forall s c st pc co, snd (list_addresses s c st pc co w) = w)
  /\ (forall i, snd (get_address i w) = w)
  /\ (forall u f l e ph b c co, snd (list_persons u f l e ph b c co w) = w)
  /\ (forall i, snd (get_person i w) = w)
  /\ (forall n, snd (list_products n w) = w)
  /\ (forall i, snd (get_product i w) = w)
  /\ (forall n, snd (list_orders n w) = w)
  /\ (forall i, snd (get_order i w) = w).
Proof.
  repeat split; intros;
    unfold get_address, get_person, get_product, get_order; run;
    split_cases; reflexivity.
Qed.

Lemma delete_product_cases product_id w :
  delete_product product_id w
  = if Dict.mem (products w) product_id
    then (Ok tt, set_products (Dict.del (products w) product_id) w)
    else (Raise (NotFound Products), w).
Proof. unfold delete_product. run. now destruct (Dict.mem (products w) product_id). Qed.

Lemma delete_order_cases order_id w :
  delete_order order_id w
  = if Dict.mem (orders w) order_id
    then (Ok tt, set_orders (Dict.del (orders w) order_id) w)
    else (Raise (NotFound Orders), w).
Proof. unfold delete_order. run. now destruct (Dict.mem (orders w) order_id). Qed.

(** Serving a request keeps the stored timestamps in order, as long as the
    clock readings it takes do not go back. *)
Lemma handle_keeps_ok t t1 t2 r w :
  stores_ok t w -> (t <= t1)%Z -> (t1 <= t2)%Z ->
  stores_ok t2 (handle t1 t2 r w).
Proof.
  intros Hok H1 H2.
  assert (Hlater : stores_ok t2 w) by (apply stores_ok_later with t; [lia | exact Hok]).
  destruct (reads_leave_stores w) as (Rla & Rga & Rlp & Rgp & Rlpr & Rgpr & Rlo & Rgo).
  destruct r;
    match goal with
    | |- stores_ok _ (handle _ _ ?r _) =>
        first [ destruct (@address_handlers_frame r t1 t2 w I) as [d ->];
                solve [apply stores_ok_frame with w; auto]
              | destruct (@person_handlers_frame r t1 t2 w I) as [d ->];
                solve [apply stores_ok_frame with w; auto]
              | cbn [handle] ]
    end.
  - (* create_product *)
    destruct (create_product t1 t2 product w) as [[p | e] w'] eqn:E; simpl.
    + apply create_product_ok in E. destruct E as (_ & Hp & ->).
      destruct Hlater as [HP HO]. split; [| exact HO].
      simpl. intros x Hin. apply In_values_set in Hin. destruct Hin as [-> | Hin]; auto.
      subst p. unfold product_ok. simpl. lia.
    + apply create_product_raise in E. now subst.
  - now rewrite Rlpr.
  - now rewrite Rgpr.
  - (* update_product *)
    destruct (update_product t1 product_id patch w) as [[p | e] w'] eqn:E; simpl.
    + apply update_product_ok in E.
      destruct E as (data & Hg & _ & _ & _ & _ & _ & Hc & Hu & ->).
      destruct Hok as [HP _]. destruct Hlater as [HP' HO]. split; [| exact HO].
      simpl. intros x Hin. apply In_values_set in Hin. destruct Hin as [-> | Hin]; auto.
      apply get_In_values in Hg. specialize (HP data Hg).
      unfold product_ok in *. rewrite Hc, Hu. lia.
    + apply update_product_raise in E. now subst.
  - (* delete_product *)
    rewrite delete_product_cases. destruct (Dict.mem (products w) product_id); auto.
    destruct Hlater as [HP HO]. split; [| exact HO].
    simpl. intros x Hin. apply In_values_del in Hin. auto.
  - (* create_order *)
    destruct (create_order t1 t2 order w) as [[o | e] w'] eqn:E; simpl.
    + apply create_order_ok in E. destruct E as (total & _ & Hv & _ & Ho & ->).
      destruct Hlater as [HP HO]. split; [exact HP |].
      simpl. intros x Hin. apply In_values_set in Hin. destruct Hin as [-> | Hin]; auto.
      subst o. unfold order_ok. simpl. repeat split; auto; lia.
    + apply create_order_raise in E. now subst.
  - now rewrite Rlo.
  - now rewrite Rgo.
  - (* update_order *)
    destruct (update_order t1 order_id patch w) as [[o | e] w'] eqn:E; simpl.
    + apply update_order_ok in E.
      destruct E as (-> & Hv & data & priced & Hg & Ho).
      destruct Hok as [_ HO]. destruct Hlater as [HP HO']. split; [exact HP |].
      simpl. intros x Hin. apply In_values_set in Hin. destruct Hin as [-> | Hin]; auto.
      apply get_In_values in Hg. specialize (HO data Hg).
      unfold order_ok in *. split; [| split]; auto; subst o; simpl; lia.
    + apply update_order_raise in E. now subst.
  - (* delete_order *)
    rewrite delete_order_cases. destruct (Dict.mem (orders w) order_id); auto.
    destruct Hlater as [HP HO]. split; [exact HP |].
    simpl. intros x Hin. apply In_values_del in Hin. auto.
Qed.

Lemma reachable_ok t w : reachable t w -> stores_ok t w.
Proof.
  induction 1 as [t | t w t1 t2 r Hr IH H1 H2].
  - split; intros x [].
  - now apply handle_keeps_ok with t.
Qed.

Lemma day_reachable : reachable 30 Example_run.day.
Proof.
  unfold Example_run.day.
  apply reachable_step with (t := 21%Z); [| lia | lia].
  apply reachable_step with (t := 11%Z); [| lia | lia].
  apply reachable_step with (t := 0%Z); [| lia | lia].
  apply reachable_start.
Defined.

(** ** Create, then get *)

Lemma create_address_ok address w r w' :
  create_address address w = (Ok r, w') ->
  Dict.mem (addresses w) (Address.id address) = false
  /\ r = address
  /\ w' = set_addresses (Dict.set (addresses w) (Address.id address) address) w.
Proof.
  unfold create_address. run.
  destruct (Dict.mem (addresses w) (Address.id address)); [discriminate |].
  rewrite get_set_same. injection 1 as <- <-. auto.
Qed.

Lemma compute_order_total_returns items w :
  Spec.all_known (products w) items ->
  Forall (fun li => PyFloat.of_int (LineItem.quantity li) <> None) items ->
  compute_order_total (instances items) w = (Ok (Spec.order_total (products w) items), w).
Proof.
  intros Hk Hq.
  destruct (compute_order_total_loop_returns 0%float w Hk Hq) as [t Ht].
  pose proof (compute_order_total_loop_sum _ _ _ Ht) as [-> _].
  unfold compute_order_total, bind. rewrite Ht. reflexivity.
Qed.

(** A create under an identifier that is not taken returns: always for an
    address or a product; for an order when every line item names a stored
    product, every quantity fits a float and the total passes the check of
    [OrderRead].  A person create returns whatever the stores hold. *)
Theorem create_returns :
  (forall address w,
     Dict.mem (addresses w) (Address.id address) = false ->
     fst (create_address address w) = Ok address)
  /\ (forall uuid4 person w,
     fst (create_person uuid4 person w) = Ok (person_read_of uuid4 person))
  /\ (forall created_at updated_at product w,
     Dict.mem (products w) (ProductCreate.id product) = false ->
     exists r, fst (create_product created_at updated_at product w) = Ok r)
  /\ (forall created_at updated_at order w,
     Dict.mem (orders w) (OrderCreate.id order) = false ->
     Spec.all_known (products w) (OrderCreate.items order) ->
     Forall (fun li => PyFloat.of_int (LineItem.quantity li) <> None)
       (OrderCreate.items order) ->
     (0 <=? Spec.order_total (products w) (OrderCreate.items order))%float = true ->
     fst (create_order created_at updated_at order w)
     = Ok (new_order created_at updated_at order
             (Spec.order_total (products w) (OrderCreate.items order)))).
Proof.
  repeat apply conj.
  - intros address w H. unfold create_address. run. rewrite H. simpl.
    now rewrite get_set_same.
  - reflexivity.
  - intros created_at updated_at product w H. unfold create_product. run.
    rewrite H. simpl. eauto.
  - intros created_at updated_at order w Hm Hk Hq Hv.
    rewrite create_order_cases, compute_order_total_returns by assumption.
    simpl. now rewrite Hv, Hm.
Qed.

Lemma create_returns_witness :
  fst (create_order 20 21 Example.bob Example.shop)
  = Ok (new_order 20 21 Example.bob
          (Spec.order_total (products Example.shop) (OrderCreate.items Example.bob))).
Proof.
  apply (proj2 (proj2 (proj2 create_returns))).
  - reflexivity.
  - repeat constructor.
  - repeat constructor; vm_compute; discriminate.
  - vm_compute. reflexivity.
Defined.

(** C7. A create of a valid payload returns, and getting the identifier of
    the entity it returned, right after, yields that same entity.  An
    address or a product is valid when its identifier is free, an order when
    its identifier is free and it can be priced, a person always.  The same
    holds of whatever a create returned. *)
Theorem get_after_create :
  (forall address w,
     Dict.mem (addresses w) (Address.id address) = false ->
     exists r w',
       create_address address w = (Ok r, w')
       /\ get_address (Address.id r) w' = (Ok r, w'))
  /\ (forall uuid4 person w,
     exists r w',
       create_person uuid4 person w = (Ok r, w')
       /\ get_person (PersonRead.id r) w' = (Ok r, w'))
  /\ (forall created_at updated_at product w,
     Dict.mem (products w) (ProductCreate.id product) = false ->
     exists r w',
       create_product created_at updated_at product w = (Ok r, w')
       /\ get_product (ProductRead.id r) w' = (Ok r, w'))
  /\ (forall created_at updated_at order w,
     Dict.mem (orders w) (OrderCreate.id order) = false ->
     Spec.all_known (products w) (OrderCreate.items order) ->
     Forall (fun li => PyFloat.of_int (LineItem.quantity li) <> None)
       (OrderCreate.items order) ->
     (0 <=? Spec.order_total (products w) (OrderCreate.items order))%float = true ->
     exists r w',
       create_order created_at updated_at order w = (Ok r, w')
       /\ get_order (OrderRead.id r) w' = (Ok r, w'))
  /\ (forall address w r w',
     create_address address w = (Ok r, w') ->
     get_address (Address.id r) w' = (Ok r, w'))
  /\ (forall created_at updated_at product w r w',
     create_product created_at updated_at product w = (Ok r, w') ->
     get_product (ProductRead.id r) w' = (Ok r, w'))
  /\ (forall created_at updated_at order w r w',
     create_order created_at updated_at order w = (Ok r, w') ->
     get_order (OrderRead.id r) w' = (Ok r, w')).
Proof.
  assert (Ha : forall address w r w',
             create_address address w = (Ok r, w') ->
             get_address (Address.id r) w' = (Ok r, w')).
  { intros address w r w' H. apply create_address_ok in H. destruct H as (_ & -> & ->).
    unfold get_address, Dict.mem. run. now rewrite get_set_same. }
  assert (Hp : forall created_at updated_at product w r w',
             create_product created_at updated_at product w = (Ok r, w') ->
             get_product (ProductRead.id r) w' = (Ok r, w')).
  { intros created_at updated_at product w r w' H. apply create_product_ok in H.
    destruct H as (_ & Hr & ->).
    assert (Hid : ProductRead.id r = ProductCreate.id product) by now subst r.
    unfold get_product, Dict.mem. run. rewrite Hid. now rewrite get_set_same. }
  assert (Ho : forall created_at updated_at order w r w',
             create_order created_at updated_at order w = (Ok r, w') ->
             get_order (OrderRead.id r) w' = (Ok r, w')).
  { intros created_at updated_at order w r w' H. apply create_order_ok in H.
    destruct H as (total & _ & _ & _ & Hr & ->).
    assert (Hid : OrderRead.id r = OrderCreate.id order) by now subst r.
    unfold get_order, Dict.mem. run. rewrite Hid. now rewrite get_set_same. }
  repeat apply conj.
  - intros address w H.
    assert (Hc : create_address address w
                 = (Ok address,
                    set_addresses (Dict.set (addresses w) (Address.id address) address) w)).
    { unfold create_address. run. rewrite H. simpl. now rewrite get_set_same. }
    do 2 eexists. split; [exact Hc |]. exact (Ha _ _ _ _ Hc).
  - intros uuid4 person w. do 2 eexists. split; [apply create_person_stores |].
    unfold get_person, Dict.mem. run. now rewrite get_set_same.
  - intros created_at updated_at product w H.
    assert (Hc : exists r w', create_product created_at updated_at product w = (Ok r, w')).
    { unfold create_product. run. rewrite H. simpl. eauto. }
    destruct Hc as (r & w' & Hc). exists r, w'. split; [exact Hc |].
    exact (Hp _ _ _ _ _ _ Hc).
  - intros created_at updated_at order w Hm Hk Hq Hv.
    assert (Hc : exists r w', create_order created_at updated_at order w = (Ok r, w')).
    { rewrite create_order_cases, compute_order_total_returns by assumption.
      simpl. rewrite Hv, Hm. eauto. }
    destruct Hc as (r & w' & Hc). exists r, w'. split; [exact Hc |].
    exact (Ho _ _ _ _ _ _ Hc).
  - exact Ha.
  - exact Hp.
  - exact Ho.
Qed.

Lemma get_after_create_witness :
  exists r w',
    create_order 20 21 Example.bob Example.shop = (Ok r, w')
    /\ get_order (OrderRead.id r) w' = (Ok r, w').
Proof.
  apply (proj1 (proj2 (proj2 (proj2 get_after_create))) 20%Z 21%Z Example.bob Example.shop).
  - reflexivity.
  - repeat constructor.
  - repeat constructor; vm_compute; discriminate.
  - vm_compute. reflexivity.
Defined.

(** ** Patching an order without new items *)

(** A patch whose [items] entry is left out or null keeps the stored items
    and total, and returns as soon as the stored total passes the check. *)
Lemma update_order_keeps_items now order_id patch w data :
  Dict.get (orders w) order_id = Some data ->
  (forall its, OrderUpdate.items patch <> Value its) ->
  (0 <=? OrderRead.total_amount data)%float = true ->
  update_order now order_id patch w
  = (Ok (patched_order now patch data (OrderRead.items data, OrderRead.total_amount data)),
     set_orders
       (Dict.set (orders w) order_id
          (patched_order now patch data
             (OrderRead.items data, OrderRead.total_amount data))) w).
Proof.
  intros Hg Hits Hv. rewrite update_order_cases, Hg. unfold commit_order.
  destruct (OrderUpdate.items patch) as [| | its] eqn:E; simpl.
  - now rewrite Hv.
  - now rewrite Hv.
  - now destruct (Hits its).
Qed.

Lemma stored_order_valid t w order_id data :
  reachable t w -> Dict.get (orders w) order_id = Some data ->
  (0 <=? OrderRead.total_amount data)%float = true.
Proof.
  intros Hr Hg. apply reachable_ok in Hr. destruct Hr as [_ HO].
  apply get_In_values in Hg. now destruct (HO data Hg) as (_ & _ & Hv).
Qed.

(** C4. Patching a stored order with a payload that leaves [items] out
    returns an order whose items and total are those stored before the
    patch.  The product store plays no part: the same order comes back
    whatever catalogue the patch runs against. *)
Theorem patch_without_items_keeps_total t w now order_id patch data :
  reachable t w ->
  Dict.get (orders w) order_id = Some data ->
  OrderUpdate.items patch = Absent ->
  exists o,
    update_order now order_id patch w
    = (Ok o, set_orders (Dict.set (orders w) order_id o) w)
    /\ OrderRead.items o = OrderRead.items data
    /\ OrderRead.total_amount o = OrderRead.total_amount data
    /\ forall catalog,
         fst (update_order now order_id patch (set_products catalog w)) = Ok o.
Proof.
  intros Hr Hg Hits.
  pose proof (stored_order_valid _ Hr Hg) as Hv.
  assert (Hno : forall its, OrderUpdate.items patch <> Value its) by (rewrite Hits; discriminate).
  exists (patched_order now patch data (OrderRead.items data, OrderRead.total_amount data)).
  split; [| split; [| split]].
  - apply update_order_keeps_items; assumption.
  - reflexivity.
  - reflexivity.
  - intros catalog. rewrite update_order_keeps_items with (data := data); auto.
Qed.

Lemma patch_without_items_keeps_total_witness :
  exists o,
    update_order 40 7 Example_patch.note_only Example_run.day
    = (Ok o, set_orders (Dict.set (orders Example_run.day) 7 o) Example_run.day)
    /\ OrderRead.items o = OrderRead.items Example_patch.alice_stored
    /\ OrderRead.total_amount o = OrderRead.total_amount Example_patch.alice_stored
    /\ forall catalog,
         fst (update_order 40 7 Example_patch.note_only
                (set_products catalog Example_run.day)) = Ok o.
Proof.
  apply (@patch_without_items_keeps_total 30%Z Example_run.day 40%Z 7%N
           Example_patch.note_only Example_patch.alice_stored
           day_reachable).
  - vm_compute. reflexivity.
  - reflexivity.
Defined.

(** ** Timestamps of what is stored *)

(** A patch of a stored product returns unless it sends a null for [name],
    [price] or [in_stock]. *)
Lemma update_product_returns now product_id patch w data :
  Dict.get (products w) product_id = Some data ->
  ProductUpdate.name patch <> Null ->
  ProductUpdate.price patch <> Null ->
  ProductUpdate.in_stock patch <> Null ->
  exists r,
    update_product now product_id patch w
    = (Ok r, set_products (Dict.set (products w) product_id r) w).
Proof.
  intros Hg Hn Hp Hs. unfold update_product, Dict.mem. run. rewrite Hg. simpl.
  destruct patch as [name description price in_stock]; simpl in *.
  destruct name as [| | n], price as [| | p], in_stock as [| | s];
    try congruence; simpl; eauto.
Qed.

(** A patch of a stored order returns unless it carries a list of items
    that is not empty. *)
Lemma update_order_returns t w now order_id patch data :
  reachable t w ->
  Dict.get (orders w) order_id = Some data ->
  (forall li its, OrderUpdate.items patch <> Value (li :: its)) ->
  exists r,
    update_order now order_id patch w
    = (Ok r, set_orders (Dict.set (orders w) order_id r) w).
Proof.
  intros Hr Hg Hits. pose proof (stored_order_valid _ Hr Hg) as Hv.
  rewrite update_order_cases, Hg. unfold commit_order.
  destruct (OrderUpdate.items patch) as [| | [| li its]];
    [| | | now destruct (Hits li its)]; simpl; rewrite ?Hv; eauto.
Qed.

(** C6. A product or order gets both timestamps when it is created: the
    create stores, and returns, a snapshot whose [created_at] and
    [updated_at] are the two clock readings it takes.  A patch that returns
    stores, and returns, a snapshot whose [updated_at] is its clock reading
    and whose [created_at] is the stored one, whatever fields it carries; and
    creates and patches do return: a product create under a free identifier,
    an order create that can be priced, a product patch without a null where
    a value is required, an order patch without items to price.  With a
    clock that never goes back, every stored product and order has
    [created_at <= updated_at] after every request. *)
Theorem timestamps_in_order :
  (forall t1 t2 product w,
     Dict.mem (products w) (ProductCreate.id product) = false ->
     exists r w',
       create_product t1 t2 product w = (Ok r, w')
       /\ Dict.get (products w') (ProductCreate.id product) = Some r
       /\ ProductRead.created_at r = t1 /\ ProductRead.updated_at r = t2)
  /\ (forall t1 t2 order w,
     Dict.mem (orders w) (OrderCreate.id order) = false ->
     Spec.all_known (products w) (OrderCreate.items order) ->
     Forall (fun li => PyFloat.of_int (LineItem.quantity li) <> None)
       (OrderCreate.items order) ->
     (0 <=? Spec.order_total (products w) (OrderCreate.items order))%float = true ->
     exists r w',
       create_order t1 t2 order w = (Ok r, w')
       /\ Dict.get (orders w') (OrderCreate.id order) = Some r
       /\ OrderRead.created_at r = t1 /\ OrderRead.updated_at r = t2)
  /\ (forall t1 t2 order w r w',
     create_order t1 t2 order w = (Ok r, w') ->
     Dict.get (orders w') (OrderCreate.id order) = Some r
     /\ OrderRead.created_at r = t1 /\ OrderRead.updated_at r = t2)
  /\ (forall now product_id patch w data,
     Dict.get (products w) product_id = Some data ->
     ProductUpdate.name patch <> Null ->
     ProductUpdate.price patch <> Null ->
     ProductUpdate.in_stock patch <> Null ->
     exists r w',
       update_product now product_id patch w = (Ok r, w')
       /\ Dict.get (products w') product_id = Some r
       /\ ProductRead.updated_at r = now
       /\ ProductRead.created_at r = ProductRead.created_at data)
  /\ (forall now product_id patch w r w',
     update_product now product_id patch w = (Ok r, w') ->
     Dict.get (products w') product_id = Some r
     /\ ProductRead.updated_at r = now
     /\ exists data, Dict.get (products w) product_id = Some data
                     /\ ProductRead.created_at r = ProductRead.created_at data)
  /\ (forall t w now order_id patch data,
     reachable t w ->
     Dict.get (orders w) order_id = Some data ->
     (forall li its, OrderUpdate.items patch <> Value (li :: its)) ->
     exists r w',
       update_order now order_id patch w = (Ok r, w')
       /\ Dict.get (orders w') order_id = Some r
       /\ OrderRead.updated_at r = now
       /\ OrderRead.created_at r = OrderRead.created_at data)
  /\ (forall now order_id patch w r w',
     update_order now order_id patch w = (Ok r, w') ->
     Dict.get (orders w') order_id = Some r
     /\ OrderRead.updated_at r = now
     /\ exists data, Dict.get (orders w) order_id = Some data
                     /\ OrderRead.created_at r = OrderRead.created_at data)
  /\ (forall t w,
     reachable t w ->
     (forall product_id p,
        Dict.get (products w) product_id = Some p ->
        (ProductRead.created_at p <= ProductRead.updated_at p)%Z)
     /\ (forall order_id o,
        Dict.get (orders w) order_id = Some o ->
        (OrderRead.created_at o <= OrderRead.updated_at o)%Z)).
Proof.
  assert (Hco : forall t1 t2 order w r w',
             create_order t1 t2 order w = (Ok r, w') ->
             Dict.get (orders w') (OrderCreate.id order) = Some r
             /\ OrderRead.created_at r = t1 /\ OrderRead.updated_at r = t2).
  { intros t1 t2 order w r w' H. apply create_order_ok in H.
    destruct H as (total & _ & _ & _ & Hr & ->). simpl. rewrite get_set_same.
    subst r. repeat split. }
  assert (Hup : forall now product_id patch w r w',
             update_product now product_id patch w = (Ok r, w') ->
             Dict.get (products w') product_id = Some r
             /\ ProductRead.updated_at r = now
             /\ exists data, Dict.get (products w) product_id = Some data
                             /\ ProductRead.created_at r = ProductRead.created_at data).
  { intros now product_id patch w r w' H. apply update_product_ok in H.
    destruct H as (data & Hg & _ & _ & _ & _ & _ & Hc & Hu & ->). simpl.
    rewrite get_set_same. eauto. }
  assert (Huo : forall now order_id patch w r w',
             update_order now order_id patch w = (Ok r, w') ->
             Dict.get (orders w') order_id = Some r
             /\ OrderRead.updated_at r = now
             /\ exists data, Dict.get (orders w) order_id = Some data
                             /\ OrderRead.created_at r = OrderRead.created_at data).
  { intros now order_id patch w r w' H. apply update_order_ok in H.
    destruct H as (-> & _ & data & priced & Hg & ->). simpl. rewrite get_set_same.
    split; [reflexivity |]. split; [reflexivity |]. eauto. }
  repeat apply conj.
  - intros t1 t2 product w H. unfold create_product. run. rewrite H. simpl.
    do 2 eexists. split; [reflexivity |]. simpl. rewrite get_set_same. repeat split.
  - intros t1 t2 order w Hm Hk Hq Hv.
    assert (H : create_order t1 t2 order w
                = (Ok (new_order t1 t2 order
                         (Spec.order_total (products w) (OrderCreate.items order))),
                   set_orders
                     (Dict.set (orders w) (OrderCreate.id order)
                        (new_order t1 t2 order
                           (Spec.order_total (products w) (OrderCreate.items order)))) w)).
    { rewrite create_order_cases, compute_order_total_returns by assumption.
      simpl. now rewrite Hv, Hm. }
    do 2 eexists. split; [exact H |]. now apply Hco in H.
  - exact Hco.
  - intros now product_id patch w data Hg Hn Hp Hs.
    destruct (@update_product_returns now _ _ _ _ Hg Hn Hp Hs) as [r H].
    do 2 eexists. split; [exact H |].
    destruct (Hup _ _ _ _ _ _ H) as (H1 & H2 & data' & Hg' & H3).
    rewrite Hg in Hg'. injection Hg' as <-. auto.
  - exact Hup.
  - intros t w now order_id patch data Hr Hg Hits.
    destruct (@update_order_returns _ _ now _ _ _ Hr Hg Hits) as [r H].
    do 2 eexists. split; [exact H |].
    destruct (Huo _ _ _ _ _ _ H) as (H1 & H2 & data' & Hg' & H3).
    rewrite Hg in Hg'. injection Hg' as <-. auto.
  - exact Huo.
  - intros t w H. apply reachable_ok in H. destruct H as [HP HO]. split.
    + intros product_id p Hg. apply get_In_values in Hg. now destruct (HP p Hg).
    + intros order_id o Hg. apply get_In_values in Hg. now destruct (HO o Hg).
Qed.

Lemma timestamps_in_order_witness :
  exists r w',
    update_order 40 7 Example_patch.note_only Example_run.day = (Ok r, w')
    /\ Dict.get (orders w') 7 = Some r
    /\ OrderRead.updated_at r = 40%Z
    /\ OrderRead.created_at r = OrderRead.created_at Example_patch.alice_stored.
Proof.
  apply (proj1 (proj2 (proj2 (proj2 (proj2 (proj2 timestamps_in_order)))))
           30%Z Example_run.day 40%Z 7%N Example_patch.note_only
           Example_patch.alice_stored day_reachable).
  - vm_compute. reflexivity.
  - intros li its. discriminate.
Defined.

(** ** Nulls in an order patch *)

(** In an order patch a null [customer_name] or a null [items] acts as if
    the entry were left out: the stored name, or the stored items and total,
    are kept, and no pricing takes place.  A patch that carries no list of
    items returns and stores what it returns; a null [customer_name] keeps
    the stored name in it, a null [note] sets its note to null, and its
    [updated_at] is the clock reading of the patch. *)
Theorem nulls_in_order_patch t w now order_id patch data :
  reachable t w ->
  Dict.get (orders w) order_id = Some data ->
  (OrderUpdate.customer_name patch = Null ->
     update_order now order_id patch w
     = update_order now order_id (without_customer_name patch) w)
  /\ (OrderUpdate.items patch = Null ->
     update_order now order_id patch w
     = update_order now order_id (without_items patch) w
     /\ exists o,
          update_order now order_id patch w
          = (Ok o, set_orders (Dict.set (orders w) order_id o) w)
          /\ OrderRead.items o = OrderRead.items data
          /\ OrderRead.total_amount o = OrderRead.total_amount data
          /\ forall catalog,
               fst (update_order now order_id patch (set_products catalog w)) = Ok o)
  /\ ((forall its, OrderUpdate.items patch <> Value its) ->
     exists o,
       update_order now order_id patch w
       = (Ok o, set_orders (Dict.set (orders w) order_id o) w)
       /\ (OrderUpdate.customer_name patch = Null ->
           OrderRead.customer_name o = OrderRead.customer_name data)
       /\ (OrderUpdate.note patch = Null -> OrderRead.note o = None)
       /\ OrderRead.updated_at o = now).
Proof.
  intros Hr Hg. pose proof (stored_order_valid _ Hr Hg) as Hv.
  split; [| split].
  - intros Hc. rewrite !update_order_cases, Hg. unfold patched_order.
    simpl. rewrite Hc. reflexivity.
  - intros Hi.
    assert (Hno : forall its, OrderUpdate.items patch <> Value its)
      by (rewrite Hi; discriminate).
    split.
    + rewrite !update_order_cases, Hg. unfold patched_order. simpl. now rewrite Hi.
    + exists (patched_order now patch data
                (OrderRead.items data, OrderRead.total_amount data)).
      split; [| split; [| split]].
      * apply update_order_keeps_items; assumption.
      * reflexivity.
      * reflexivity.
      * intros catalog. rewrite update_order_keeps_items with (data := data); auto.
  - intros Hno.
    exists (patched_order now patch data
              (OrderRead.items data, OrderRead.total_amount data)).
    split; [apply update_order_keeps_items; assumption |].
    unfold patched_order. simpl. repeat split.
    + now intros ->.
    + now intros ->.
Qed.

Lemma nulls_in_order_patch_witness :
  update_order 40 7 Example_patch.nulls Example_run.day
  = update_order 40 7 (without_items Example_patch.nulls) Example_run.day.
Proof.
  refine (proj1 (proj1 (proj2
            (@nulls_in_order_patch 30%Z Example_run.day 40%Z 7%N Example_patch.nulls
               Example_patch.alice_stored day_reachable _)) eq_refl)).
  vm_compute. reflexivity.
Defined.

(** C10 fails on the code, by the defect of C1.  Order 7 is stored with a
    note; a patch sends a null [customer_name], a null [note] and a list of
    items that names the stored product 1.  The patch raises
    [AttributeError] when it prices the items: the note is not set to null
    and [updated_at] is not refreshed, the stored order being what it was. *)
Theorem null_note_beside_items_raises :
  OrderUpdate.customer_name Example_patch.clear_note_three_widgets = Null
  /\ OrderUpdate.note Example_patch.clear_note_three_widgets = Null
  /\ Dict.mem (products Example_run.day) 1 = true
  /\ Dict.get (orders Example_run.day) 7 = Some Example_patch.alice_stored
  /\ update_order 40 7 Example_patch.clear_note_three_widgets Example_run.day
     = (Raise AttributeError, Example_run.day)
  /\ get_order 7
       (snd (update_order 40 7 Example_patch.clear_note_three_widgets Example_run.day))
     = (Ok Example_patch.alice_stored, Example_run.day)
  /\ OrderRead.note Example_patch.alice_stored = Some "Leave at front desk."%string
  /\ OrderRead.updated_at Example_patch.alice_stored = 21%Z.
Proof. repeat apply conj; vm_compute; reflexivity. Qed.

(** ** Merging a patch *)

Lemma overlay_merged {A} (f : field A) (old new : option A) :
  overlay f old = new -> merged f old new.
Proof. intros <-. now destruct f. Qed.

Lemma update_address_ok address_id update w r w' :
  update_address address_id update w = (Ok r, w') ->
  exists data,
    Dict.get (addresses w) address_id = Some data
    /\ overlay (AddressUpdate.street update) (Some (Address.street data)) = Some (Address.street r)
    /\ overlay (AddressUpdate.city update) (Some (Address.city data)) = Some (Address.city r)
    /\ overlay (AddressUpdate.state update) (Some (Address.state data)) = Some (Address.state r)
    /\ overlay (AddressUpdate.postal_code update) (Some (Address.postal_code data))
       = Some (Address.postal_code r)
    /\ overlay (AddressUpdate.country update) (Some (Address.country data))
       = Some (Address.country r)
    /\ Address.id r = Address.id data
    /\ w' = set_addresses (Dict.set (addresses w) address_id r) w.
Proof.
  unfold update_address, Dict.mem. run.
  destruct (Dict.get (addresses w) address_id) as [data |] eqn:Hg; simpl; [| discriminate].
  destruct (overlay (AddressUpdate.street update) _) as [street |] eqn:H1; [| discriminate].
  destruct (overlay (AddressUpdate.city update) _) as [city |] eqn:H2; [| discriminate].
  destruct (overlay (AddressUpdate.state update) _) as [state |] eqn:H3; [| discriminate].
  destruct (overlay (AddressUpdate.postal_code update) _) as [postal_code |] eqn:H4;
    [| discriminate].
  destruct (overlay (AddressUpdate.country update) _) as [country |] eqn:H5; [| discriminate].
  simpl. rewrite get_set_same. injection 1 as <- <-.
  exists data. simpl. repeat split; auto.
Qed.

Lemma update_person_ok person_id update w r w' :
  update_person person_id update w = (Ok r, w') ->
  exists data,
    Dict.get (persons w) person_id = Some data
    /\ overlay (PersonUpdate.uni update) (Some (PersonRead.uni data)) = Some (PersonRead.uni r)
    /\ overlay (PersonUpdate.first_name update) (Some (PersonRead.first_name data))
       = Some (PersonRead.first_name r)
    /\ overlay (PersonUpdate.last_name update) (Some (PersonRead.last_name data))
       = Some (PersonRead.last_name r)
    /\ overlay (PersonUpdate.email update) (Some (PersonRead.email data))
       = Some (PersonRead.email r)
    /\ overlay (PersonUpdate.phone update) (Some (PersonRead.phone data))
       = Some (PersonRead.phone r)
    /\ overlay (PersonUpdate.birth_date update) (Some (PersonRead.birth_date data))
       = Some (PersonRead.birth_date r)
    /\ overlay (PersonUpdate.addresses update) (Some (PersonRead.addresses data))
       = Some (PersonRead.addresses r)
    /\ PersonRead.id r = PersonRead.id data
    /\ w' = set_persons (Dict.set (persons w) person_id r) w.
Proof.
  unfold update_person, Dict.mem. run.
  destruct (Dict.get (persons w) person_id) as [data |] eqn:Hg; simpl; [| discriminate].
  destruct (overlay (PersonUpdate.uni update) _) as [uni |] eqn:H1; [| discriminate].
  destruct (overlay (PersonUpdate.first_name update) _) as [first_name |] eqn:H2;
    [| discriminate].
  destruct (overlay (PersonUpdate.last_name update) _) as [last_name |] eqn:H3;
    [| discriminate].
  destruct (overlay (PersonUpdate.email update) _) as [email |] eqn:H4; [| discriminate].
  destruct (overlay (PersonUpdate.phone update) _) as [phone |] eqn:H5; [| discriminate].
  destruct (overlay (PersonUpdate.birth_date update) _) as [birth_date |] eqn:H6;
    [| discriminate].
  destruct (overlay (PersonUpdate.addresses update) _) as [addrs |] eqn:H7; [| discriminate].
  simpl. rewrite get_set_same. injection 1 as <- <-.
  exists data. simpl. repeat split; auto.
Qed.

Lemma update_order_ok_priced now order_id patch w r w' :
  update_order now order_id patch w = (Ok r, w') ->
  exists data,
    Dict.get (orders w) order_id = Some data
    /\ w' = set_orders (Dict.set (orders w) order_id r) w
    /\ match OrderUpdate.items patch with
       | Value its => its = [] /\ r = patched_order now patch data ([], 0%float)
       | _ =>
           r = patched_order now patch data
                 (OrderRead.items data, OrderRead.total_amount data)
       end.
Proof.
  rewrite update_order_cases.
  destruct (Dict.get (orders w) order_id) as [data |]; [| discriminate].
  destruct (OrderUpdate.items patch) as [| | [| li its]]; [| | | discriminate];
    intros H; apply commit_order_ok in H; destruct H as (-> & -> & _); eauto.
Qed.

(** C5, as amended.  A patch of a stored entity returns, and stores what it
    returns, unless it sends a null where the snapshot needs a value; that
    is any null in a patch of an address or a person, and a null [name],
    [price] or [in_stock] in a patch of a product, which make the patch
    raise and store nothing.  In the snapshot a patch returns, every field
    is the stored one merged with the payload's entry: a provided value
    replaces it, a null on a nullable field (a product's description, an
    order's note) clears it, a field that is not provided is copied.
    Outside that rule, [updated_at] of a product or an order is the clock
    reading of the patch; a null [customer_name] or [items] of an order
    counts as not provided; and the total of an order is priced anew when
    items are provided, and copied with the items otherwise.  Identifiers
    and [created_at] are copied.  Nothing is said here of an order patch
    that carries a list of items that is not empty. *)
Theorem patch_merges_fields :
  (forall address_id update w data,
     Dict.get (addresses w) address_id = Some data ->
     AddressUpdate.street update <> Null ->
     AddressUpdate.city update <> Null ->
     AddressUpdate.state update <> Null ->
     AddressUpdate.postal_code update <> Null ->
     AddressUpdate.country update <> Null ->
     exists r,
       update_address address_id update w
       = (Ok r, set_addresses (Dict.set (addresses w) address_id r) w)
       /\ Address.id r = Address.id data
       /\ merged (AddressUpdate.street update) (Some (Address.street data)) (Some (Address.street r))
       /\ merged (AddressUpdate.city update) (Some (Address.city data)) (Some (Address.city r))
       /\ merged (AddressUpdate.state update) (Some (Address.state data)) (Some (Address.state r))
       /\ merged (AddressUpdate.postal_code update) (Some (Address.postal_code data))
            (Some (Address.postal_code r))
       /\ merged (AddressUpdate.country update) (Some (Address.country data))
            (Some (Address.country r)))
  /\ (forall person_id update w data,
     Dict.get (persons w) person_id = Some data ->
     PersonUpdate.uni update <> Null ->
     PersonUpdate.first_name update <> Null ->
     PersonUpdate.last_name update <> Null ->
     PersonUpdate.email update <> Null ->
     PersonUpdate.phone update <> Null ->
     PersonUpdate.birth_date update <> Null ->
     PersonUpdate.addresses update <> Null ->
     exists r,
       update_person person_id update w
       = (Ok r, set_persons (Dict.set (persons w) person_id r) w)
       /\ PersonRead.id r = PersonRead.id data
       /\ merged (PersonUpdate.uni update) (Some (PersonRead.uni data)) (Some (PersonRead.uni r))
       /\ merged (PersonUpdate.first_name update) (Some (PersonRead.first_name data))
            (Some (PersonRead.first_name r))
       /\ merged (PersonUpdate.last_name update) (Some (PersonRead.last_name data))
            (Some (PersonRead.last_name r))
       /\ merged (PersonUpdate.email update) (Some (PersonRead.email data))
            (Some (PersonRead.email r))
       /\ merged (PersonUpdate.phone update) (Some (PersonRead.phone data))
            (Some (PersonRead.phone r))
       /\ merged (PersonUpdate.birth_date update) (Some (PersonRead.birth_date data))
            (Some (PersonRead.birth_date r))
       /\ merged (PersonUpdate.addresses update) (Some (PersonRead.addresses data))
            (Some (PersonRead.addresses r)))
  /\ (forall now product_id patch w data,
     Dict.get (products w) product_id = Some data ->
     ProductUpdate.name patch <> Null ->
     ProductUpdate.price patch <> Null ->
     ProductUpdate.in_stock patch <> Null ->
     exists r,
       update_product now product_id patch w
       = (Ok r, set_products (Dict.set (products w) product_id r) w)
       /\ ProductRead.id r = ProductRead.id data
       /\ merged (ProductUpdate.name patch) (Some (ProductRead.name data))
            (Some (ProductRead.name r))
       /\ merged (ProductUpdate.description patch) (ProductRead.description data)
            (ProductRead.description r)
       /\ merged (ProductUpdate.price patch) (Some (ProductRead.price data))
            (Some (ProductRead.price r))
       /\ merged (ProductUpdate.in_stock patch) (Some (ProductRead.in_stock data))
            (Some (ProductRead.in_stock r))
       /\ ProductRead.created_at r = ProductRead.created_at data
       /\ ProductRead.updated_at r = now)
  /\ (forall t w now order_id patch data,
     reachable t w ->
     Dict.get (orders w) order_id = Some data ->
     (forall li its, OrderUpdate.items patch <> Value (li :: its)) ->
     exists r,
       update_order now order_id patch w
       = (Ok r, set_orders (Dict.set (orders w) order_id r) w)
       /\ OrderRead.id r = OrderRead.id data
       /\ match OrderUpdate.customer_name patch with
          | Value v => OrderRead.customer_name r = v
          | _ => OrderRead.customer_name r = OrderRead.customer_name data
          end
       /\ match OrderUpdate.items patch with
          | Value its =>
              OrderRead.items r = its
              /\ OrderRead.total_amount r = Spec.order_total (products w) its
          | _ =>
              OrderRead.items r = OrderRead.items data
              /\ OrderRead.total_amount r = OrderRead.total_amount data
          end
       /\ merged (OrderUpdate.note patch) (OrderRead.note data) (OrderRead.note r)
       /\ OrderRead.created_at r = OrderRead.created_at data
       /\ OrderRead.updated_at r = now)
  /\ (forall address_id update w data,
     Dict.get (addresses w) address_id = Some data ->
     AddressUpdate.street update = Null \/ AddressUpdate.city update = Null
     \/ AddressUpdate.state update = Null \/ AddressUpdate.postal_code update = Null
     \/ AddressUpdate.country update = Null ->
     update_address address_id update w = (Raise ValidationError, w))
  /\ (forall person_id update w data,
     Dict.get (persons w) person_id = Some data ->
     PersonUpdate.uni update = Null \/ PersonUpdate.first_name update = Null
     \/ PersonUpdate.last_name update = Null \/ PersonUpdate.email update = Null
     \/ PersonUpdate.phone update = Null \/ PersonUpdate.birth_date update = Null
     \/ PersonUpdate.addresses update = Null ->
     update_person person_id update w = (Raise ValidationError, w))
  /\ (forall now product_id patch w data,
     Dict.get (products w) product_id = Some data ->
     ProductUpdate.name patch = Null \/ ProductUpdate.price patch = Null
     \/ ProductUpdate.in_stock patch = Null ->
     update_product now product_id patch w = (Raise ValidationError, w)).
Proof.
  repeat apply conj.
  - intros address_id update w data Hg H1 H2 H3 H4 H5.
    unfold update_address, Dict.mem. run. rewrite Hg. simpl.
    destruct update as [street city state postal_code country]; simpl in *.
    destruct street, city, state, postal_code, country; try congruence;
      simpl; rewrite get_set_same; eexists; (split; [reflexivity |]);
      simpl; repeat split.
  - intros person_id update w data Hg H1 H2 H3 H4 H5 H6 H7.
    unfold update_person, Dict.mem. run. rewrite Hg. simpl.
    destruct update as [uni first_name last_name email phone birth_date addrs];
      simpl in *.
    destruct uni; try congruence; destruct first_name; try congruence;
      destruct last_name; try congruence; destruct email; try congruence;
      destruct phone; try congruence; destruct birth_date; try congruence;
      destruct addrs; try congruence;
      simpl; rewrite get_set_same; eexists; (split; [reflexivity |]);
      simpl; repeat split.
  - intros now product_id patch w data Hg H1 H2 H3.
    unfold update_product, Dict.mem. run. rewrite Hg. simpl.
    destruct patch as [name description price in_stock]; simpl in *.
    destruct name, price, in_stock; try congruence;
      destruct description; simpl; eexists; (split; [reflexivity |]);
      simpl; repeat split.
  - intros t w now order_id patch data Hr Hg Hits.
    pose proof (stored_order_valid _ Hr Hg) as Hv.
    rewrite update_order_cases, Hg. unfold commit_order.
    destruct patch as [customer_name items note]; simpl in *.
    destruct items as [| | [| li its]]; [| | | now destruct (Hits li its)];
      simpl; rewrite ?Hv; eexists; (split; [reflexivity |]);
      unfold patched_order, merged; simpl;
      (split; [reflexivity |]);
      (split; [now destruct customer_name |]);
      (split; [split; reflexivity |]);
      (split; [now destruct note |]); split; reflexivity.
  - intros address_id update w data Hg H.
    unfold update_address, Dict.mem. run. rewrite Hg. simpl.
    destruct update as [street city state postal_code country]; simpl in *.
    destruct street; simpl; try reflexivity;
      destruct city; simpl; try reflexivity;
      destruct state; simpl; try reflexivity;
      destruct postal_code; simpl; try reflexivity;
      destruct country; simpl; try reflexivity;
      intuition discriminate.
  - intros person_id update w data Hg H.
    unfold update_person, Dict.mem. run. rewrite Hg. simpl.
    destruct update as [uni first_name last_name email phone birth_date addrs];
      simpl in *.
    destruct uni; simpl; try reflexivity;
      destruct first_name; simpl; try reflexivity;
      destruct last_name; simpl; try reflexivity;
      destruct email; simpl; try reflexivity;
      destruct phone; simpl; try reflexivity;
      destruct birth_date; simpl; try reflexivity;
      destruct addrs; simpl; try reflexivity;
      intuition discriminate.
  - intros now product_id patch w data Hg H.
    unfold update_product, Dict.mem. run. rewrite Hg. simpl.
    destruct patch as [name description price in_stock]; simpl in *.
    destruct name; simpl; try reflexivity;
      destruct price; simpl; try reflexivity;
      destruct in_stock; simpl; try reflexivity;
      intuition discriminate.
Qed.

Lemma patch_merges_fields_witness :
  exists r,
    update_order 40 7 Example_patch.nulls Example_run.day
    = (Ok r, set_orders (Dict.set (orders Example_run.day) 7 r) Example_run.day)
    /\ OrderRead.id r = OrderRead.id Example_patch.alice_stored
    /\ OrderRead.customer_name r = OrderRead.customer_name Example_patch.alice_stored
    /\ (OrderRead.items r = OrderRead.items Example_patch.alice_stored
        /\ OrderRead.total_amount r = OrderRead.total_amount Example_patch.alice_stored)
    /\ OrderRead.note r = None
    /\ OrderRead.created_at r = OrderRead.created_at Example_patch.alice_stored
    /\ OrderRead.updated_at r = 40%Z.
Proof.
  apply (proj1 (proj2 (proj2 (proj2 patch_merges_fields)))
           30%Z Example_run.day 40%Z 7%N Example_patch.nulls
           Example_patch.alice_stored day_reachable).
  - vm_compute. reflexivity.
  - intros li its. discriminate.
Defined.

(** C5 as stated fails in three ways.  A field that no payload can provide
    is not copied: a patch with an empty list of items sets the total of
    order 7 to zero.  A field that is provided is not taken: a patch with a
    null [customer_name] and a null [items] leaves the stored name and the
    stored items.  And not every payload has a resulting snapshot: a product
    patch with a null [name] raises. *)
Lemma patch_not_field_by_field :
  ~ (forall now order_id patch w data r w',
       Dict.get (orders w) order_id = Some data ->
       update_order now order_id patch w = (Ok r, w') ->
       OrderRead.total_amount r = OrderRead.total_amount data)
  /\ ~ (forall now order_id patch w data r w',
       Dict.get (orders w) order_id = Some data ->
       update_order now order_id patch w = (Ok r, w') ->
       merged (OrderUpdate.customer_name patch) (Some (OrderRead.customer_name data))
         (Some (OrderRead.customer_name r)))
  /\ ~ (forall now order_id patch w data r w',
       Dict.get (orders w) order_id = Some data ->
       update_order now order_id patch w = (Ok r, w') ->
       merged (OrderUpdate.items patch) (Some (OrderRead.items data))
         (Some (OrderRead.items r)))
  /\ ~ (forall now product_id patch w data,
       Dict.get (products w) product_id = Some data ->
       exists r w', update_product now product_id patch w = (Ok r, w')).
Proof.
  repeat apply conj.
  - intros H.
    specialize (H 40%Z 7%N Example_patch.no_items Example_run.day
                  Example_patch.alice_stored
                  (OrderRead.mk 7 "Alice" [] (Some "Leave at front desk."%string) 20 40 0)).
    specialize (H _ eq_refl eq_refl).
    apply (f_equal (fun x => (x <? 1)%float)) in H. vm_compute in H. discriminate.
  - intros H.
    specialize (H 40%Z 7%N Example_patch.nulls Example_run.day
                  Example_patch.alice_stored
                  (OrderRead.mk 7 "Alice" [LineItem.mk 1 1] None 20 40 9.99)).
    specialize (H _ eq_refl eq_refl). discriminate H.
  - intros H.
    specialize (H 40%Z 7%N Example_patch.nulls Example_run.day
                  Example_patch.alice_stored
                  (OrderRead.mk 7 "Alice" [LineItem.mk 1 1] None 20 40 9.99)).
    specialize (H _ eq_refl eq_refl). discriminate H.
  - intros H.
    destruct (H 40%Z 1%N Example_merge.null_name Example_run.day
                Example_more.widget_stored eq_refl) as (r & w' & E).
    vm_compute in E. discriminate.
Qed.

(** A patch that returns rewrites the entry it was asked to patch and no
    other: every other identifier maps to what it mapped to before, in the
    patched store and in the three others. *)
Theorem patch_leaves_other_entries :
  (forall now product_id patch w r w' other,
     update_product now product_id patch w = (Ok r, w') ->
     other <> product_id ->
     Dict.get (products w') other = Dict.get (products w) other
     /\ orders w' = orders w /\ persons w' = persons w /\ addresses w' = addresses w)
  /\ (forall now order_id patch w r w' other,
     update_order now order_id patch w = (Ok r, w') ->
     other <> order_id ->
     Dict.get (orders w') other = Dict.get (orders w) other
     /\ products w' = products w /\ persons w' = persons w /\ addresses w' = addresses w).
Proof.
  split.
  - intros now product_id patch w r w' other H Hne. apply update_product_ok in H.
    destruct H as (data & _ & _ & _ & _ & _ & _ & _ & _ & ->). simpl.
    repeat split. now apply get_set_other.
  - intros now order_id patch w r w' other H Hne. apply update_order_ok in H.
    destruct H as (-> & _). simpl. repeat split. now apply get_set_other.
Qed.

Lemma patch_leaves_other_entries_witness :
  Dict.get (products Example_merge.shop_described) 1 = Dict.get (products Example.shop) 1.
Proof.
  refine (proj1 (proj1 patch_leaves_other_entries 30%Z 2%N Example_merge.describe
                   Example.shop Example_merge.described Example_merge.shop_described
                   1%N eq_refl _)).
  discriminate.
Defined.

(** ** Listing with filters *)

Lemma filter_all {A} (l : list A) : filter (fun _ => true) l = l.
Proof. induction l as [| x l IH]; simpl; congruence. Qed.

Lemma filter_twice {A} (p q : A -> bool) (l : list A) :
  filter q (filter p l) = filter (fun x => p x && q x) l.
Proof.
  induction l as [| x l IH]; simpl; auto.
  destruct (p x); simpl; [destruct (q x) |]; now rewrite IH.
Qed.

(** One optional filter after the filters so far, as one pass with the
    conjunction of the tests. *)
Lemma filter_if_after {A} (lit : option string) (pred : string -> A -> bool)
    (p : A -> bool) (l : list A) :
  filter_if lit pred (filter p l)
  = filter (fun x => p x && match lit with Some s => pred s x | None => true end) l.
Proof.
  destruct lit as [s |]; simpl.
  - apply filter_twice.
  - apply filter_ext. intros x. now rewrite andb_true_r.
Qed.

Lemma prefix_app (n h : string) :
  String.prefix n h = true <-> exists after, h = (n ++ after)%string.
Proof.
  revert h. induction n as [| c n IH]; intros h.
  - split; [intros _; exists h; reflexivity | intros _; now destruct h].
  - destruct h as [| c' h]; simpl.
    + split; [discriminate | intros [after H]; discriminate].
    + destruct (Ascii.ascii_dec c c') as [<- | Hne].
      * rewrite IH. split; intros [after H]; exists after; congruence.
      * split; [discriminate | intros [after H]; congruence].
Qed.

Lemma contains_unfold (n h : string) :
  PyStr.contains n h
  = if String.prefix n h then true
    else match h with
         | EmptyString => false
         | String _ h' => PyStr.contains n h'
         end.
Proof. now destruct h. Qed.

(** [needle in hay] holds exactly when [needle] occurs in [hay]. *)
Lemma contains_app (n h : string) :
  PyStr.contains n h = true
  <-> exists before after, h = (before ++ n ++ after)%string.
Proof.
  induction h as [| c h IH]; rewrite contains_unfold.
  - destruct (String.prefix n "") eqn:E.
    + split; auto. intros _. apply prefix_app in E. destruct E as [after E].
      exists ""%string, after. exact E.
    + split; [discriminate |]. intros (before & after & H).
      destruct before; simpl in H.
      * assert (String.prefix n "" = true) by (apply prefix_app; eauto). congruence.
      * discriminate.
  - destruct (String.prefix n (String c h)) eqn:E.
    + split; auto. intros _. apply prefix_app in E. destruct E as [after E].
      exists ""%string, after. exact E.
    + rewrite IH. split.
      * intros (before & after & ->). exists (String c before), after. reflexivity.
      * intros (before & after & H). destruct before as [| c' before]; simpl in H.
        -- assert (String.prefix n (String c h) = true) by (apply prefix_app; eauto).
           congruence.
        -- injection H as _ ->. eauto.
Qed.

(** *** Strs and their encodings *)

Lemma byte_lt b : (PyStr.byte b < 256)%N.
Proof. unfold PyStr.byte. apply N_ascii_bounded. Qed.

Lemma chr_byte b : ascii_of_N (PyStr.byte b) = b.
Proof. apply ascii_N_embedding. Qed.

Lemma byte_chr n : (n < 256)%N -> PyStr.byte (ascii_of_N n) = n.
Proof. apply N_ascii_embedding. Qed.

Lemma continuation_range b :
  PyStr.continuation b = true <-> (0x80 <= PyStr.byte b < 0xC0)%N.
Proof.
  unfold PyStr.continuation. rewrite andb_true_iff, N.leb_le, N.ltb_lt. tauto.
Qed.

(** The bytes [encode_one] writes after the first are continuation bytes. *)
Lemma continuation_chr x : PyStr.continuation (ascii_of_N (0x80 + x mod 64)) = true.
Proof.
  apply continuation_range. rewrite byte_chr; euclid.
Qed.

Lemma chr_eq n b : n = PyStr.byte b -> ascii_of_N n = b.
Proof. intros ->. apply chr_byte. Qed.

(** A str that is not empty starts with the encoding of its first code
    point, whose first byte is no continuation byte; the rest is the
    encoding of the rest. *)
Lemma decode_first b s cps :
  PyStr.decode (String b s) = Some cps ->
  exists c rest s',
    cps = c :: rest /\ PyStr.decode s' = Some rest
    /\ String b s = (PyStr.encode_one c ++ s')%string
    /\ PyStr.continuation b = false
    /\ forall t, PyStr.decode (PyStr.encode_one c ++ t)
                 = option_map (cons c) (PyStr.decode t).
Proof.
  cbn [PyStr.decode].
  pose proof (byte_lt b) as Hb.
  destruct (PyStr.byte b <? 0x80)%N eqn:E1.
  { destruct (PyStr.decode s) as [rest |] eqn:Hs; [| discriminate].
    injection 1 as <-. exists (PyStr.byte b), rest, s.
    apply N.ltb_lt in E1.
    assert (He : PyStr.encode_one (PyStr.byte b) = String b EmptyString).
    { unfold PyStr.encode_one. apply N.ltb_lt in E1. rewrite E1. now rewrite chr_byte. }
    repeat split; auto.
    - now rewrite He.
    - unfold PyStr.continuation. apply andb_false_iff. left. apply N.leb_gt. exact E1.
    - intros t. rewrite He. cbn [String.append PyStr.decode].
      apply N.ltb_lt in E1. now rewrite E1. }
  destruct (PyStr.byte b <? 0xC2)%N eqn:E2; [discriminate |].
  assert (Hlead : PyStr.continuation b = false).
  { unfold PyStr.continuation. apply andb_false_iff. right.
    apply N.ltb_ge. apply N.ltb_ge in E2. lia. }
  apply N.ltb_ge in E1, E2.
  destruct (PyStr.byte b <? 0xE0)%N eqn:E3.
  { destruct s as [| b1 s2]; [discriminate |].
    destruct (PyStr.continuation b1) eqn:C1; [| discriminate].
    destruct (PyStr.decode s2) as [rest |] eqn:Hs; [| discriminate].
    injection 1 as <-.
    apply N.ltb_lt in E3. apply continuation_range in C1. unfold PyStr.six_bits.
    set (c := ((PyStr.byte b - 0xC0) * 64 + (PyStr.byte b1 - 0x80))%N).
    assert (He : PyStr.encode_one c = String b (String b1 EmptyString)).
    { unfold PyStr.encode_one.
      replace (c <? 0x80)%N with false by (symmetry; apply N.ltb_ge; subst c; lia).
      replace (c <? 0x800)%N with true by (symmetry; apply N.ltb_lt; subst c; lia).
      f_equal; [| f_equal]; apply chr_eq; subst c; euclid. }
    exists c, rest, s2. repeat split; auto.
    - now rewrite He.
    - intros t. rewrite He. cbn [String.append PyStr.decode].
      replace (PyStr.byte b <? 0x80)%N with false by (symmetry; apply N.ltb_ge; lia).
      replace (PyStr.byte b <? 0xC2)%N with false by (symmetry; apply N.ltb_ge; lia).
      replace (PyStr.byte b <? 0xE0)%N with true by (symmetry; apply N.ltb_lt; lia).
      replace (PyStr.continuation b1) with true
        by (symmetry; apply continuation_range; lia).
      reflexivity. }
  apply N.ltb_ge in E3.
  destruct (PyStr.byte b <? 0xF0)%N eqn:E4.
  { destruct s as [| b1 [| b2 s3]]; [discriminate | discriminate |].
    unfold PyStr.six_bits.
    set (c := ((PyStr.byte b - 0xE0) * 4096 + (PyStr.byte b1 - 0x80) * 64
               + (PyStr.byte b2 - 0x80))%N).
    destruct (PyStr.continuation b1 && PyStr.continuation b2 && (0x800 <=? c)%N
              && negb ((0xD800 <=? c)%N && (c <=? 0xDFFF)%N)) eqn:C; [| discriminate].
    destruct (PyStr.decode s3) as [rest |] eqn:Hs; [| discriminate].
    injection 1 as <-.
    pose proof C as C'.
    apply andb_true_iff in C. destruct C as [C Hsur].
    apply andb_true_iff in C. destruct C as [C Hlo].
    apply andb_true_iff in C. destruct C as [C1 C2].
    apply N.ltb_lt in E4. apply continuation_range in C1, C2. apply N.leb_le in Hlo.
    assert (He : PyStr.encode_one c = String b (String b1 (String b2 EmptyString))).
    { unfold PyStr.encode_one.
      replace (c <? 0x80)%N with false by (symmetry; apply N.ltb_ge; lia).
      replace (c <? 0x800)%N with false by (symmetry; apply N.ltb_ge; lia).
      replace (c <? 0x10000)%N with true by (symmetry; apply N.ltb_lt; subst c; lia).
      f_equal; [| f_equal; [| f_equal]]; apply chr_eq; subst c; euclid. }
    exists c, rest, s3. repeat split; auto.
    - now rewrite He.
    - intros t. rewrite He. cbn [String.append PyStr.decode].
      replace (PyStr.byte b <? 0x80)%N with false by (symmetry; apply N.ltb_ge; lia).
      replace (PyStr.byte b <? 0xC2)%N with false by (symmetry; apply N.ltb_ge; lia).
      replace (PyStr.byte b <? 0xE0)%N with false by (symmetry; apply N.ltb_ge; lia).
      replace (PyStr.byte b <? 0xF0)%N with true by (symmetry; apply N.ltb_lt; lia).
      unfold PyStr.six_bits. fold c. now rewrite C'. }
  apply N.ltb_ge in E4.
  destruct (PyStr.byte b <? 0xF5)%N eqn:E5; [| discriminate].
  destruct s as [| b1 [| b2 [| b3 s4]]]; [discriminate | discriminate | discriminate |].
  unfold PyStr.six_bits.
  set (c := ((PyStr.byte b - 0xF0) * 262144 + (PyStr.byte b1 - 0x80) * 4096
             + (PyStr.byte b2 - 0x80) * 64 + (PyStr.byte b3 - 0x80))%N).
  destruct (PyStr.continuation b1 && PyStr.continuation b2 && PyStr.continuation b3
            && (0x10000 <=? c)%N && (c <=? 0x10FFFF)%N) eqn:C; [| discriminate].
  destruct (PyStr.decode s4) as [rest |] eqn:Hs; [| discriminate].
  injection 1 as <-.
  pose proof C as C'.
  apply andb_true_iff in C. destruct C as [C Hhi].
  apply andb_true_iff in C. destruct C as [C Hlo].
  apply andb_true_iff in C. destruct C as [C C3].
  apply andb_true_iff in C. destruct C as [C1 C2].
  apply N.ltb_lt in E5. apply continuation_range in C1, C2, C3. apply N.leb_le in Hlo.
  assert (He : PyStr.encode_one c
               = String b (String b1 (String b2 (String b3 EmptyString)))).
  { unfold PyStr.encode_one.
    replace (c <? 0x80)%N with false by (symmetry; apply N.ltb_ge; lia).
    replace (c <? 0x800)%N with false by (symmetry; apply N.ltb_ge; lia).
    replace (c <? 0x10000)%N with false by (symmetry; apply N.ltb_ge; lia).
    f_equal; [| f_equal; [| f_equal; [| f_equal]]]; apply chr_eq; subst c; euclid. }
  exists c, rest, s4. repeat split; auto.
  - now rewrite He.
  - intros t. rewrite He. cbn [String.append PyStr.decode].
    replace (PyStr.byte b <? 0x80)%N with false by (symmetry; apply N.ltb_ge; lia).
    replace (PyStr.byte b <? 0xC2)%N with false by (symmetry; apply N.ltb_ge; lia).
    replace (PyStr.byte b <? 0xE0)%N with false by (symmetry; apply N.ltb_ge; lia).
    replace (PyStr.byte b <? 0xF0)%N with false by (symmetry; apply N.ltb_ge; lia).
    replace (PyStr.byte b <? 0xF5)%N with true by (symmetry; apply N.ltb_lt; lia).
    unfold PyStr.six_bits. fold c. now rewrite C'.
Qed.

Lemma decode_empty s : PyStr.decode s = Some [] -> s = ""%string.
Proof.
  destruct s as [| b s]; [reflexivity |]. intros H. apply decode_first in H.
  destruct H as (c & rest & s' & Hc & _). discriminate.
Qed.

Lemma append_assoc (a b c : string) : ((a ++ b) ++ c = a ++ (b ++ c))%string.
Proof. induction a as [| x a IH]; simpl; [| rewrite IH]; reflexivity. Qed.

(** Decoding and encoding are inverse to each other on what decodes. *)
Lemma encode_decode s cps : PyStr.decode s = Some cps -> PyStr.encode cps = s.
Proof.
  revert s. induction cps as [| c rest IH]; intros s H.
  - apply decode_empty in H. now subst.
  - destruct s as [| b s]; [discriminate |].
    apply decode_first in H. destruct H as (c' & rest' & s' & Hc & Hs' & Hs & _).
    injection Hc as <- <-. cbn [PyStr.encode]. now rewrite (IH _ Hs'), Hs.
Qed.

Lemma encode_app a b :
  PyStr.encode (a ++ b) = (PyStr.encode a ++ PyStr.encode b)%string.
Proof.
  induction a as [| c a IH]; [reflexivity |].
  cbn [app PyStr.encode]. now rewrite IH, append_assoc.
Qed.

Lemma decode_app n x cn :
  PyStr.decode n = Some cn ->
  PyStr.decode (n ++ x) = option_map (app cn) (PyStr.decode x).
Proof.
  revert n. induction cn as [| c rest IH]; intros n H.
  - apply decode_empty in H. subst. simpl. now destruct (PyStr.decode x).
  - destruct n as [| b s]; [discriminate |].
    apply decode_first in H. destruct H as (c' & rest' & s' & Hc & Hs' & Hs & _ & HD).
    injection Hc as <- <-. rewrite Hs, append_assoc, HD, (IH _ Hs').
    now destruct (PyStr.decode x).
Qed.

Lemma starts_with_app cn ch :
  PyStr.starts_with cn ch = true <-> exists cx, ch = cn ++ cx.
Proof.
  revert ch. induction cn as [| a cn IH]; intros ch.
  - split; [intros _; exists ch; reflexivity | reflexivity].
  - destruct ch as [| b ch]; simpl.
    + split; [discriminate | intros [cx H]; discriminate].
    + rewrite andb_true_iff, N.eqb_eq, IH. split.
      * intros [-> [cx ->]]. now exists cx.
      * intros [cx H]. injection H as -> ->. eauto.
Qed.

(** One str starts with another exactly when its code points start with the
    other's. *)
Lemma prefix_starts_with n h cn ch :
  PyStr.decode n = Some cn -> PyStr.decode h = Some ch ->
  String.prefix n h = PyStr.starts_with cn ch.
Proof.
  intros Hn Hh. apply Bool.eq_iff_eq_true. rewrite prefix_app, starts_with_app. split.
  - intros [x ->]. rewrite (@decode_app _ x _ Hn) in Hh.
    destruct (PyStr.decode x) as [cx |]; [| discriminate].
    injection Hh as <-. now exists cx.
  - intros [cx ->]. exists (PyStr.encode cx).
    now rewrite <- (@encode_decode _ _ Hh), encode_app, (@encode_decode _ _ Hn).
Qed.

(** No str occurs in another from a continuation byte on. *)
Lemma contains_continuation n cn b t :
  PyStr.decode n = Some cn -> PyStr.continuation b = true ->
  PyStr.contains n (String b t) = PyStr.contains n t.
Proof.
  intros Hn Hb. rewrite contains_unfold. destruct n as [| nb ns].
  - now destruct t.
  - apply decode_first in Hn. destruct Hn as (_ & _ & _ & _ & _ & _ & Hlead & _).
    cbn [String.prefix]. destruct (Ascii.ascii_dec nb b) as [-> | Hne]; [congruence |].
    reflexivity.
Qed.

Lemma contains_encode_one n cn c t :
  PyStr.decode n = Some cn ->
  PyStr.contains n (PyStr.encode_one c ++ t)
  = String.prefix n (PyStr.encode_one c ++ t) || PyStr.contains n t.
Proof.
  intros Hn. rewrite contains_unfold.
  destruct (String.prefix n (PyStr.encode_one c ++ t)); [reflexivity |].
  unfold PyStr.encode_one.
  destruct (c <? 0x80)%N; [reflexivity |].
  destruct (c <? 0x800)%N; [| destruct (c <? 0x10000)%N];
    cbn [String.append orb];
    rewrite ?(@contains_continuation _ _ _ _ Hn (continuation_chr _)); reflexivity.
Qed.

(** [needle in hay] on the encodings is [needle in hay] on the code points. *)
Lemma contains_occurs_in n h cn ch :
  PyStr.decode n = Some cn -> PyStr.decode h = Some ch ->
  PyStr.contains n h = PyStr.occurs_in cn ch.
Proof.
  intros Hn. revert h. induction ch as [| c ch IH]; intros h Hh.
  - pose proof (@prefix_starts_with _ _ _ _ Hn Hh) as Hp.
    apply decode_empty in Hh. subst h.
    rewrite contains_unfold, Hp. cbn [PyStr.occurs_in].
    now destruct (PyStr.starts_with cn []).
  - pose proof (@prefix_starts_with _ _ _ _ Hn Hh) as Hp.
    destruct h as [| b s]; [discriminate |].
    apply decode_first in Hh. destruct Hh as (c' & rest & s' & Hc & Hs' & Hs & _).
    injection Hc as <- <-. rewrite Hs in *.
    rewrite (@contains_encode_one _ _ _ _ Hn), Hp, (IH _ Hs'). reflexivity.
Qed.

Lemma encode_one_tail c :
  exists b tail,
    PyStr.encode_one c = String b tail
    /\ forall t, PyStr.len (tail ++ t) = PyStr.len t.
Proof.
  unfold PyStr.encode_one.
  destruct (c <? 0x80)%N; [| destruct (c <? 0x800)%N; [| destruct (c <? 0x10000)%N]];
    do 2 eexists; (split; [reflexivity |]); intros t;
    cbn [String.append PyStr.len]; rewrite ?continuation_chr; reflexivity.
Qed.

(** [len] counts the code points. *)
Lemma len_code_points s cps :
  PyStr.decode s = Some cps -> PyStr.len s = List.length cps.
Proof.
  revert s. induction cps as [| c rest IH]; intros s H.
  - apply decode_empty in H. now subst.
  - destruct s as [| b s]; [discriminate |].
    apply decode_first in H.
    destruct H as (c' & rest' & s' & Hc & Hs' & Hs & Hlead & _).
    injection Hc as <- <-. cbn [List.length]. rewrite <- (IH _ Hs').
    destruct (encode_one_tail c) as (b0 & tail & He & Ht).
    rewrite He in Hs. cbn [String.append] in Hs. injection Hs as -> ->.
    cbn [PyStr.len]. now rewrite Hlead, Ht.
Qed.

(** [lower] on a few strs: letters outside ASCII are lowered, the dotted
    capital I lowers to two code points, and a capital sigma lowers to the
    final small sigma when it ends a word, an apostrophe not counting as a
    letter. *)
Lemma lower_examples :
  PyStr.lower "ÉCLAIR" = "éclair"%string
  /\ PyStr.lower "PRO-WIDGET" = "pro-widget"%string
  /\ PyStr.lower "ẞ" = "ß"%string
  /\ PyStr.decode (PyStr.lower "İ") = Some [0x69; 0x307]%N
  /\ PyStr.lower "ΟΔΟΣ" = "οδος"%string
  /\ PyStr.lower "ΣΑΣ" = "σας"%string
  /\ PyStr.lower "ΑΣ'" = "ας'"%string
  /\ PyStr.lower "ΑΣ'Β" = "ασ'β"%string
  /\ PyStr.len "ÉCLAIR" = 6.
Proof. repeat apply conj; vm_compute; reflexivity. Qed.

(** *** Lower case on ASCII text *)

(** On an ASCII character the tables do what [lower_ascii] does. *)
Lemma lower_ascii_code c :
  (PyStr.byte c <? 0x80)%N = true ->
  (PyStr.byte c =? 0x3A3)%N = false
  /\ PyStr.to_lower_full (PyStr.byte c) = [PyStr.byte (PyStr.lower_ascii c)]
  /\ (PyStr.byte (PyStr.lower_ascii c) <? 0x80)%N = true
  /\ PyStr.encode_one (PyStr.byte c) = String c EmptyString.
Proof.
  destruct c as [[] [] [] [] [] [] [] []]; intros H; try discriminate H;
    vm_compute; repeat split; reflexivity.
Qed.

Lemma decode_ascii s :
  PyStr.is_ascii s = true ->
  PyStr.decode s = Some (map PyStr.byte (list_ascii_of_string s)).
Proof.
  induction s as [| c s IH]; [reflexivity |].
  cbn [PyStr.is_ascii]. intros H. apply andb_true_iff in H. destruct H as [Hc Hs].
  cbn [PyStr.decode list_ascii_of_string map]. rewrite Hc, (IH Hs). reflexivity.
Qed.

Lemma lower_code_points_ascii s before :
  PyStr.is_ascii s = true ->
  PyStr.lower_code_points before (map PyStr.byte (list_ascii_of_string s))
  = map PyStr.byte (list_ascii_of_string (PyStr.lower_letters s)).
Proof.
  revert before. induction s as [| c s IH]; intros before H; [reflexivity |].
  cbn [PyStr.is_ascii] in H. apply andb_true_iff in H. destruct H as [Hc Hs].
  destruct (lower_ascii_code c Hc) as (Hsig & Hlow & _ & _).
  cbn [PyStr.lower_letters list_ascii_of_string map PyStr.lower_code_points].
  rewrite Hsig, Hlow, (IH _ Hs). reflexivity.
Qed.

Lemma encode_ascii s :
  PyStr.is_ascii s = true ->
  PyStr.encode (map PyStr.byte (list_ascii_of_string s)) = s.
Proof.
  induction s as [| c s IH]; [reflexivity |].
  cbn [PyStr.is_ascii]. intros H. apply andb_true_iff in H. destruct H as [Hc Hs].
  destruct (lower_ascii_code c Hc) as (_ & _ & _ & He).
  cbn [list_ascii_of_string map PyStr.encode]. rewrite He, (IH Hs). reflexivity.
Qed.

Lemma is_ascii_lower_letters s :
  PyStr.is_ascii s = true -> PyStr.is_ascii (PyStr.lower_letters s) = true.
Proof.
  induction s as [| c s IH]; [reflexivity |].
  cbn [PyStr.is_ascii PyStr.lower_letters]. intros H.
  apply andb_true_iff in H. destruct H as [Hc Hs].
  destruct (lower_ascii_code c Hc) as (_ & _ & Hl & _).
  now rewrite Hl, (IH Hs).
Qed.

(** On ASCII text [lower] changes the letters [A] to [Z] and nothing else. *)
Lemma lower_of_ascii s :
  PyStr.is_ascii s = true -> PyStr.lower s = PyStr.lower_letters s.
Proof.
  intros H. unfold PyStr.lower.
  rewrite (decode_ascii _ H), (lower_code_points_ascii _ _ H).
  apply encode_ascii. now apply is_ascii_lower_letters.
Qed.

Lemma is_ascii_app a b :
  PyStr.is_ascii (a ++ b) = PyStr.is_ascii a && PyStr.is_ascii b.
Proof.
  induction a as [| c a IH]; [reflexivity |].
  cbn [String.append PyStr.is_ascii]. now rewrite IH, andb_assoc.
Qed.

Lemma lower_letters_app a b :
  PyStr.lower_letters (a ++ b)
  = (PyStr.lower_letters a ++ PyStr.lower_letters b)%string.
Proof. induction a as [| c a IH]; simpl; [| rewrite IH]; reflexivity. Qed.

Lemma lower_letters_split h x y :
  PyStr.lower_letters h = (x ++ y)%string ->
  exists h1 h2,
    h = (h1 ++ h2)%string
    /\ PyStr.lower_letters h1 = x /\ PyStr.lower_letters h2 = y.
Proof.
  revert h. induction x as [| c x IH]; intros h H.
  - exists ""%string, h. auto.
  - destruct h as [| c' h]; [discriminate |].
    simpl in H. injection H as Hc H. destruct (IH h H) as (h1 & h2 & -> & H1 & H2).
    exists (String c' h1), h2. simpl. now rewrite Hc, H1.
Qed.

Lemma truthy_lower_letters s : PyStr.truthy (PyStr.lower_letters s) = PyStr.truthy s.
Proof. now destruct s. Qed.

(** On ASCII text the test of the name filters is containment with case
    ignored. *)
Lemma contains_lower_ascii q h :
  PyStr.is_ascii q = true -> PyStr.is_ascii h = true ->
  PyStr.contains (PyStr.lower q) (PyStr.lower h) = true
  <-> Spec.contains_ignoring_case q h.
Proof.
  intros Hq Hh. rewrite contains_app, (lower_of_ascii h Hh). split.
  - intros (x & y & H). apply lower_letters_split in H.
    destruct H as (before & rest & -> & _ & H).
    apply lower_letters_split in H. destruct H as (stretch & after & -> & Hs & _).
    exists before, stretch, after. split; [reflexivity |].
    rewrite !is_ascii_app in Hh. apply andb_true_iff in Hh. destruct Hh as [_ Hh].
    apply andb_true_iff in Hh. destruct Hh as [Hh _].
    now rewrite (lower_of_ascii stretch Hh).
  - intros (before & stretch & after & -> & Hs).
    assert (Hst : PyStr.is_ascii stretch = true).
    { rewrite !is_ascii_app in Hh. apply andb_true_iff in Hh. destruct Hh as [_ Hh].
      apply andb_true_iff in Hh. now destruct Hh. }
    exists (PyStr.lower_letters before), (PyStr.lower_letters after).
    now rewrite !lower_letters_app, <- Hs, (lower_of_ascii stretch Hst).
Qed.

(** *** The four listings *)

(** Each listing is one pass over the values of its store, in the order of
    the store, that keeps what passes every supplied filter; a filter that is
    not supplied, and an empty text for a name filter, lets everything
    through.  The filters of persons and addresses compare letter for letter,
    the city of a person against each of its embedded addresses; the name
    filters of products and orders look for the lower-cased text in the
    lower-cased name. *)
Theorem list_filters_exact :
  (forall uni first_name last_name email phone birth_date city country w,
     list_persons uni first_name last_name email phone birth_date city country w
     = (Ok (filter
              (Spec.person_matches uni first_name last_name email phone birth_date
                 city country)
              (Dict.values (persons w))), w))
  /\ (forall street city state postal_code country w,
     list_addresses street city state postal_code country w
     = (Ok (filter (Spec.address_matches street city state postal_code country)
              (Dict.values (addresses w))), w))
  /\ (forall city w,
     exists results,
       list_persons None None None None None None (Some city) None w = (Ok results, w)
       /\ results
          = filter (fun p => existsb (fun a => String.eqb (Address.city a) city)
                               (PersonRead.addresses p))
              (Dict.values (persons w))
       /\ forall p,
            In p results
            <-> In p (Dict.values (persons w))
                /\ exists a, In a (PersonRead.addresses p) /\ Address.city a = city)
  /\ (forall name w,
     list_products (Some name) w
     = (Ok (filter (fun p => PyStr.contains (PyStr.lower name)
                               (PyStr.lower (ProductRead.name p)))
              (Dict.values (products w))), w))
  /\ (forall customer_name w,
     list_orders (Some customer_name) w
     = (Ok (filter (fun o => PyStr.contains (PyStr.lower customer_name)
                               (PyStr.lower (OrderRead.customer_name o)))
              (Dict.values (orders w))), w))
  /\ (forall w,
     list_persons None None None None None None None None w
     = (Ok (Dict.values (persons w)), w)
     /\ list_addresses None None None None None w = (Ok (Dict.values (addresses w)), w)
     /\ list_products None w = (Ok (Dict.values (products w)), w)
     /\ list_orders None w = (Ok (Dict.values (orders w)), w))
  /\ (fst (list_persons None None None None None None (Some "Boston"%string) None
             Example_people.town)
      = Ok [Example_people.ann; Example_people.dan]
      /\ fst (list_products (Some "widg"%string) Example.shop)
         = Ok [Example.widget; Example.pro_widget]
      /\ fst (list_products (Some "éclair"%string) Example_sigma.greek)
         = Ok [Example_sigma.eclair]).
Proof.
  repeat apply conj.
  - intros. unfold list_persons. run. f_equal. f_equal.
    rewrite <- (filter_all (Dict.values (persons w))) at 1.
    rewrite !filter_if_after. apply filter_ext. intros p.
    unfold Spec.person_matches. reflexivity.
  - intros. unfold list_addresses. run. f_equal. f_equal.
    rewrite <- (filter_all (Dict.values (addresses w))) at 1.
    rewrite !filter_if_after. apply filter_ext. intros a.
    unfold Spec.address_matches. reflexivity.
  - intros city w. eexists. split; [reflexivity |]. split; [reflexivity |].
    intros p. simpl. rewrite filter_In, existsb_exists.
    split; intros [Hin (a & Ha & Hc)]; (split; [exact Hin |]); exists a; split; auto;
      now apply String.eqb_eq.
  - intros name w. unfold list_products, filter_if_truthy. run.
    destruct name as [| c name]; [| reflexivity].
    cbn [PyStr.truthy]. f_equal. f_equal.
    rewrite <- (filter_all (Dict.values (products w))) at 1.
    apply filter_ext. intros p. change (PyStr.lower "") with ""%string.
    now destruct (PyStr.lower (ProductRead.name p)).
  - intros customer_name w. unfold list_orders, filter_if_truthy. run.
    destruct customer_name as [| c customer_name]; [| reflexivity].
    cbn [PyStr.truthy]. f_equal. f_equal.
    rewrite <- (filter_all (Dict.values (orders w))) at 1.
    apply filter_ext. intros o. change (PyStr.lower "") with ""%string.
    now destruct (PyStr.lower (OrderRead.customer_name o)).
  - intros w. repeat split.
  - vm_compute. reflexivity.
  - vm_compute. reflexivity.
  - vm_compute. reflexivity.
Qed.

(** *** A name that ends in a capital sigma *)

(** C8 fails on the code.  The product named [ΑΣ] is stored and its name
    contains the text [Σ] as it is written, so also with case ignored; yet
    listing the products by the name [Σ] returns nothing, and so does
    listing the orders by that customer name.  [lower] turns the sigma that
    ends the name into the final small sigma, [0x3C2], and the sigma of the
    query into the plain one, [0x3C3]. *)
Theorem name_filter_misses_final_sigma :
  Dict.get (products Example_sigma.greek) 5 = Some Example_sigma.alpha_sigma
  /\ Dict.get (orders Example_sigma.greek) 9 = Some Example_sigma.for_alpha_sigma
  /\ ProductRead.name Example_sigma.alpha_sigma = ("Α" ++ "Σ" ++ "")%string
  /\ Spec.contains_ignoring_case "Σ" (ProductRead.name Example_sigma.alpha_sigma)
  /\ list_products (Some "Σ"%string) Example_sigma.greek = (Ok [], Example_sigma.greek)
  /\ list_orders (Some "Σ"%string) Example_sigma.greek = (Ok [], Example_sigma.greek)
  /\ PyStr.lower "ΑΣ" = "ας"%string
  /\ PyStr.lower "Σ" = "σ"%string
  /\ PyStr.decode "ΑΣ" = Some [0x391; 0x3A3]%N
  /\ PyStr.decode "Σ" = Some [0x3A3]%N
  /\ PyStr.decode (PyStr.lower "ΑΣ") = Some [0x3B1; 0x3C2]%N
  /\ PyStr.decode (PyStr.lower "Σ") = Some [0x3C3]%N.
Proof.
  split; [vm_compute; reflexivity |]. split; [vm_compute; reflexivity |].
  split; [reflexivity |]. split.
  { exists "Α"%string, "Σ"%string, ""%string. split; reflexivity. }
  repeat apply conj; vm_compute; reflexivity.
Qed.

(** * Further properties *)

(** ** More facts about dicts *)

Section DictOrder.
Variable V : Type.
Implicit Types (d : Dict.t V) (k : UUID) (v : V).

Lemma get_In d k v : Dict.get d k = Some v -> In (k, v) d.
Proof.
  induction d as [| [k' v'] d IH]; simpl; [discriminate |].
  destruct (N.eqb k k') eqn:E.
  - apply N.eqb_eq in E. subst k'. injection 1 as ->. now left.
  - intros H. right. now apply IH.
Qed.

Lemma In_keys d k v : In (k, v) d -> In k (Dict.keys d).
Proof. intros H. apply (in_map fst) in H. exact H. Qed.

Lemma In_get d k v : NoDup (Dict.keys d) -> In (k, v) d -> Dict.get d k = Some v.
Proof.
  induction d as [| [k' v'] d IH]; simpl; [contradiction |].
  intros Hnd [H | H].
  - injection H as -> ->. now rewrite N.eqb_refl.
  - inversion Hnd as [| ? ? Hnin Hnd']; subst.
    destruct (N.eqb k k') eqn:E.
    + apply N.eqb_eq in E. subst k'. apply In_keys in H. contradiction.
    + now apply IH.
Qed.

Lemma get_None_keys d k : Dict.get d k = None -> ~ In k (Dict.keys d).
Proof.
  induction d as [| [k' v'] d IH]; simpl; [tauto |].
  destruct (N.eqb k k') eqn:E; [discriminate |].
  intros H [Hk | Hk]; [| now apply IH].
  subst k'. now rewrite N.eqb_refl in E.
Qed.

(** A new key goes to the end. *)
Lemma set_fresh d k v : Dict.mem d k = false -> Dict.set d k v = d ++ [(k, v)].
Proof.
  unfold Dict.mem. induction d as [| [k' v'] d IH]; simpl; auto.
  destruct (N.eqb k k'); [discriminate |].
  intros H. now rewrite IH.
Qed.

(** A key that is there keeps its place. *)
Lemma keys_set_present d k v :
  Dict.mem d k = true -> Dict.keys (Dict.set d k v) = Dict.keys d.
Proof.
  unfold Dict.mem. induction d as [| [k' v'] d IH]; simpl; [discriminate |].
  destruct (N.eqb k k') eqn:E; simpl; auto.
  intros H. now rewrite IH.
Qed.

Lemma In_set d k v k' v' :
  In (k', v') (Dict.set d k v) -> (k' = k /\ v' = v) \/ In (k', v') d.
Proof.
  induction d as [| [k0 v0] d IH]; simpl.
  - intros [H | []]. injection H as <- <-. now left.
  - destruct (N.eqb k k0) eqn:E; simpl.
    + apply N.eqb_eq in E. subst k0.
      intros [H | H]; [injection H as <- <-; now left | auto].
    + intros [H | H]; auto. destruct (IH H); auto.
Qed.

Lemma NoDup_keys_set d k v : NoDup (Dict.keys d) -> NoDup (Dict.keys (Dict.set d k v)).
Proof.
  intros Hnd. destruct (Dict.mem d k) eqn:E.
  - now rewrite keys_set_present.
  - rewrite set_fresh by exact E. unfold Dict.keys. rewrite map_app. simpl.
    apply NoDup_app; [exact Hnd | repeat constructor; auto |].
    intros x Hx [Heq | []]. subst x. unfold Dict.mem in E.
    destruct (Dict.get d k) eqn:G; [discriminate |].
    now apply get_None_keys in G.
Qed.

Lemma In_del d k x : In x (Dict.del d k) -> In x d.
Proof.
  induction d as [| [k' v'] d IH]; simpl; auto.
  destruct (N.eqb k k'); simpl; auto.
  intros [<- | H]; auto.
Qed.

Lemma NoDup_keys_del d k : NoDup (Dict.keys d) -> NoDup (Dict.keys (Dict.del d k)).
Proof.
  induction d as [| [k' v'] d IH]; simpl; auto.
  intros Hnd. inversion Hnd as [| ? ? Hnin Hnd']; subst.
  destruct (N.eqb k k'); simpl; auto.
  constructor; auto. intros Hin. apply Hnin.
  apply in_map_iff in Hin. destruct Hin as ([k0 v0] & <- & Hin).
  apply In_del in Hin. now apply In_keys in Hin.
Qed.

Lemma get_del_other d k k' : k' <> k -> Dict.get (Dict.del d k) k' = Dict.get d k'.
Proof.
  intros Hne. induction d as [| [k0 v0] d IH]; simpl; auto.
  destruct (N.eqb k k0) eqn:E; simpl.
  - apply N.eqb_eq in E. subst k0.
    destruct (N.eqb k' k) eqn:E'; auto. apply N.eqb_eq in E'. contradiction.
  - now rewrite IH.
Qed.

Lemma get_del_same d k : NoDup (Dict.keys d) -> Dict.get (Dict.del d k) k = None.
Proof.
  induction d as [| [k' v'] d IH]; simpl; auto.
  intros Hnd. inversion Hnd as [| ? ? Hnin Hnd']; subst.
  destruct (N.eqb k k') eqn:E; simpl.
  - apply N.eqb_eq in E. subst k'.
    destruct (Dict.get d k) eqn:G; auto. apply get_In, In_keys in G. contradiction.
  - rewrite E. now apply IH.
Qed.

(** Deleting a key that was just added as new gives the dict back. *)
Lemma del_set_fresh d k v : Dict.mem d k = false -> Dict.del (Dict.set d k v) k = d.
Proof.
  unfold Dict.mem. induction d as [| [k' v'] d IH]; simpl.
  - now rewrite N.eqb_refl.
  - destruct (N.eqb k k') eqn:E; [discriminate |]. simpl. rewrite E.
    intros H. now rewrite IH.
Qed.

Lemma In_values d v : In v (Dict.values d) -> exists k, In (k, v) d.
Proof.
  unfold Dict.values. intros H. apply in_map_iff in H.
  destruct H as ([k v'] & <- & H). eauto.
Qed.

Variable id_of : V -> UUID.

Lemma keyed_set d k v : keyed id_of d -> put_ok id_of d k v -> keyed id_of (Dict.set d k v).
Proof.
  intros [Hnd Hid] Hput. split; [now apply NoDup_keys_set |].
  intros k' v' Hin. apply In_set in Hin. destruct Hin as [[-> ->] | Hin]; auto.
  destruct Hput as [H | (old & Hg & H)]; auto.
  rewrite H. apply Hid. now apply get_In.
Qed.

Lemma keyed_del d k : keyed id_of d -> keyed id_of (Dict.del d k).
Proof.
  intros [Hnd Hid]. split; [now apply NoDup_keys_del |].
  intros k' v' Hin. apply Hid. now apply In_del in Hin.
Qed.

Lemma keyed_get d v : keyed id_of d -> In v (Dict.values d) -> Dict.get d (id_of v) = Some v.
Proof.
  intros [Hnd Hid] Hin. apply In_values in Hin. destruct Hin as [k Hin].
  rewrite (Hid _ _ Hin). now apply In_get.
Qed.

Lemma keyed_ids d : keyed id_of d -> map id_of (Dict.values d) = Dict.keys d.
Proof.
  intros [_ Hid]. unfold Dict.values, Dict.keys. rewrite map_map.
  apply map_ext_in. intros [k v] Hin. simpl. now apply Hid.
Qed.

(** Under distinct keys, deleting a key drops the value with that
    identifier and nothing else. *)
Lemma values_del d k :
  keyed id_of d ->
  Dict.values (Dict.del d k)
  = filter (fun v => negb (N.eqb (id_of v) k)) (Dict.values d).
Proof.
  induction d as [| [k' v'] d IH]; simpl; auto.
  intros [Hnd Hid]. inversion Hnd as [| ? ? Hnin Hnd']; subst.
  assert (Hk : keyed id_of d) by (split; auto; intros; apply Hid; now right).
  rewrite (Hid k' v') by now left.
  destruct (N.eqb k k') eqn:E.
  - apply N.eqb_eq in E. subst k'. rewrite N.eqb_refl. simpl.
    rewrite <- (filter_all (Dict.values d)) at 1.
    apply filter_ext_in. intros v Hv.
    destruct (N.eqb (id_of v) k) eqn:E'; auto. exfalso.
    apply N.eqb_eq in E'. apply In_values in Hv. destruct Hv as [k0 Hv].
    assert (k0 = k) by (rewrite <- (Hid k0 v); auto; now right). subst k0.
    apply In_keys in Hv. contradiction.
  - rewrite N.eqb_sym, E. simpl. now rewrite IH.
Qed.

End DictOrder.

(** ** What each request writes *)

Lemma create_address_raise address w e w' :
  create_address address w = (Raise e, w') -> w' = w.
Proof.
  unfold create_address. run.
  destruct (Dict.mem (addresses w) (Address.id address)); [now injection 1 |].
  rewrite get_set_same. discriminate.
Qed.

Lemma update_address_raise address_id update w e w' :
  update_address address_id update w = (Raise e, w') -> w' = w.
Proof.
  unfold update_address, Dict.mem. run.
  destruct (Dict.get (addresses w) address_id) as [data |]; simpl; [| now injection 1].
  destruct (overlay (AddressUpdate.street update) _); [| now injection 1].
  destruct (overlay (AddressUpdate.city update) _); [| now injection 1].
  destruct (overlay (AddressUpdate.state update) _); [| now injection 1].
  destruct (overlay (AddressUpdate.postal_code update) _); [| now injection 1].
  destruct (overlay (AddressUpdate.country update) _); [| now injection 1].
  simpl. rewrite get_set_same. discriminate.
Qed.

Lemma update_person_raise person_id update w e w' :
  update_person person_id update w = (Raise e, w') -> w' = w.
Proof.
  unfold update_person, Dict.mem. run.
  destruct (Dict.get (persons w) person_id) as [data |]; simpl; [| now injection 1].
  destruct (overlay (PersonUpdate.uni update) _); [| now injection 1].
  destruct (overlay (PersonUpdate.first_name update) _); [| now injection 1].
  destruct (overlay (PersonUpdate.last_name update) _); [| now injection 1].
  destruct (overlay (PersonUpdate.email update) _); [| now injection 1].
  destruct (overlay (PersonUpdate.phone update) _); [| now injection 1].
  destruct (overlay (PersonUpdate.birth_date update) _); [| now injection 1].
  destruct (overlay (PersonUpdate.addresses update) _); [| now injection 1].
  simpl. rewrite get_set_same. discriminate.
Qed.

(** Serving a request makes at most one write, to the store the request is
    about: it puts one value under its own identifier, or in the place of a
    stored value with the same identifier, or it drops one key. *)
Lemma handle_effect t1 t2 r w :
  exists e,
    handle t1 t2 r w = apply_effect e w
    /\ effect_ok e w
    /\ (e = Nothing \/ effect_entity e = Some (entity_of r)).
Proof.
  destruct (reads_leave_stores w) as (Rla & Rga & Rlp & Rgp & Rlpr & Rgpr & Rlo & Rgo).
  destruct r; cbn [handle entity_of];
    try (exists Nothing; simpl; repeat split; auto; fail).
  - destruct (create_address address w) as [[r | e] w'] eqn:E; simpl.
    + apply create_address_ok in E. destruct E as (_ & -> & ->).
      exists (PutAddress (Address.id address) address). simpl.
      repeat split; auto. now left.
    + apply create_address_raise in E. subst. exists Nothing. simpl. auto.
  - destruct (update_address address_id update w) as [[r | e] w'] eqn:E; simpl.
    + apply update_address_ok in E.
      destruct E as (data & Hg & _ & _ & _ & _ & _ & Hid & ->).
      exists (PutAddress address_id r). simpl. repeat split; auto. right. eauto.
    + apply update_address_raise in E. subst. exists Nothing. simpl. auto.
  - rewrite create_person_stores. simpl.
    exists (PutPerson (PersonRead.id (person_read_of uuid4 person))
              (person_read_of uuid4 person)).
    simpl. repeat split; auto. now left.
  - destruct (update_person person_id update w) as [[r | e] w'] eqn:E; simpl.
    + apply update_person_ok in E.
      destruct E as (data & Hg & _ & _ & _ & _ & _ & _ & _ & Hid & ->).
      exists (PutPerson person_id r). simpl. repeat split; auto. right. eauto.
    + apply update_person_raise in E. subst. exists Nothing. simpl. auto.
  - destruct (create_product t1 t2 product w) as [[r | e] w'] eqn:E; simpl.
    + apply create_product_ok in E. destruct E as (_ & Hr & ->).
      exists (PutProduct (ProductCreate.id product) r). simpl.
      repeat split; auto. left. now subst r.
    + apply create_product_raise in E. subst. exists Nothing. simpl. auto.
  - destruct (update_product t1 product_id patch w) as [[r | e] w'] eqn:E; simpl.
    + apply update_product_ok in E.
      destruct E as (data & Hg & _ & _ & _ & _ & Hid & _ & _ & ->).
      exists (PutProduct product_id r). simpl. repeat split; auto. right. eauto.
    + apply update_product_raise in E. subst. exists Nothing. simpl. auto.
  - rewrite delete_product_cases.
    destruct (Dict.mem (products w) product_id); simpl.
    + exists (DropProduct product_id). simpl. auto.
    + exists Nothing. simpl. auto.
  - destruct (create_order t1 t2 order w) as [[r | e] w'] eqn:E; simpl.
    + apply create_order_ok in E. destruct E as (total & _ & _ & _ & Hr & ->).
      exists (PutOrder (OrderCreate.id order) r). simpl.
      repeat split; auto. left. now subst r.
    + apply create_order_raise in E. subst. exists Nothing. simpl. auto.
  - destruct (update_order t1 order_id patch w) as [[r | e] w'] eqn:E; simpl.
    + apply update_order_ok in E.
      destruct E as (-> & _ & data & priced & Hg & Hr).
      exists (PutOrder order_id r). simpl. repeat split; auto. right.
      exists data. split; auto. now subst r.
    + apply update_order_raise in E. subst. exists Nothing. simpl. auto.
  - rewrite delete_order_cases.
    destruct (Dict.mem (orders w) order_id); simpl.
    + exists (DropOrder order_id). simpl. auto.
    + exists Nothing. simpl. auto.
Qed.

Lemma handle_frame t1 t2 r w :
  (entity_of r <> Persons -> persons (handle t1 t2 r w) = persons w)
  /\ (entity_of r <> Addresses -> addresses (handle t1 t2 r w) = addresses w)
  /\ (entity_of r <> Products -> products (handle t1 t2 r w) = products w)
  /\ (entity_of r <> Orders -> orders (handle t1 t2 r w) = orders w).
Proof.
  destruct (handle_effect t1 t2 r w) as (e & -> & _ & [-> | He]).
  - simpl. auto.
  - destruct e; simpl in *; try discriminate;
      injection He as He; repeat split; intros Hne; congruence.
Qed.

(** No request writes outside the store it is about: a product request
    leaves orders, persons and addresses as they are, whether it returns or
    raises, and so on for the three other kinds of request.  So an order,
    once stored, reads back the same after any product, person or address
    request, a change of price or the deletion of its products included. *)
Theorem handlers_write_own_store_only t1 t2 r w :
  (entity_of r <> Persons -> persons (handle t1 t2 r w) = persons w)
  /\ (entity_of r <> Addresses -> addresses (handle t1 t2 r w) = addresses w)
  /\ (entity_of r <> Products -> products (handle t1 t2 r w) = products w)
  /\ (entity_of r <> Orders ->
      orders (handle t1 t2 r w) = orders w
      /\ forall order_id,
           fst (get_order order_id (handle t1 t2 r w)) = fst (get_order order_id w)).
Proof.
  destruct (handle_frame t1 t2 r w) as (Hp & Ha & Hpr & Ho).
  repeat split; auto.
  intros order_id. unfold get_order, Dict.mem. run. rewrite (Ho H).
  destruct (Dict.get (orders w) order_id); reflexivity.
Qed.

Lemma handlers_write_own_store_only_witness :
  orders (handle 40 40 (DeleteProduct 1) Example_run.day) = orders Example_run.day.
Proof.
  apply (proj2 (proj2 (proj2
           (handlers_write_own_store_only 40 40 (DeleteProduct 1) Example_run.day)))).
  discriminate.
Defined.

Lemma apply_effect_keyed e w :
  stores_keyed w -> effect_ok e w -> stores_keyed (apply_effect e w).
Proof.
  intros (Hp & Ha & Hpr & Ho) Hok.
  unfold stores_keyed.
  destruct e; simpl in *; (split; [| split; [| split]]);
    first [ assumption
          | apply keyed_set; assumption
          | apply keyed_del; assumption ].
Qed.

Lemma reachable_keyed t w : reachable t w -> stores_keyed w.
Proof.
  induction 1 as [t | t w t1 t2 r Hr IH H1 H2].
  - repeat split; simpl; try constructor; intros k v [].
  - destruct (handle_effect t1 t2 r w) as (e & -> & Hok & _).
    now apply apply_effect_keyed.
Qed.

(** In every store the service can reach, whatever is found under an
    identifier carries that identifier as its own [id]: this holds for
    persons, addresses, products and orders. *)
Theorem stored_under_own_id t w :
  reachable t w ->
  (forall k p, Dict.get (persons w) k = Some p -> PersonRead.id p = k)
  /\ (forall k a, Dict.get (addresses w) k = Some a -> Address.id a = k)
  /\ (forall k p, Dict.get (products w) k = Some p -> ProductRead.id p = k)
  /\ (forall k o, Dict.get (orders w) k = Some o -> OrderRead.id o = k).
Proof.
  intros Hr. apply reachable_keyed in Hr.
  destruct Hr as ((_ & Hp) & (_ & Ha) & (_ & Hpr) & (_ & Ho)).
  repeat split; intros k v Hg; apply get_In in Hg; auto.
Qed.

Lemma stored_under_own_id_witness :
  ProductRead.id Example_more.widget_stored = 1%N.
Proof.
  exact (proj1 (proj2 (proj2 (stored_under_own_id day_reachable)))
           1%N Example_more.widget_stored eq_refl).
Defined.

Lemma filter_if_In {A} (lit : option string) (pred : string -> A -> bool) l x :
  In x (filter_if lit pred l) -> In x l.
Proof. destruct lit; simpl; auto. intros H. now apply filter_In in H. Qed.

Lemma filter_if_truthy_In {A} (lit : option string) (pred : string -> A -> bool) l x :
  In x (filter_if_truthy lit pred l) -> In x l.
Proof.
  destruct lit as [s |]; simpl; auto. destruct (PyStr.truthy s); auto.
  intros H. now apply filter_In in H.
Qed.

(** Whatever the filters, every entity a listing returns is stored, and
    getting it by its [id] returns that same entity. *)
Theorem listed_can_be_fetched t w :
  reachable t w ->
  (forall street city state postal_code country results a,
     list_addresses street city state postal_code country w = (Ok results, w) ->
     In a results -> get_address (Address.id a) w = (Ok a, w))
  /\ (forall uni first_name last_name email phone birth_date city country results p,
     list_persons uni first_name last_name email phone birth_date city country w
     = (Ok results, w) ->
     In p results -> get_person (PersonRead.id p) w = (Ok p, w))
  /\ (forall name results p,
     list_products name w = (Ok results, w) ->
     In p results -> get_product (ProductRead.id p) w = (Ok p, w))
  /\ (forall customer_name results o,
     list_orders customer_name w = (Ok results, w) ->
     In o results -> get_order (OrderRead.id o) w = (Ok o, w)).
Proof.
  intros Hr. apply reachable_keyed in Hr. destruct Hr as (Hp & Ha & Hpr & Ho).
  repeat apply conj.
  - intros street city state postal_code country results a H Hin.
    unfold list_addresses in H. run. injection H as <-.
    repeat apply filter_if_In in Hin.
    assert (Hg : Dict.get (addresses w) (Address.id a) = Some a)
      by exact (@keyed_get _ _ _ _ Ha Hin).
    unfold get_address, Dict.mem. run. now rewrite Hg.
  - intros uni first_name last_name email phone birth_date city country results p H Hin.
    unfold list_persons in H. run. injection H as <-.
    repeat apply filter_if_In in Hin.
    unfold get_person, Dict.mem. run. now rewrite (@keyed_get _ _ _ _ Hp Hin).
  - intros name results p H Hin.
    unfold list_products in H. run. injection H as <-.
    apply filter_if_truthy_In in Hin.
    unfold get_product, Dict.mem. run. now rewrite (@keyed_get _ _ _ _ Hpr Hin).
  - intros customer_name results o H Hin.
    unfold list_orders in H. run. injection H as <-.
    apply filter_if_truthy_In in Hin.
    unfold get_order, Dict.mem. run. now rewrite (@keyed_get _ _ _ _ Ho Hin).
Qed.

Lemma listed_can_be_fetched_witness :
  get_product (ProductRead.id Example_more.widget_stored) Example_run.day
  = (Ok Example_more.widget_stored, Example_run.day).
Proof.
  apply (proj1 (proj2 (proj2 (listed_can_be_fetched day_reachable)))
           (Some "wid"%string) [Example_more.widget_stored]).
  - vm_compute. reflexivity.
  - now left.
Defined.

(** ** Identifiers that are not stored *)

Lemma get_product_cases product_id w :
  get_product product_id w
  = match Dict.get (products w) product_id with
    | Some p => (Ok p, w)
    | None => (Raise (NotFound Products), w)
    end.
Proof.
  unfold get_product, Dict.mem. run.
  now destruct (Dict.get (products w) product_id).
Qed.

Lemma get_order_cases order_id w :
  get_order order_id w
  = match Dict.get (orders w) order_id with
    | Some o => (Ok o, w)
    | None => (Raise (NotFound Orders), w)
    end.
Proof.
  unfold get_order, Dict.mem. run.
  now destruct (Dict.get (orders w) order_id).
Qed.

(** Getting, patching or deleting under an identifier that is not in the
    store raises [NotFound] for that store and writes nothing.  For a patch
    this comes before any look at the payload: a patch that would fail its
    own checks still raises [NotFound]. *)
Theorem missing_id_raises_not_found k w :
  (Dict.mem (addresses w) k = false ->
     get_address k w = (Raise (NotFound Addresses), w)
     /\ forall update, update_address k update w = (Raise (NotFound Addresses), w))
  /\ (Dict.mem (persons w) k = false ->
     get_person k w = (Raise (NotFound Persons), w)
     /\ forall update, update_person k update w = (Raise (NotFound Persons), w))
  /\ (Dict.mem (products w) k = false ->
     get_product k w = (Raise (NotFound Products), w)
     /\ (forall now patch, update_product now k patch w = (Raise (NotFound Products), w))
     /\ delete_product k w = (Raise (NotFound Products), w))
  /\ (Dict.mem (orders w) k = false ->
     get_order k w = (Raise (NotFound Orders), w)
     /\ (forall now patch, update_order now k patch w = (Raise (NotFound Orders), w))
     /\ delete_order k w = (Raise (NotFound Orders), w)).
Proof.
  repeat apply conj; intros H.
  - split; [| intros update]; unfold get_address, update_address; run; now rewrite H.
  - split; [| intros update]; unfold get_person, update_person; run; now rewrite H.
  - split; [| split; [intros now patch |]];
      unfold get_product, update_product, delete_product; run; now rewrite H.
  - split; [| split; [intros now patch |]];
      unfold get_order, update_order, delete_order; run; now rewrite H.
Qed.

Lemma missing_id_raises_not_found_witness :
  update_order 40 99 Example_patch.three_widgets Example_run.day
  = (Raise (NotFound Orders), Example_run.day).
Proof.
  apply (proj2 (proj2 (proj2 (missing_id_raises_not_found 99 Example_run.day)))).
  reflexivity.
Defined.

(** ** Deleting *)

Lemma first_item_unknown created_at updated_at order li rest w :
  OrderCreate.items order = li :: rest ->
  Dict.mem (products w) (LineItem.product_id li) = false ->
  create_order created_at updated_at order w
  = (Raise (InvalidReference (LineItem.product_id li)), w).
Proof.
  intros Hi Hm. rewrite create_order_cases, Hi.
  unfold compute_order_total, bind. simpl. run.
  unfold Dict.mem in Hm.
  now destruct (Dict.get (products w) (LineItem.product_id li)).
Qed.

(** Deleting a stored product, in a store the service can reach, returns
    and removes exactly that product: a get or a second delete under its
    identifier raises [NotFound], every other identifier reads as before,
    the listing is the old one without it, and the orders are left alone,
    those that name the product included.  A later order whose first line
    item names it is refused with [InvalidReference].  Deleting a stored
    order behaves the same way on the orders. *)
Theorem delete_removes_one t w k :
  reachable t w ->
  (Dict.mem (products w) k = true ->
     exists w',
       delete_product k w = (Ok tt, w')
       /\ get_product k w' = (Raise (NotFound Products), w')
       /\ delete_product k w' = (Raise (NotFound Products), w')
       /\ (forall other, other <> k ->
             fst (get_product other w') = fst (get_product other w))
       /\ fst (list_products None w')
          = Ok (filter (fun p => negb (N.eqb (ProductRead.id p) k))
                  (Dict.values (products w)))
       /\ orders w' = orders w
       /\ forall created_at updated_at order li rest,
            OrderCreate.items order = li :: rest ->
            LineItem.product_id li = k ->
            create_order created_at updated_at order w'
            = (Raise (InvalidReference k), w'))
  /\ (Dict.mem (orders w) k = true ->
     exists w',
       delete_order k w = (Ok tt, w')
       /\ get_order k w' = (Raise (NotFound Orders), w')
       /\ delete_order k w' = (Raise (NotFound Orders), w')
       /\ (forall other, other <> k ->
             fst (get_order other w') = fst (get_order other w))
       /\ fst (list_orders None w')
          = Ok (filter (fun o => negb (N.eqb (OrderRead.id o) k))
                  (Dict.values (orders w)))
       /\ products w' = products w).
Proof.
  intros Hr. apply reachable_keyed in Hr. destruct Hr as (_ & _ & Hpr & Ho).
  split; intros Hm.
  - exists (set_products (Dict.del (products w) k) w).
    assert (Hgone : Dict.get (Dict.del (products w) k) k = None)
      by (apply get_del_same; apply Hpr).
    repeat apply conj.
    + now rewrite delete_product_cases, Hm.
    + rewrite get_product_cases. simpl. now rewrite Hgone.
    + rewrite delete_product_cases. unfold Dict.mem. simpl. now rewrite Hgone.
    + intros other Hne. rewrite !get_product_cases. simpl.
      rewrite get_del_other by exact Hne.
      now destruct (Dict.get (products w) other).
    + unfold list_products. run. f_equal. now apply values_del.
    + reflexivity.
    + intros created_at updated_at order li rest Hi <-.
      apply first_item_unknown with (rest := rest); auto.
      unfold Dict.mem. simpl. now rewrite Hgone.
  - exists (set_orders (Dict.del (orders w) k) w).
    assert (Hgone : Dict.get (Dict.del (orders w) k) k = None)
      by (apply get_del_same; apply Ho).
    repeat apply conj.
    + now rewrite delete_order_cases, Hm.
    + rewrite get_order_cases. simpl. now rewrite Hgone.
    + rewrite delete_order_cases. unfold Dict.mem. simpl. now rewrite Hgone.
    + intros other Hne. rewrite !get_order_cases. simpl.
      rewrite get_del_other by exact Hne.
      now destruct (Dict.get (orders w) other).
    + unfold list_orders. run. f_equal. now apply values_del.
    + reflexivity.
Qed.

Lemma delete_removes_one_witness :
  exists w',
    delete_order 7 Example_run.day = (Ok tt, w')
    /\ get_order 7 w' = (Raise (NotFound Orders), w')
    /\ delete_order 7 w' = (Raise (NotFound Orders), w')
    /\ (forall other, other <> 7%N ->
          fst (get_order other w') = fst (get_order other Example_run.day))
    /\ fst (list_orders None w')
       = Ok (filter (fun o => negb (N.eqb (OrderRead.id o) 7))
               (Dict.values (orders Example_run.day)))
    /\ products w' = products Example_run.day.
Proof.
  apply (proj2 (delete_removes_one 7 day_reachable)). reflexivity.
Defined.

(** Deleting a product or an order right after the create that stored it
    gives back the stores exactly as they were before the create. *)
Theorem create_then_delete :
  (forall created_at updated_at product w r w',
     create_product created_at updated_at product w = (Ok r, w') ->
     delete_product (ProductRead.id r) w' = (Ok tt, w))
  /\ (forall created_at updated_at order w r w',
     create_order created_at updated_at order w = (Ok r, w') ->
     delete_order (OrderRead.id r) w' = (Ok tt, w)).
Proof.
  split.
  - intros created_at updated_at product w r w' H. apply create_product_ok in H.
    destruct H as (Hm & Hr & ->).
    assert (Hid : ProductRead.id r = ProductCreate.id product) by now subst r.
    rewrite delete_product_cases, Hid. unfold Dict.mem. simpl.
    rewrite get_set_same, del_set_fresh by exact Hm.
    now destruct w.
  - intros created_at updated_at order w r w' H. apply create_order_ok in H.
    destruct H as (total & _ & _ & Hm & Hr & ->).
    assert (Hid : OrderRead.id r = OrderCreate.id order) by now subst r.
    rewrite delete_order_cases, Hid. unfold Dict.mem. simpl.
    rewrite get_set_same, del_set_fresh by exact Hm.
    now destruct w.
Qed.

Lemma create_then_delete_witness :
  delete_order (OrderRead.id Example.bob_order) Example.shop_with_bob
  = (Ok tt, Example.shop).
Proof.
  exact (proj2 create_then_delete 20%Z 21%Z Example.bob Example.shop
           Example.bob_order Example.shop_with_bob bob_created).
Defined.

(** ** The order of a listing *)

(** A create that returns puts the new entity at the end of the listing.
    For a person this holds when the identifier is new; a person created
    under a stored identifier takes the place of the stored one. *)
Theorem create_appends_to_listing :
  (forall address w r w',
     create_address address w = (Ok r, w') ->
     fst (list_addresses None None None None None w')
     = Ok (Dict.values (addresses w) ++ [r]))
  /\ (forall uuid4 person w r w',
     create_person uuid4 person w = (Ok r, w') ->
     (Dict.mem (persons w) (PersonRead.id r) = false ->
        fst (list_persons None None None None None None None None w')
        = Ok (Dict.values (persons w) ++ [r]))
     /\ (Dict.mem (persons w) (PersonRead.id r) = true ->
        Dict.keys (persons w') = Dict.keys (persons w)))
  /\ (forall created_at updated_at product w r w',
     create_product created_at updated_at product w = (Ok r, w') ->
     fst (list_products None w') = Ok (Dict.values (products w) ++ [r]))
  /\ (forall created_at updated_at order w r w',
     create_order created_at updated_at order w = (Ok r, w') ->
     fst (list_orders None w') = Ok (Dict.values (orders w) ++ [r])).
Proof.
  repeat apply conj.
  - intros address w r w' H. apply create_address_ok in H. destruct H as (Hm & -> & ->).
    unfold list_addresses. run. rewrite set_fresh by exact Hm.
    unfold Dict.values. now rewrite map_app.
  - intros uuid4 person w r w' H. rewrite create_person_stores in H.
    injection H as <- <-. split; intros Hm.
    + unfold list_persons. run. rewrite set_fresh by exact Hm.
      unfold Dict.values. now rewrite map_app.
    + simpl in *. now apply keys_set_present.
  - intros created_at updated_at product w r w' H. apply create_product_ok in H.
    destruct H as (Hm & Hr & ->).
    unfold list_products. run. rewrite set_fresh by exact Hm.
    unfold Dict.values. now rewrite map_app.
  - intros created_at updated_at order w r w' H. apply create_order_ok in H.
    destruct H as (total & _ & _ & Hm & Hr & ->).
    unfold list_orders. run. rewrite set_fresh by exact Hm.
    unfold Dict.values. now rewrite map_app.
Qed.

Lemma create_appends_to_listing_witness :
  fst (list_orders None Example.shop_with_bob)
  = Ok (Dict.values (orders Example.shop) ++ [Example.bob_order]).
Proof.
  exact (proj2 (proj2 (proj2 create_appends_to_listing)) 20%Z 21%Z Example.bob
           Example.shop Example.bob_order Example.shop_with_bob bob_created).
Defined.

(** A patch that returns keeps the listing in order: in a store the service
    can reach, the identifiers listed after the patch are those listed
    before, in the same order. *)
Theorem patch_keeps_listing_order t w :
  reachable t w ->
  (forall now product_id patch r w',
     update_product now product_id patch w = (Ok r, w') ->
     map ProductRead.id (Dict.values (products w'))
     = map ProductRead.id (Dict.values (products w)))
  /\ (forall now order_id patch r w',
     update_order now order_id patch w = (Ok r, w') ->
     map OrderRead.id (Dict.values (orders w'))
     = map OrderRead.id (Dict.values (orders w))).
Proof.
  intros Hr. apply reachable_keyed in Hr. destruct Hr as (_ & _ & Hpr & Ho).
  split.
  - intros now product_id patch r w' H. apply update_product_ok in H.
    destruct H as (data & Hg & _ & _ & _ & _ & Hid & _ & _ & ->). simpl.
    rewrite !keyed_ids; auto.
    + apply keys_set_present. unfold Dict.mem. now rewrite Hg.
    + apply keyed_set; auto. right. eauto.
  - intros now order_id patch r w' H. apply update_order_ok in H.
    destruct H as (-> & _ & data & priced & Hg & Hr). simpl.
    rewrite !keyed_ids; auto.
    + apply keys_set_present. unfold Dict.mem. now rewrite Hg.
    + apply keyed_set; auto. right. exists data. split; auto. now subst r.
Qed.

Lemma patch_keeps_listing_order_witness :
  map ProductRead.id
    (Dict.values
       (products (snd (update_product 40 1 Example_more.reprice Example_run.day))))
  = map ProductRead.id (Dict.values (products Example_run.day)).
Proof.
  exact (proj1 (patch_keeps_listing_order day_reachable) 40%Z 1%N
           Example_more.reprice (ProductRead.mk 1 "Widget" None 19.99 250 10 40)
           (snd (update_product 40 1 Example_more.reprice Example_run.day)) eq_refl).
Defined.

(** ** Sending a patch again *)

Lemma overlay_again {A} (f : field A) (old new : option A) :
  overlay f old = new -> overlay f new = new.
Proof. intros <-. now destruct f. Qed.

Lemma overlay_again_some {A} (f : field A) (old : option A) (x : A) :
  overlay f old = Some x -> overlay f (Some x) = Some x.
Proof. apply overlay_again. Qed.

Lemma update_product_cases now product_id patch w :
  update_product now product_id patch w
  = match Dict.get (products w) product_id with
    | None => (Raise (NotFound Products), w)
    | Some data =>
        match overlay (ProductUpdate.name patch) (Some (ProductRead.name data)) with
        | None => (Raise ValidationError, w)
        | Some name =>
            match overlay (ProductUpdate.price patch) (Some (ProductRead.price data)) with
            | None => (Raise ValidationError, w)
            | Some price =>
                match overlay (ProductUpdate.in_stock patch)
                        (Some (ProductRead.in_stock data)) with
                | None => (Raise ValidationError, w)
                | Some in_stock =>
                    let updated :=
                      ProductRead.mk (ProductRead.id data) name
                        (overlay (ProductUpdate.description patch)
                           (ProductRead.description data))
                        price in_stock (ProductRead.created_at data) now in
                    (Ok updated,
                     set_products (Dict.set (products w) product_id updated) w)
                end
            end
        end
    end.
Proof.
  unfold update_product, Dict.mem. run.
  destruct (Dict.get (products w) product_id) as [data |]; simpl; auto.
  destruct (overlay (ProductUpdate.name patch) _); auto.
  destruct (overlay (ProductUpdate.price patch) _); auto.
  destruct (overlay (ProductUpdate.in_stock patch) _); auto.
Qed.

(** Sending the same patch a second time changes nothing but [updated_at]:
    if a product patch returned [r], the same patch sent again returns [r]
    with the new clock reading, and stores it.  The same holds for an order
    patch. *)
Theorem patch_twice :
  (forall now1 now2 product_id patch w r w1,
     update_product now1 product_id patch w = (Ok r, w1) ->
     update_product now2 product_id patch w1
     = (Ok (product_touched now2 r),
        set_products (Dict.set (products w1) product_id (product_touched now2 r)) w1))
  /\ (forall now1 now2 order_id patch w r w1,
     update_order now1 order_id patch w = (Ok r, w1) ->
     update_order now2 order_id patch w1
     = (Ok (order_touched now2 r),
        set_orders (Dict.set (orders w1) order_id (order_touched now2 r)) w1)).
Proof.
  split.
  - intros now1 now2 product_id patch w r w1 H. apply update_product_ok in H.
    destruct H as (data & Hg & Hn & Hd & Hp & Hs & Hid & Hc & Hu & ->).
    rewrite update_product_cases. simpl. rewrite get_set_same.
    rewrite (overlay_again_some _ _ Hn), (overlay_again_some _ _ Hp),
      (overlay_again_some _ _ Hs), (overlay_again _ _ Hd).
    reflexivity.
  - intros now1 now2 order_id patch w r w1 H.
    pose proof (update_order_ok _ _ _ _ H) as (_ & Hv & _).
    apply update_order_ok_priced in H. destruct H as (data & Hg & -> & Hr).
    rewrite update_order_cases. simpl. rewrite get_set_same. unfold commit_order.
    destruct (OrderUpdate.items patch) as [| | its] eqn:Hi.
    + subst r. unfold patched_order, order_touched in *. simpl in *. rewrite Hv.
      destruct (OrderUpdate.customer_name patch), (OrderUpdate.note patch); reflexivity.
    + subst r. unfold patched_order, order_touched in *. simpl in *. rewrite Hv.
      destruct (OrderUpdate.customer_name patch), (OrderUpdate.note patch); reflexivity.
    + destruct Hr as [-> ->]. unfold patched_order, order_touched. simpl.
      destruct (OrderUpdate.customer_name patch), (OrderUpdate.note patch); reflexivity.
Qed.

Lemma patch_twice_witness :
  update_product 50 2 Example_merge.describe Example_merge.shop_described
  = (Ok (product_touched 50 Example_merge.described),
     set_products
       (Dict.set (products Example_merge.shop_described) 2
          (product_touched 50 Example_merge.described))
       Example_merge.shop_described).
Proof.
  exact (proj1 patch_twice 30%Z 50%Z 2%N Example_merge.describe Example.shop
           Example_merge.described Example_merge.shop_described eq_refl).
Defined.

(** ** The case of a query *)

(** On ASCII text the name filter of products, and the customer filter of
    orders, ignore case.  With an ASCII query against stored ASCII names,
    what is listed is what is stored under a name that contains the query
    with case ignored; and two ASCII queries that differ only in the case of
    their letters give the same listing, whatever the stored names are. *)
Theorem name_filter_ignores_case :
  (forall q w,
     PyStr.is_ascii q = true ->
     (forall p, In p (Dict.values (products w)) ->
                PyStr.is_ascii (ProductRead.name p) = true) ->
     exists results,
       list_products (Some q) w = (Ok results, w)
       /\ forall p,
            In p results
            <-> In p (Dict.values (products w))
                /\ Spec.contains_ignoring_case q (ProductRead.name p))
  /\ (forall q w,
     PyStr.is_ascii q = true ->
     (forall o, In o (Dict.values (orders w)) ->
                PyStr.is_ascii (OrderRead.customer_name o) = true) ->
     exists results,
       list_orders (Some q) w = (Ok results, w)
       /\ forall o,
            In o results
            <-> In o (Dict.values (orders w))
                /\ Spec.contains_ignoring_case q (OrderRead.customer_name o))
  /\ (forall q q' w,
     PyStr.is_ascii q = true -> PyStr.is_ascii q' = true ->
     PyStr.lower_letters q = PyStr.lower_letters q' ->
     list_products (Some q) w = list_products (Some q') w
     /\ list_orders (Some q) w = list_orders (Some q') w).
Proof.
  repeat apply conj.
  - intros q w Hq Hnames. unfold list_products, filter_if_truthy. run.
    eexists. split; [reflexivity |]. intros p.
    destruct q as [| c q]; cbn [PyStr.truthy].
    + split; [| tauto]. intros Hin. split; auto.
      exists ""%string, ""%string, (ProductRead.name p). split; reflexivity.
    + rewrite filter_In. split; intros [Hin H]; (split; [exact Hin |]);
        now apply (contains_lower_ascii _ _ Hq (Hnames p Hin)).
  - intros q w Hq Hnames. unfold list_orders, filter_if_truthy. run.
    eexists. split; [reflexivity |]. intros o.
    destruct q as [| c q]; cbn [PyStr.truthy].
    + split; [| tauto]. intros Hin. split; auto.
      exists ""%string, ""%string, (OrderRead.customer_name o). split; reflexivity.
    + rewrite filter_In. split; intros [Hin H]; (split; [exact Hin |]);
        now apply (contains_lower_ascii _ _ Hq (Hnames o Hin)).
  - intros q q' w Hq Hq' H.
    assert (Ht : PyStr.truthy q = PyStr.truthy q')
      by (rewrite <- (truthy_lower_letters q), <- (truthy_lower_letters q'); now rewrite H).
    assert (Hl : PyStr.lower q = PyStr.lower q')
      by (rewrite (lower_of_ascii q Hq), (lower_of_ascii q' Hq'); exact H).
    unfold list_products, list_orders, filter_if_truthy. run. now rewrite Ht, Hl.
Qed.

Lemma name_filter_ignores_case_witness :
  list_products (Some "WiDg"%string) Example.shop
  = list_products (Some "widg"%string) Example.shop.
Proof.
  apply (proj2 (proj2 name_filter_ignores_case) "WiDg"%string "widg"%string Example.shop);
    reflexivity.
Defined.

(** ** Stored values stay within the bounds of the models *)

Lemma sent_overlay {A} (test : A -> bool) (f : field A) (old new : A) :
  Constraints.sent test f = true -> test old = true ->
  overlay f (Some old) = Some new -> test new = true.
Proof. destruct f; simpl; intros Hs Ho H; try discriminate; injection H as <-; auto. Qed.

Lemma sent_overlay_optional {A} (test : A -> bool) (f : field A) (old new : option A) :
  Constraints.sent test f = true -> Constraints.optional test old = true ->
  overlay f old = new -> Constraints.optional test new = true.
Proof. destruct f; simpl; intros Hs Ho <-; auto. Qed.

Lemma handle_within t1 t2 r w :
  Constraints.stores_within w -> Constraints.request_ok r = true ->
  Constraints.stores_within (handle t1 t2 r w).
Proof.
  intros [HP HO] Hok.
  assert (Hother : entity_of r <> Products -> entity_of r <> Orders ->
                   Constraints.stores_within (handle t1 t2 r w)).
  { intros H1 H2. destruct (handle_frame t1 t2 r w) as (_ & _ & Hp & Ho).
    unfold Constraints.stores_within. rewrite (Hp H1), (Ho H2). now split. }
  destruct r; try (apply Hother; discriminate); cbn [handle]; simpl in Hok.
  - destruct (create_product t1 t2 product w) as [[p | e] w'] eqn:E; simpl.
    + apply create_product_ok in E. destruct E as (_ & Hp & ->).
      split; [| exact HO]. simpl. intros x Hin. apply In_values_set in Hin.
      destruct Hin as [-> | Hin]; auto. now subst p.
    + apply create_product_raise in E. subst. now split.
  - destruct (reads_leave_stores w) as (_ & _ & _ & _ & R & _). rewrite R. now split.
  - destruct (reads_leave_stores w) as (_ & _ & _ & _ & _ & R & _). rewrite R. now split.
  - destruct (update_product t1 product_id patch w) as [[p | e] w'] eqn:E; simpl.
    + apply update_product_ok in E.
      destruct E as (data & Hg & Hn & Hd & Hp & Hs & _ & _ & _ & ->).
      split; [| exact HO]. simpl. intros x Hin. apply In_values_set in Hin.
      destruct Hin as [-> | Hin]; auto.
      apply get_In_values in Hg. specialize (HP data Hg).
      unfold Constraints.product_read, Constraints.product_update in *.
      repeat rewrite andb_true_iff in *.
      destruct HP as (((Dn & Dd) & Dp) & Ds). destruct Hok as (((Un & Ud) & Up) & Us).
      repeat split.
      * exact (@sent_overlay _ _ _ _ _ Un Dn Hn).
      * exact (@sent_overlay_optional _ _ _ _ _ Ud Dd Hd).
      * exact (@sent_overlay _ _ _ _ _ Up Dp Hp).
      * exact (@sent_overlay _ _ _ _ _ Us Ds Hs).
    + apply update_product_raise in E. subst. now split.
  - rewrite delete_product_cases. destruct (Dict.mem (products w) product_id); simpl.
    + split; [| exact HO]. simpl. intros x Hin. apply In_values_del in Hin. auto.
    + now split.
  - destruct (create_order t1 t2 order w) as [[o | e] w'] eqn:E; simpl.
    + apply create_order_ok in E. destruct E as (total & _ & Hv & _ & Ho & ->).
      split; [exact HP |]. simpl. intros x Hin. apply In_values_set in Hin.
      destruct Hin as [-> | Hin]; auto. subst o.
      unfold Constraints.order_read, Constraints.order_create, new_order in *. simpl.
      now rewrite Hok, Hv.
    + apply create_order_raise in E. subst. now split.
  - destruct (reads_leave_stores w) as (_ & _ & _ & _ & _ & _ & R & _). rewrite R. now split.
  - destruct (reads_leave_stores w) as (_ & _ & _ & _ & _ & _ & _ & R). rewrite R. now split.
  - destruct (update_order t1 order_id patch w) as [[o | e] w'] eqn:E; simpl.
    + pose proof (update_order_ok _ _ _ _ E) as (_ & Hv & _).
      apply update_order_ok_priced in E. destruct E as (data & Hg & -> & Hr).
      split; [exact HP |]. simpl. intros x Hin. apply In_values_set in Hin.
      destruct Hin as [-> | Hin]; auto.
      apply get_In_values in Hg. specialize (HO data Hg).
      unfold Constraints.order_read, Constraints.order_update in *.
      repeat rewrite andb_true_iff in *.
      destruct HO as (((Dn & Di) & Dt) & Dv). destruct Hok as ((Un & Ui) & Ut).
      repeat split; auto.
      * destruct (OrderUpdate.items patch) as [| | its]; [| | destruct Hr as [_ Hr]];
          subst o; unfold patched_order; simpl;
          destruct (OrderUpdate.customer_name patch); auto.
      * destruct (OrderUpdate.items patch) as [| | its]; [| | destruct Hr as [_ Hr]];
          subst o; unfold patched_order; simpl; auto.
      * destruct (OrderUpdate.items patch) as [| | its]; [| | destruct Hr as [_ Hr]];
          subst o; unfold patched_order; simpl;
          destruct (OrderUpdate.note patch); auto.
    + apply update_order_raise in E. subst. now split.
  - rewrite delete_order_cases. destruct (Dict.mem (orders w) order_id); simpl.
    + split; [exact HP |]. simpl. intros x Hin. apply In_values_del in Hin. auto.
    + now split.
Qed.

(** When every payload sent passed the checks of its class, every product
    and order in the store is within the bounds of [ProductBase],
    [LineItem], [OrderBase] and [OrderRead], after any run of requests from
    the empty stores: names of 1 to 100 characters, a description of at
    most 500 and a note of at most 280, a price and a stock count that are
    not negative, quantities above zero, a total that is not negative. *)
Theorem stored_within_bounds calls :
  Forall (fun call => Constraints.request_ok (snd call) = true) calls ->
  (forall p, In p (Dict.values (products (serve calls empty_world))) ->
     Constraints.product_read p = true)
  /\ (forall o, In o (Dict.values (orders (serve calls empty_world))) ->
     Constraints.order_read o = true).
Proof.
  intros Hcalls.
  assert (Hgen : forall w, Constraints.stores_within w ->
                           Constraints.stores_within (serve calls w)).
  { induction Hcalls as [| [[t1 t2] r] rest Hr _ IH]; intros w Hw; simpl; auto.
    apply IH. now apply handle_within. }
  apply Hgen. split; intros x [].
Qed.

Lemma stored_within_bounds_witness :
  Constraints.product_read Example_more.widget_stored = true.
Proof.
  refine (proj1 (@stored_within_bounds Example_more.day_calls _)
            Example_more.widget_stored _).
  - repeat constructor.
  - vm_compute. now left.
Defined.

(** ** What pricing looks at *)

Lemma compute_order_total_loop_agree items : forall total w1 w2,
  (forall li, In li items ->
     Dict.get (products w1) (LineItem.product_id li)
     = Dict.get (products w2) (LineItem.product_id li)) ->
  fst (compute_order_total_loop (instances items) total w1)
  = fst (compute_order_total_loop (instances items) total w2).
Proof.
  induction items as [| li rest IH]; intros total w1 w2 H; simpl; auto.
  run. rewrite <- (H li) by now left.
  destruct (Dict.get (products w1) (LineItem.product_id li)) as [prod |]; auto.
  destruct (PyFloat.of_int (LineItem.quantity li)) as [q |]; [| reflexivity].
  apply IH. intros li' Hin. apply H. now right.
Qed.

(** Creating an order looks at the products its line items name and at no
    others: on two stores that agree on those products, and on whether the
    order's identifier is taken, the create returns the same order or raises
    the same failure. *)
Theorem order_price_reads_named_products created_at updated_at order w1 w2 :
  (forall li, In li (OrderCreate.items order) ->
     Dict.get (products w1) (LineItem.product_id li)
     = Dict.get (products w2) (LineItem.product_id li)) ->
  Dict.mem (orders w1) (OrderCreate.id order)
  = Dict.mem (orders w2) (OrderCreate.id order) ->
  fst (create_order created_at updated_at order w1)
  = fst (create_order created_at updated_at order w2).
Proof.
  intros Hp Ho. rewrite !create_order_cases.
  assert (Ht : fst (compute_order_total (instances (OrderCreate.items order)) w1)
               = fst (compute_order_total (instances (OrderCreate.items order)) w2)).
  { unfold compute_order_total, bind.
    pose proof (compute_order_total_loop_agree (OrderCreate.items order) 0%float w1 w2 Hp)
      as H.
    destruct (compute_order_total_loop (instances (OrderCreate.items order)) 0%float w1)
      as [[t1 | e1] w1'];
      destruct (compute_order_total_loop (instances (OrderCreate.items order)) 0%float w2)
        as [[t2 | e2] w2'];
      simpl in H; try discriminate; injection H as <-; reflexivity. }
  rewrite <- Ht, <- Ho.
  destruct (fst (compute_order_total (instances (OrderCreate.items order)) w1))
    as [total | e]; auto.
  destruct (0 <=? total)%float; auto.
  destruct (Dict.mem (orders w1) (OrderCreate.id order)); auto.
Qed.

Lemma order_price_reads_named_products_witness :
  fst (create_order 20 21 Example.bob Example.shop)
  = fst (create_order 20 21 Example.bob
           (set_products (Dict.del (products Example.shop) 3) Example.shop)).
Proof.
  apply order_price_reads_named_products.
  - intros li [<- | [<- | []]]; reflexivity.
  - reflexivity.
Defined.

(** An order without line items costs nothing and needs no product: a
    create with an empty [items] under a new identifier returns an order
    whose total is [0.0], whatever the catalogue holds.  A patch that sends
    an empty list is the one patch with a list that returns: it empties the
    stored items and sets the total to [0.0]. *)
Theorem empty_items_cost_nothing :
  (forall created_at updated_at order w,
     OrderCreate.items order = [] ->
     Dict.mem (orders w) (OrderCreate.id order) = false ->
     create_order created_at updated_at order w
     = (Ok (new_order created_at updated_at order 0),
        set_orders
          (Dict.set (orders w) (OrderCreate.id order)
             (new_order created_at updated_at order 0)) w))
  /\ (forall now order_id patch w data,
     Dict.get (orders w) order_id = Some data ->
     OrderUpdate.items patch = Value [] ->
     exists r,
       update_order now order_id patch w
       = (Ok r, set_orders (Dict.set (orders w) order_id r) w)
       /\ OrderRead.items r = []
       /\ OrderRead.total_amount r = 0%float).
Proof.
  split.
  - intros created_at updated_at order w Hi Hm.
    rewrite create_order_cases, Hi. simpl. now rewrite Hm.
  - intros now order_id patch w data Hg Hi.
    rewrite update_order_cases, Hg, Hi. unfold commit_order. simpl.
    eexists. split; [reflexivity |]. split; reflexivity.
Qed.

Lemma empty_items_cost_nothing_witness :
  exists r,
    update_order 40 7 (OrderUpdate.mk Absent (Value []) Absent) Example_run.day
    = (Ok r, set_orders (Dict.set (orders Example_run.day) 7 r) Example_run.day)
    /\ OrderRead.items r = []
    /\ OrderRead.total_amount r = 0%float.
Proof.
  apply (proj2 empty_items_cost_nothing 40%Z 7%N (OrderUpdate.mk Absent (Value []) Absent)
           Example_run.day Example_patch.alice_stored).
  - vm_compute. reflexivity.
  - reflexivity.
Defined.

(** ** Timestamps over time *)

(** With a clock that does not go back, a patch never moves [updated_at]
    backwards: in a store reached by clock reading [t], a product or order
    patch taking a reading [now >= t] returns a snapshot whose [updated_at]
    is not earlier than the stored one, and whose [created_at] is unchanged
    and not later than it. *)
Theorem updated_at_never_decreases t w now :
  reachable t w -> (t <= now)%Z ->
  (forall product_id patch data r w',
     Dict.get (products w) product_id = Some data ->
     update_product now product_id patch w = (Ok r, w') ->
     (ProductRead.updated_at data <= ProductRead.updated_at r)%Z
     /\ ProductRead.created_at r = ProductRead.created_at data
     /\ (ProductRead.created_at r <= ProductRead.updated_at r)%Z)
  /\ (forall order_id patch data r w',
     Dict.get (orders w) order_id = Some data ->
     update_order now order_id patch w = (Ok r, w') ->
     (OrderRead.updated_at data <= OrderRead.updated_at r)%Z
     /\ OrderRead.created_at r = OrderRead.created_at data
     /\ (OrderRead.created_at r <= OrderRead.updated_at r)%Z).
Proof.
  intros Hr Hle. apply reachable_ok in Hr. destruct Hr as [HP HO]. split.
  - intros product_id patch data r w' Hg H. apply update_product_ok in H.
    destruct H as (data' & Hg' & _ & _ & _ & _ & _ & Hc & Hu & _).
    rewrite Hg in Hg'. injection Hg' as <-.
    apply get_In_values in Hg. destruct (HP data Hg) as [H1 H2].
    rewrite Hc, Hu. repeat split; lia.
  - intros order_id patch data r w' Hg H. apply update_order_ok in H.
    destruct H as (_ & _ & data' & priced & Hg' & ->).
    rewrite Hg in Hg'. injection Hg' as <-.
    apply get_In_values in Hg. destruct (HO data Hg) as (H1 & H2 & _).
    unfold patched_order. simpl. repeat split; lia.
Qed.

Lemma updated_at_never_decreases_witness :
  (ProductRead.updated_at Example_more.widget_stored
   <= ProductRead.updated_at (ProductRead.mk 1 "Widget" None 19.99 250 10 40))%Z.
Proof.
  refine (proj1 (proj1 (@updated_at_never_decreases 30%Z Example_run.day 40%Z
                          day_reachable _)
                   1%N Example_more.reprice Example_more.widget_stored
                   (ProductRead.mk 1 "Widget" None 19.99 250 10 40)
                   (snd (update_product 40 1 Example_more.reprice Example_run.day))
                   eq_refl eq_refl)).
  lia.
Defined.
